(** * Scan resolution and analytics core of the QR code generator

    A shallow embedding of the JavaScript sources

      - the Firebase configuration script ([RateLimiter], [FirebaseStatus],
        [FirebaseManager]),
      - the security utilities script ([SecurityUtils], [CryptoManager]),
      - [js/redirect.js] ([QRRedirectManager]),

    followed by the properties of the specification that concern them.

    Conventions.  A JavaScript string is a [string]; its characters are
    code units below 256.  Timestamps and counters are integers ([Z]).
    A [Map] keyed by strings is a [gmap string _]; a plain object whose
    enumeration order is observed by the code is an association list in
    enumeration order.  The stores are read and written under
    identifiers that are keys of theirs, as [generateUniqueId] makes
    them (see [Obj.key]): an identifier that names a property every
    object inherits, or that is a path of several segments for the
    backend, reaches things that are not records and is not covered. *)

From Stdlib Require Import ZArith List String Ascii Bool Lia Sorted Permutation.
From stdpp Require Import base gmap list strings.

Local Open Scope Z_scope.

(** ** RateLimiter *)

Module RateLimiter.

(** [this.requests], [this.maxRequests], [this.timeWindow]. *)
Record t : Type := mk {
  requests : gmap string (list Z);
  maxRequests : Z;
  timeWindow : Z
}.

(** [constructor()] *)
Definition new : t :=
  {| requests := ∅; maxRequests := 10; timeWindow := 60000 |}.

(** The default value of the [userId] parameter. *)
Definition anonymous : string := "anonymous".

(** [this.requests.get(userId) || []] : an array is truthy, so the
    alternative is taken exactly when the key is absent. *)
Definition userRequests (rl : t) (userId : string) : list Z :=
  default [] (requests rl !! userId).

(** [userRequests.filter(time => now - time < this.timeWindow)] *)
Definition recentRequests (now : Z) (rl : t) (userId : string) : list Z :=
  List.filter (fun time => now - time <? timeWindow rl) (userRequests rl userId).

(** [canMakeRequest(userId)], with [now] the value read from [Date.now()]. *)
Definition canMakeRequest (now : Z) (userId : string) (rl : t) : bool * t :=
  let recent := recentRequests now rl userId in
  if Z.of_nat (length recent) >=? maxRequests rl then (false, rl)
  else (true, {| requests := <[userId := recent ++ [now]]> (requests rl);
                 maxRequests := maxRequests rl;
                 timeWindow := timeWindow rl |}).

(** [getRemainingRequests(userId)] *)
Definition getRemainingRequests (now : Z) (userId : string) (rl : t) : Z :=
  Z.max 0 (maxRequests rl - Z.of_nat (length (recentRequests now rl userId))).

(** Successive calls by one actor at the given clock readings. *)
Fixpoint calls (times : list Z) (userId : string) (rl : t) : list bool * t :=
  match times with
  | [] => ([], rl)
  | now :: rest =>
      let '(b, rl1) := canMakeRequest now userId rl in
      let '(bs, rl2) := calls rest userId rl1 in
      (b :: bs, rl2)
  end.

(** The limits set by the constructor; no method assigns them. *)
Definition configured (rl : t) : Prop :=
  maxRequests rl = 10 /\ timeWindow rl = 60000.

End RateLimiter.

(** ** JavaScript strings *)

Module JSString.

Definition is_upper (c : ascii) : bool :=
  let n := nat_of_ascii c in (65 <=? n)%nat && (n <=? 90)%nat.

Definition is_lower (c : ascii) : bool :=
  let n := nat_of_ascii c in (97 <=? n)%nat && (n <=? 122)%nat.

Definition is_digit (c : ascii) : bool :=
  let n := nat_of_ascii c in (48 <=? n)%nat && (n <=? 57)%nat.

Definition is_alpha (c : ascii) : bool := is_upper c || is_lower c.

(** [\w] of a regular expression without the [u] flag. *)
Definition is_word (c : ascii) : bool :=
  is_alpha c || is_digit c || (c =? "_")%char.

(** [\s] restricted to code units below 256: tab, line feed, vertical
    tab, form feed, carriage return, space, no-break space. *)
Definition is_space (c : ascii) : bool :=
  let n := nat_of_ascii c in
  ((9 <=? n)%nat && (n <=? 13)%nat) || (n =? 32)%nat || (n =? 160)%nat.

(** Line terminators, which [.] does not match. *)
Definition is_line_terminator (c : ascii) : bool :=
  let n := nat_of_ascii c in (n =? 10)%nat || (n =? 13)%nat.

(** Lower-casing of one code unit: the ASCII capitals, and the Latin-1
    capitals 0xC0..0xDE other than the multiplication sign 0xD7. *)
Definition lower_char (c : ascii) : ascii :=
  let n := nat_of_ascii c in
  if is_upper c then ascii_of_nat (n + 32)
  else if (192 <=? n)%nat && (n <=? 222)%nat && negb (n =? 215)%nat
       then ascii_of_nat (n + 32)
  else c.

(** [s.toLowerCase()] *)
Fixpoint toLowerCase (s : string) : string :=
  match s with
  | EmptyString => EmptyString
  | String c s' => String (lower_char c) (toLowerCase s')
  end.

(** Two code units match under the [i] flag; the patterns of this
    program are ASCII, and no code unit above 127 is equated with an
    ASCII one. *)
Definition eq_ci (p c : ascii) : bool :=
  if is_alpha p then
    is_alpha c && (lower_char p =? lower_char c)%char
  else (p =? c)%char.

(** [s.startsWith(p)] *)
Fixpoint startsWith (p s : string) : bool :=
  match p, s with
  | EmptyString, _ => true
  | String a p', String b s' => (a =? b)%char && startsWith p' s'
  | String _ _, EmptyString => false
  end.

(** [p] matches at the start of [s], ignoring case. *)
Fixpoint startsWith_ci (p s : string) : bool :=
  match p, s with
  | EmptyString, _ => true
  | String a p', String b s' => eq_ci a b && startsWith_ci p' s'
  | String _ _, EmptyString => false
  end.

(** [s.includes(p)] *)
Fixpoint includes (p s : string) : bool :=
  startsWith p s ||
  match s with
  | EmptyString => false
  | String _ s' => includes p s'
  end.

(** [s.substring(0, n)] *)
Fixpoint take (n : nat) (s : string) : string :=
  match n, s with
  | S k, String c s' => String c (take k s')
  | _, _ => EmptyString
  end.

Fixpoint drop (n : nat) (s : string) : string :=
  match n, s with
  | S k, String _ s' => drop k s'
  | _, _ => s
  end.

(** [s.substr(start, len)] for non-negative arguments. *)
Definition substr (start len : nat) (s : string) : string :=
  take len (drop start s).

(** [s.replace(re, '')] for a global regular expression [re] that
    matches no empty string: [matchAt s] is the length of the match of
    [re] at the start of [s], if there is one.  The scan goes left to
    right and resumes after each match. *)
Fixpoint removeAll_from (matchAt : string -> option nat) (skip : nat) (s : string)
  : string :=
  match s with
  | EmptyString => EmptyString
  | String c s' =>
      match skip with
      | S k => removeAll_from matchAt k s'
      | O =>
          match matchAt s with
          | Some (S n) => removeAll_from matchAt n s'
          | _ => String c (removeAll_from matchAt O s')
          end
      end
  end.

Definition removeAll (matchAt : string -> option nat) (s : string) : string :=
  removeAll_from matchAt O s.

End JSString.

(** ** The platform

    What the scripts rely on and do not define: built-in functions of
    the browser and the key order of the networked backend.  A built-in
    that can throw returns [None] where it throws.  Nothing is assumed
    about them: the properties below hold whatever they compute. *)

(** A value produced by [JSON.parse]; a number is kept as its lexeme. *)
#[local] Set Warnings "-register-all".
Inductive JSON : Type :=
| JNull
| JBool (b : bool)
| JNumber (lexeme : string)
| JString (s : string)
| JArray (items : list JSON)
| JObject (members : list (string * JSON)).

Class Platform : Type := {
  (** What the URL parser makes of an input once its scheme is read:
      [url_remainder_ok scheme rest] says whether [rest], the input
      after the colon, parses for that scheme (host, port, path). *)
  url_remainder_ok : string -> string -> bool;
  (** [decodeURIComponent(s)]; [None] for a [URIError]. *)
  decodeURIComponent : string -> option string;
  (** [atob(s)]; [None] for an [InvalidCharacterError]. *)
  atob : string -> option string;
  (** [JSON.parse(s)]; [None] for a [SyntaxError]. *)
  JSON_parse : string -> option JSON;
  (** The order in which the backend lists two children that have the
      same [createdAt]: by key. *)
  key_leb : string -> string -> bool
}.

(** *** [new URL(input)] without a base

    The part of the URL parser that reads the scheme: the input is
    stripped of leading and trailing C0 controls and spaces and of every
    tab and newline; a scheme is an ASCII letter followed by letters,
    digits, [+], [-] and [.], up to a colon; an input with no scheme
    fails, there being no base URL. *)

Module URL.
Import JSString.

Definition is_c0_or_space (c : ascii) : bool := (nat_of_ascii c <=? 32)%nat.

Definition is_tab_or_newline (c : ascii) : bool :=
  let n := nat_of_ascii c in (n =? 9)%nat || (n =? 10)%nat || (n =? 13)%nat.

Fixpoint trim_leading (s : string) : string :=
  match s with
  | EmptyString => EmptyString
  | String c s' => if is_c0_or_space c then trim_leading s' else s
  end.

Fixpoint trim_trailing (s : string) : string :=
  match s with
  | EmptyString => EmptyString
  | String c s' =>
      match trim_trailing s' with
      | EmptyString => if is_c0_or_space c then EmptyString else String c EmptyString
      | r => String c r
      end
  end.

Fixpoint remove_tab_newline (s : string) : string :=
  match s with
  | EmptyString => EmptyString
  | String c s' =>
      if is_tab_or_newline c then remove_tab_newline s'
      else String c (remove_tab_newline s')
  end.

Definition is_scheme_char (c : ascii) : bool :=
  is_alpha c || is_digit c || (c =? "+")%char || (c =? "-")%char || (c =? ".")%char.

(** Scheme state: [buffer] holds the lower-cased scheme read so far. *)
Fixpoint scheme_state (buffer s : string) : option (string * string) :=
  match s with
  | EmptyString => None
  | String c s' =>
      if is_scheme_char c
      then scheme_state (buffer +:+ String (lower_char c) EmptyString) s'
      else if (c =? ":")%char then Some (buffer, s')
      else None
  end.

(** Scheme start state. *)
Definition scheme_start_state (s : string) : option (string * string) :=
  match s with
  | String c s' =>
      if is_alpha c then scheme_state (String (lower_char c) EmptyString) s'
      else None
  | EmptyString => None
  end.

(** [new URL(input).protocol], or [None] where the constructor throws
    a [TypeError]. *)
Definition protocol `{Platform} (input : string) : option string :=
  match scheme_start_state
          (remove_tab_newline (trim_trailing (trim_leading input))) with
  | Some (scheme, rest) =>
      if url_remainder_ok scheme rest then Some (scheme +:+ ":") else None
  | None => None
  end.

End URL.

(** ** SecurityUtils *)

Module SecurityUtils.
Import JSString.

(** [div.textContent = text; return div.innerHTML]: the serialisation
    of a text node. *)
Fixpoint serializeText (s : string) : string :=
  match s with
  | EmptyString => EmptyString
  | String c s' =>
      let r := serializeText s' in
      if (c =? "&")%char then "&amp;" +:+ r
      else if (c =? "<")%char then "&lt;" +:+ r
      else if (c =? ">")%char then "&gt;" +:+ r
      else if (nat_of_ascii c =? 160)%nat then "&nbsp;" +:+ r
      else String c r
  end.

(** [escapeHTML(text)] *)
Definition escapeHTML (text : string) : string :=
  match text with
  | EmptyString => EmptyString
  | _ => serializeText text
  end.

(** Number of leading characters satisfying [f], and what follows them. *)
Fixpoint span (f : ascii -> bool) (s : string) : nat * string :=
  match s with
  | String c s' =>
      if f c then let '(n, r) := span f s' in (S n, r) else (O, s)
  | EmptyString => (O, s)
  end.

(** [[^>]*>] : up to and including the first [>]. *)
Fixpoint upto_gt (s : string) : option (nat * string) :=
  match s with
  | EmptyString => None
  | String c s' =>
      if (c =? ">")%char then Some (1%nat, s')
      else match upto_gt s' with
           | Some (n, r) => Some (S n, r)
           | None => None
           end
  end.

(** [.*?<\/script>] : the shortest run without a line terminator that
    is followed by the closing tag. *)
Fixpoint upto_close (s : string) : option nat :=
  if startsWith_ci "</script>" s then Some 9%nat
  else match s with
       | EmptyString => None
       | String c s' =>
           if is_line_terminator c then None
           else match upto_close s' with
                | Some n => Some (S n)
                | None => None
                end
       end.

(** [/<script[^>]*>.*?<\/script>/gi] *)
Definition match_script (s : string) : option nat :=
  if startsWith_ci "<script" s then
    match upto_gt (drop 7 s) with
    | Some (n, r) =>
        match upto_close r with
        | Some m => Some (7 + n + m)%nat
        | None => None
        end
    | None => None
    end
  else None.

(** [/javascript:/gi] *)
Definition match_javascript (s : string) : option nat :=
  if startsWith_ci "javascript:" s then Some 11%nat else None.

(** [/on\w+\s*=/gi] *)
Definition match_handler (s : string) : option nat :=
  if startsWith_ci "on" s then
    let '(w, r1) := span is_word (drop 2 s) in
    match w with
    | O => None
    | S _ =>
        let '(sp, r2) := span is_space r1 in
        match r2 with
        | String c _ => if (c =? "=")%char then Some (2 + w + sp + 1)%nat else None
        | EmptyString => None
        end
    end
  else None.

(** [sanitizeText(text)] *)
Definition sanitizeText (text : string) : string :=
  match text with
  | EmptyString => EmptyString
  | _ =>
      let sanitized := escapeHTML text in
      let sanitized := removeAll match_script sanitized in
      let sanitized := removeAll match_javascript sanitized in
      let sanitized := removeAll match_handler sanitized in
      sanitized
  end.

(** [truncateText(text, maxLength)], for [maxLength >= 3]. *)
Definition truncateText (text : string) (maxLength : nat) : string :=
  match text with
  | EmptyString => EmptyString
  | _ =>
      let sanitized := sanitizeText text in
      if (String.length sanitized <=? maxLength)%nat then sanitized
      else take (maxLength - 3) sanitized +:+ "..."
  end.

End SecurityUtils.

(** ** Records and stores *)

(** The record of one generated code, as [createQRCode] builds it.  A
    field that holds [null] is [None]. *)
Module QR.
Record data : Type := mk {
  id : string;
  name : string;
  originalText : string;
  logoPath : option string;
  scanCount : Z;
  createdAt : Z;
  lastScanned : option Z
}.
End QR.

(** The object kept under ['qr-codes'] in the browser: identifiers to
    records, in the order in which the properties are enumerated. *)
Module Obj.

Definition t : Type := list (string * QR.data).

(** The properties an object inherits from [Object.prototype]. *)
Definition inherited : list string :=
  ["constructor"; "__proto__"; "hasOwnProperty"; "isPrototypeOf";
   "propertyIsEnumerable"; "toLocaleString"; "toString"; "valueOf";
   "__defineGetter__"; "__defineSetter__"; "__lookupGetter__";
   "__lookupSetter__"].

(** The characters that cannot occur in a child's name in the networked
    backend: the path separator, and those a path may not hold. *)
Definition is_path_char (c : ascii) : bool :=
  let n := nat_of_ascii c in
  existsb (Ascii.eqb c) ["/"; "."; "#"; "$"; "["; "]"]%char
  || (n <? 32)%nat || (n =? 127)%nat.

Fixpoint has_path_char (s : string) : bool :=
  match s with
  | EmptyString => false
  | String c s' => is_path_char c || has_path_char s'
  end.

(** A key of the stores: it names a child of [qr-codes] in the backend,
    and in an object it reaches an own property or nothing. *)
Definition key (k : string) : bool :=
  negb (existsb (String.eqb k) inherited) && negb (has_path_char k).

(** [o[k]], for a key [k]. *)
Fixpoint get (k : string) (o : t) : option QR.data :=
  match o with
  | [] => None
  | (k', v) :: o' => if String.eqb k k' then Some v else get k o'
  end.

Definition is_digit (c : ascii) : bool :=
  let n := nat_of_ascii c in (48 <=? n)%nat && (n <=? 57)%nat.

Fixpoint decimal (acc : N) (s : string) : option N :=
  match s with
  | EmptyString => Some acc
  | String c s' =>
      if is_digit c
      then decimal (10 * acc + (N_of_ascii c - 48))%N s'
      else None
  end.

(** An array index: the canonical decimal form of an integer below
    [2^32 - 1].  Such keys are enumerated first, in ascending order. *)
Definition array_index (k : string) : option N :=
  match k with
  | EmptyString => None
  | String c rest =>
      if (c =? "0")%char && negb (String.eqb rest EmptyString) then None
      else match decimal 0%N k with
           | Some n => if (n <? 4294967295)%N then Some n else None
           | None => None
           end
  end.

(** Where a new array-index key [n] goes: before the first key that is
    not an array index or is a greater one. *)
Fixpoint insert_index (n : N) (k : string) (v : QR.data) (o : t) : t :=
  match o with
  | [] => [(k, v)]
  | (k', v') :: o' =>
      match array_index k' with
      | Some n' =>
          if (n <? n')%N then (k, v) :: o else (k', v') :: insert_index n k v o'
      | None => (k, v) :: o
      end
  end.

Fixpoint replace (k : string) (v : QR.data) (o : t) : t :=
  match o with
  | [] => []
  | (k', v') :: o' =>
      if String.eqb k k' then (k, v) :: o' else (k', v') :: replace k v o'
  end.

(** [o[k] = v] : an existing property keeps its place; a new one is
    created last, or among the array indices. *)
Definition set (k : string) (v : QR.data) (o : t) : t :=
  match get k o with
  | Some _ => replace k v o
  | None =>
      match array_index k with
      | Some n => insert_index n k v o
      | None => o ++ [(k, v)]
      end
  end.

End Obj.

(** A string held by [localStorage], by what the program can make of it. *)
Inductive Item : Type :=
| PlainJSON (o : Obj.t)
  (** [JSON.stringify(o)] *)
| Encrypted (key : nat) (o : Obj.t)
  (** base64 of an initialisation vector followed by the AES-GCM
      encryption of [JSON.stringify(o)] under the key [key] *)
| RawKey (key : nat)
  (** base64 of the exported key [key] *)
| Opaque (s : string)
  (** any other string: neither JSON, nor a ciphertext, nor a key *).

(** Operations of the networked backend that may be rejected. *)
Inductive NetOp : Type := OpGet | OpSet | OpTransaction | OpQuery.

Inductive Level : Type := LOG | WARN | ERROR.

(** What the page shows. *)
Inductive Page : Type :=
| PageLoading
| PagePreview (text : string)
  (** the paragraph reads [Redirecting to: text] *)
| PageError (message : string)
  (** [showError(message)] *)
| PageText (markup : string)
  (** [showTextContent]: the markup placed in the content box *)
| PageNavigated (href : string)
  (** [window.location.href = href] *).

Record World : Type := mkWorld {
  (** [window.location.search]: the [id] and [data] parameters, as
      [URLSearchParams.get] returns them *)
  search_id : option string;
  search_data : option string;
  (** whether the Firebase configuration script was loaded *)
  manager_loaded : bool;
  (** [typeof firebase !== 'undefined'] and [window.database] *)
  firebase_defined : bool;
  window_database : bool;
  (** the flags of the configuration script *)
  firebaseInitialized : bool;
  databaseAvailable : bool;
  (** the children of [qr-codes] in the networked backend, the
      operations it rejects, and the server's clock *)
  remote : gmap string QR.data;
  remote_fault : NetOp -> bool;
  server_time : Z;
  (** [localStorage]; whether [setItem] throws for want of space *)
  localStorage : gmap string Item;
  quota_exceeded : bool;
  (** whether [window.crypto.subtle] works, and the next key it
      generates *)
  crypto_ok : bool;
  fresh_key : nat;
  (** [Date.now()], and [Math.random().toString(36)]: [0], or [0.] and
      digits in base 36 *)
  clock : Z;
  random36 : string;
  (** console output, latest first *)
  console : list (Level * string);
  page : Page
}.

Definition with_remote (r : gmap string QR.data) (w : World) : World :=
  mkWorld (search_id w) (search_data w) (manager_loaded w) (firebase_defined w)
    (window_database w) (firebaseInitialized w) (databaseAvailable w)
    r (remote_fault w) (server_time w) (localStorage w) (quota_exceeded w)
    (crypto_ok w) (fresh_key w) (clock w) (random36 w) (console w) (page w).

Definition with_localStorage (l : gmap string Item) (w : World) : World :=
  mkWorld (search_id w) (search_data w) (manager_loaded w) (firebase_defined w)
    (window_database w) (firebaseInitialized w) (databaseAvailable w)
    (remote w) (remote_fault w) (server_time w) l (quota_exceeded w)
    (crypto_ok w) (fresh_key w) (clock w) (random36 w) (console w) (page w).

Definition with_fresh_key (k : nat) (w : World) : World :=
  mkWorld (search_id w) (search_data w) (manager_loaded w) (firebase_defined w)
    (window_database w) (firebaseInitialized w) (databaseAvailable w)
    (remote w) (remote_fault w) (server_time w) (localStorage w) (quota_exceeded w)
    (crypto_ok w) k (clock w) (random36 w) (console w) (page w).

Definition with_console (c : list (Level * string)) (w : World) : World :=
  mkWorld (search_id w) (search_data w) (manager_loaded w) (firebase_defined w)
    (window_database w) (firebaseInitialized w) (databaseAvailable w)
    (remote w) (remote_fault w) (server_time w) (localStorage w) (quota_exceeded w)
    (crypto_ok w) (fresh_key w) (clock w) (random36 w) c (page w).

Definition with_page (p : Page) (w : World) : World :=
  mkWorld (search_id w) (search_data w) (manager_loaded w) (firebase_defined w)
    (window_database w) (firebaseInitialized w) (databaseAvailable w)
    (remote w) (remote_fault w) (server_time w) (localStorage w) (quota_exceeded w)
    (crypto_ok w) (fresh_key w) (clock w) (random36 w) (console w) p.

(** ** Computations

    A function of the scripts runs on the world and either returns or
    throws; what it did to the world before throwing stays done.  The
    scripts are asynchronous but never run two operations at once, so
    an [await] is a plain sequencing. *)

Inductive Completion (A : Type) : Type :=
| Return (a : A)
| Throw (error : string).
Arguments Return {A} a.
Arguments Throw {A} error.

Definition JS (A : Type) : Type := World -> Completion A * World.

Definition ret {A} (a : A) : JS A := fun w => (Return a, w).

Definition throw {A} (error : string) : JS A := fun w => (Throw error, w).

Definition bind {A B} (m : JS A) (k : A -> JS B) : JS B :=
  fun w =>
    match m w with
    | (Return a, w1) => k a w1
    | (Throw e, w1) => (Throw e, w1)
    end.

(** [try { m } catch (error) { handler error }] *)
Definition tryCatch {A} (m : JS A) (handler : string -> JS A) : JS A :=
  fun w =>
    match m w with
    | (Return a, w1) => (Return a, w1)
    | (Throw e, w1) => handler e w1
    end.

Declare Scope js_scope.
Delimit Scope js_scope with js.
Notation "x <- m ;; k" := (bind m (fun x => k))
  (at level 100, m at next level, right associativity) : js_scope.
Notation "m ;; k" := (bind m (fun _ => k))
  (at level 100, right associativity) : js_scope.
Local Open Scope js_scope.

(** The world and the completion a computation ends with. *)
Definition exec {A} (m : JS A) (w : World) : World := snd (m w).
Definition result {A} (m : JS A) (w : World) : Completion A := fst (m w).

Definition throws {A} (m : JS A) (w : World) : bool :=
  match result m w with
  | Throw _ => true
  | Return _ => false
  end.

(** *** The platform *)

Definition get {A} (f : World -> A) : JS A := fun w => (Return (f w), w).

Definition modify (f : World -> World) : JS unit := fun w => (Return tt, f w).

(** [console.log], [console.warn], [console.error]: the first argument
    is recorded. *)
Definition console_out (l : Level) (message : string) : JS unit :=
  modify (fun w => with_console ((l, message) :: console w) w).

(** [Date.now()] *)
Definition Date_now : JS Z := get clock.

(** [localStorage.getItem(key)] *)
Definition localStorage_getItem (key : string) : JS (option Item) :=
  get (fun w => localStorage w !! key).

(** [localStorage.setItem(key, value)] *)
Definition localStorage_setItem (key : string) (value : Item) : JS unit :=
  fun w =>
    if quota_exceeded w then (Throw "QuotaExceededError", w)
    else (Return tt, with_localStorage (<[key := value]> (localStorage w)) w).

(** [localStorage.removeItem(key)] *)
Definition localStorage_removeItem (key : string) : JS unit :=
  modify (fun w => with_localStorage (delete key (localStorage w)) w).

(** A value read from [localStorage] is truthy unless it is [null] or
    the empty string: [if_truthy v] is the string of a truthy [v]. *)
Definition if_truthy (v : option Item) : option Item :=
  match v with
  | None => None
  | Some (Opaque EmptyString) => None
  | Some item => Some item
  end.

(** [window.crypto.subtle.generateKey] followed by [exportKey]. *)
Definition subtle_generateKey : JS nat :=
  fun w =>
    if crypto_ok w then (Return (fresh_key w), with_fresh_key (S (fresh_key w)) w)
    else (Throw "TypeError", w).

(** [atob(keyData)] followed by [window.crypto.subtle.importKey]. *)
Definition subtle_importKey (keyData : Item) : JS nat :=
  fun w =>
    match keyData with
    | RawKey k => if crypto_ok w then (Return k, w) else (Throw "TypeError", w)
    | Encrypted _ _ => (Throw "DataError", w)
    | PlainJSON _ | Opaque _ => (Throw "InvalidCharacterError", w)
    end.

(** [JSON.stringify], [window.crypto.subtle.encrypt] and [btoa]. *)
Definition subtle_encrypt (key : nat) (data : Obj.t) : JS Item :=
  fun w =>
    if crypto_ok w then (Return (Encrypted key data), w) else (Throw "TypeError", w).

(** [atob], [window.crypto.subtle.decrypt] and [JSON.parse]. *)
Definition subtle_decrypt (key : nat) (encrypted : Item) : JS Obj.t :=
  fun w =>
    match encrypted with
    | Encrypted k o =>
        if crypto_ok w then
          if (k =? key)%nat then (Return o, w) else (Throw "OperationError", w)
        else (Throw "TypeError", w)
    | RawKey _ => if crypto_ok w then (Throw "OperationError", w) else (Throw "TypeError", w)
    | PlainJSON _ | Opaque _ => (Throw "InvalidCharacterError", w)
    end.

(** [JSON.parse(regular)] of a value read from [localStorage]. *)
Definition parse_stored (regular : Item) : JS Obj.t :=
  match regular with
  | PlainJSON o => ret o
  | _ => throw "SyntaxError"
  end.

(** ** CryptoManager *)

Module CryptoManager.

(** [getOrCreateKey()] *)
Definition getOrCreateKey : JS nat :=
  keyData <- localStorage_getItem "app_crypto_key_v2" ;;
  match if_truthy keyData with
  | None =>
      key <- subtle_generateKey ;;
      localStorage_setItem "app_crypto_key_v2" (RawKey key) ;;
      ret key
  | Some item => subtle_importKey item
  end.

(** [setItem(key, data)] *)
Definition setItem (key : string) (data : Obj.t) : JS unit :=
  tryCatch
    (cryptoKey <- getOrCreateKey ;;
     encrypted <- subtle_encrypt cryptoKey data ;;
     localStorage_setItem ("encrypted_" +:+ key) encrypted)
    (fun _ =>
       console_out ERROR "Secure storage failed:" ;;
       localStorage_setItem key (PlainJSON data)).

(** [getItem(key)]; [None] is [null]. *)
Definition getItem (key : string) : JS (option Obj.t) :=
  tryCatch
    (encrypted <- localStorage_getItem ("encrypted_" +:+ key) ;;
     match if_truthy encrypted with
     | Some item =>
         cryptoKey <- getOrCreateKey ;;
         data <- subtle_decrypt cryptoKey item ;;
         ret (Some data)
     | None =>
         regular <- localStorage_getItem key ;;
         match if_truthy regular with
         | Some item =>
             data <- parse_stored item ;;
             setItem key data ;;
             localStorage_removeItem key ;;
             ret (Some data)
         | None => ret None
         end
     end)
    (fun _ =>
       console_out ERROR "Secure retrieval failed:" ;;
       ret None).

End CryptoManager.

(** ** Numbers in base 36 *)

Module Base36.

Definition digit (d : N) : ascii :=
  if (d <? 10)%N then ascii_of_N (48 + d) else ascii_of_N (87 + d).

Fixpoint digits (fuel : nat) (n : N) (acc : string) : string :=
  match fuel with
  | O => acc
  | S fuel' =>
      let acc' := String (digit (n mod 36)%N) acc in
      if (n / 36 =? 0)%N then acc' else digits fuel' (n / 36)%N acc'
  end.

(** [n.toString(36)] for an integer [n]. *)
Definition toString (n : Z) : string :=
  match n with
  | Z0 => "0"
  | Zpos p => digits (Pos.size_nat p) (Npos p) EmptyString
  | Zneg p => "-" +:+ digits (Pos.size_nat p) (Npos p) EmptyString
  end.

(** The digits of [num/den], a number below one, after the point, if
    there are at most [fuel] of them. *)
Fixpoint fraction_digits (fuel : nat) (num den : N) : option string :=
  if (num =? 0)%N then Some EmptyString
  else match fuel with
       | O => None
       | S fuel' =>
           match fraction_digits fuel' ((num * 36) mod den)%N den with
           | Some ds => Some (String (digit (num * 36 / den)%N) ds)
           | None => None
           end
       end.

(** [x.toString(36)] for a number [x = num/den] strictly between zero
    and one whose expansion in base 36 is a few digits long: the digits
    are then exact, and the string is [0.] followed by them. *)
Definition fraction (num den : N) : option string :=
  match fraction_digits 8 num den with
  | Some ds => Some ("0." +:+ ds)
  | None => None
  end.

End Base36.

(** ** FirebaseStatus *)

Module FirebaseStatus.

(** [isAvailable()] *)
Definition isAvailable : JS bool :=
  get (fun w => firebaseInitialized w && databaseAvailable w).

(** [isInitialized()] *)
Definition isInitialized : JS bool := get firebaseInitialized.

(** [getStatus()] *)
Definition getStatus : JS string :=
  get (fun w =>
         if negb (firebaseInitialized w) then "offline"
         else if negb (databaseAvailable w) then "disconnected"
         else "connected").

End FirebaseStatus.

(** ** FirebaseManager

    No function of the manager calls [FirebaseStatus]: each chooses
    between the backend and the browser's storage by the test
    [typeof firebase !== 'undefined' && window.database]. *)

Module FirebaseManager.
Section WithPlatform.
Context `{Platform}.

(** [typeof firebase !== 'undefined' && window.database] *)
Definition backend_handle : JS bool :=
  get (fun w => firebase_defined w && window_database w).

(** *** The calls to the backend's SDK *)

(** [window.database.ref('qr-codes/' + qrId).once('value')], then
    [snapshot.val()]. *)
Definition database_once (qrId : string) : JS (option QR.data) :=
  fun w =>
    if remote_fault w OpGet then (Throw "rejected", w)
    else (Return (remote w !! qrId), w).

(** [window.database.ref('qr-codes/' + qrId).set(value)]; [value] may
    hold the placeholder [ServerValue.TIMESTAMP], which the server
    replaces with its time. *)
Definition database_set (qrId : string) (value : Z -> QR.data) : JS unit :=
  fun w =>
    if remote_fault w OpSet then (Throw "rejected", w)
    else (Return tt, with_remote (<[qrId := value (server_time w)]> (remote w)) w).

(** [qrRef.transaction(update)] : the child is replaced by what
    [update] returns for its current value, in one step. *)
Definition database_transaction (qrId : string)
    (update : Z -> option QR.data -> option QR.data) : JS unit :=
  fun w =>
    if remote_fault w OpTransaction then (Throw "rejected", w)
    else
      match update (server_time w) (remote w !! qrId) with
      | Some d => (Return tt, with_remote (<[qrId := d]> (remote w)) w)
      | None => (Return tt, with_remote (delete qrId (remote w)) w)
      end.

(** [orderByChild('createdAt')]: ascending [createdAt], then key. *)
Definition child_leb (a b : string * QR.data) : bool :=
  (QR.createdAt (snd a) <? QR.createdAt (snd b))
  || ((QR.createdAt (snd a) =? QR.createdAt (snd b)) && key_leb (fst a) (fst b)).

Fixpoint insert_child (x : string * QR.data) (l : list (string * QR.data))
  : list (string * QR.data) :=
  match l with
  | [] => [x]
  | y :: l' => if child_leb x y then x :: l else y :: insert_child x l'
  end.

Definition orderByChild_createdAt (r : gmap string QR.data)
  : list (string * QR.data) :=
  fold_right insert_child [] (map_to_list r).

(** [limitToLast(n)] *)
Definition limitToLast {A} (n : nat) (l : list A) : list A :=
  List.skipn (length l - n) l.

(** [window.database.ref('qr-codes').orderByChild('createdAt')
    .limitToLast(n).once('value')]: the children a [snapshot.forEach]
    then visits, in order. *)
Definition database_recent (n : nat) : JS (list QR.data) :=
  fun w =>
    if remote_fault w OpQuery then (Throw "rejected", w)
    else (Return (map snd (limitToLast n (orderByChild_createdAt (remote w)))), w).

(** *** The manager *)

(** [x || 0] for a number [x]. *)
Definition or_zero (x : Z) : Z := if x =? 0 then 0 else x.

(** The double nearest to the integer [n], and of two that are as
    near the one whose significand is even: [n] itself up to [2^53]
    in magnitude; beyond, a multiple of the power of two that leaves
    53 bits.  Integers past the largest double are not covered. *)
Definition double (n : Z) : Z :=
  if Z.abs n <=? 2 ^ 53 then n
  else
    let ulp := 2 ^ (Z.log2 (Z.abs n) - 52) in
    let q := Z.abs n / ulp in
    let r := Z.abs n mod ulp in
    let significand :=
      if 2 * r <? ulp then q
      else if ulp <? 2 * r then q + 1
      else if Z.even q then q
      else q + 1 in
    Z.sgn n * (significand * ulp).

(** [x + 1] for a count [x], a number that holds an integer: the sum
    is rounded to a double. *)
Definition plus_one (x : Z) : Z := double (x + 1).
Arguments plus_one : simpl never.

(** The record once a scan at time [at_] is counted:
    [scanCount = (scanCount || 0) + 1] and [lastScanned = at_]. *)
Definition scanned (at_ : Z) (d : QR.data) : QR.data :=
  QR.mk (QR.id d) (QR.name d) (QR.originalText d) (QR.logoPath d)
        (plus_one (or_zero (QR.scanCount d))) (QR.createdAt d) (Some at_).

(** [qrData.originalText === originalText && qrData.name === name] *)
Definition is_duplicate (originalText name : string) (qrData : QR.data) : bool :=
  String.eqb (QR.originalText qrData) originalText
  && String.eqb (QR.name qrData) name.

(** [checkForDuplicate(originalText, name)] *)
Definition checkForDuplicate (originalText name : string) : JS (option QR.data) :=
  tryCatch
    (handle <- backend_handle ;;
     if handle then
       snapshot <- database_recent 50 ;;
       ret (fold_left
              (fun duplicate qrData =>
                 if is_duplicate originalText name qrData then Some qrData
                 else duplicate)
              snapshot None)
     else
       stored <- CryptoManager.getItem "qr-codes" ;;
       let localQRs := default [] stored in
       ret (List.find (is_duplicate originalText name) (map snd localQRs)))
    (fun _ =>
       console_out ERROR "Error checking for duplicates:" ;;
       ret None).

(** [generateUniqueId()] *)
Definition generateUniqueId : JS string :=
  now <- Date_now ;;
  random <- get random36 ;;
  let timestamp := Base36.toString now in
  let randomStr := JSString.substr 2 9 random in
  ret (timestamp +:+ "_" +:+ randomStr).

(** [createQRCode(originalText, name, logoPath)] *)
Definition createQRCode (originalText name : string) (logoPath : option string)
  : JS string :=
  tryCatch
    (qrId <- generateUniqueId ;;
     now <- Date_now ;;
     let qrData := QR.mk qrId name originalText logoPath 0 now None in
     handle <- backend_handle ;;
     (if handle then
        database_set qrId
          (fun timestamp => QR.mk qrId name originalText logoPath 0 timestamp None) ;;
        console_out LOG "QR code created successfully in Firebase:"
      else
        stored <- CryptoManager.getItem "qr-codes" ;;
        let localQRs := Obj.set qrId qrData (default [] stored) in
        CryptoManager.setItem "qr-codes" localQRs ;;
        console_out LOG "QR code created successfully in local storage:") ;;
     ret qrId)
    (fun _ =>
       console_out ERROR "Error creating QR code:" ;;
       throw "Failed to save QR code. Please try again.").

(** [getQRCode(qrId)] *)
Definition getQRCode (qrId : string) : JS (option QR.data) :=
  tryCatch
    ((if String.eqb qrId EmptyString then throw "Invalid QR code ID provided"
      else ret tt) ;;
     handle <- backend_handle ;;
     if handle then database_once qrId
     else
       stored <- CryptoManager.getItem "qr-codes" ;;
       ret (Obj.get qrId (default [] stored)))
    (fun _ =>
       console_out ERROR "Error retrieving QR code:" ;;
       throw "Failed to load QR code data.").

(** [incrementScanCount(qrId)] *)
Definition incrementScanCount (qrId : string) : JS unit :=
  tryCatch
    (handle <- backend_handle ;;
     if handle then
       database_transaction qrId
         (fun timestamp currentData =>
            match currentData with
            | Some d => Some (scanned timestamp d)
            | None => None
            end) ;;
       console_out LOG "Scan count incremented for:"
     else
       stored <- CryptoManager.getItem "qr-codes" ;;
       let localQRs := default [] stored in
       match Obj.get qrId localQRs with
       | Some d =>
           now <- Date_now ;;
           CryptoManager.setItem "qr-codes" (Obj.set qrId (scanned now d) localQRs)
       | None => ret tt
       end ;;
       console_out LOG "Scan count incremented locally for:")
    (fun _ => console_out ERROR "Error incrementing scan count:").

End WithPlatform.
End FirebaseManager.

(** ** QRRedirectManager *)

Module QRRedirectManager.
Section WithPlatform.
Context `{Platform}.

(** [this.qrId] and [this.fallbackData]; [JNull] is [null]. *)
Record t : Type := mk {
  qrId : option string;
  fallbackData : JSON
}.

(** A built-in applied to [s]: its value, or the exception it throws. *)
Definition builtin {A} (error : string) (v : option A) : JS A :=
  match v with
  | Some a => ret a
  | None => throw error
  end.

(** A string that is truthy: neither [null] nor empty. *)
Definition nonempty (s : option string) : option string :=
  match s with
  | Some EmptyString => None
  | _ => s
  end.

(** [getQRIdFromURL()] *)
Definition getQRIdFromURL : JS (option string) := get search_id.

(** [getFallbackDataFromURL()] *)
Definition getFallbackDataFromURL : JS JSON :=
  tryCatch
    (encodedData <- get search_data ;;
     match nonempty encodedData with
     | Some encoded =>
         decoded <- builtin "URIError" (decodeURIComponent encoded) ;;
         decodedData <- builtin "InvalidCharacterError" (atob decoded) ;;
         builtin "SyntaxError" (JSON_parse decodedData)
     | None => ret JNull
     end)
    (fun _ =>
       console_out WARN "Failed to decode fallback data:" ;;
       ret JNull).

(** [showError(message)], on a page that has the elements it looks for. *)
Definition showError (message : string) : JS unit :=
  modify (with_page (PageError message)).

(** [showTextContent(text)] *)
Definition showTextContent (text : string) : JS unit :=
  modify (with_page (PageText (SecurityUtils.sanitizeText text))).

Definition dangerousPatterns : list string :=
  ["javascript:"; "data:"; "vbscript:"; "file:"; "ftp:"; "about:"; "blob:"].

(** [isValidURL(string)].  The assignment [arguments[0] = httpsUrl] of
    the second branch writes to the callee's own arguments object, which
    no caller reads; the function returns a boolean only. *)
Definition isValidURL (string : String.string) : bool :=
  match URL.protocol string with
  | Some protocol =>
      if negb (existsb (String.eqb protocol) ["http:"; "https:"]) then false
      else
        let lowerString := JSString.toLowerCase string in
        if existsb (fun pattern => JSString.includes pattern lowerString)
                   dangerousPatterns
        then false
        else true
  | None =>
      if JSString.includes "." string && negb (JSString.includes " " string) then
        let httpsUrl :=
          if JSString.startsWith "www." string
          then "https://" +:+ string
          else "https://" +:+ string in
        match URL.protocol httpsUrl with
        | Some _ => true
        | None => false
        end
      else false
  end.

(** [redirectToOriginal(originalText)].  The assignment to
    [window.location.href] is taken to start the navigation: a string
    that does not parse relative to the page's address, for which the
    setter throws and the handler shows the error, is not covered. *)
Definition redirectToOriginal (originalText : string) : JS unit :=
  tryCatch
    (let sanitizedText := SecurityUtils.sanitizeText originalText in
     if isValidURL sanitizedText then
       console_out LOG "Redirecting to validated URL:" ;;
       modify (with_page (PageNavigated sanitizedText))
     else
       console_out LOG "Displaying text content (not a valid URL)" ;;
       showTextContent sanitizedText)
    (fun _ =>
       console_out ERROR "Redirect error:" ;;
       showError "Unable to process QR code content safely.").

(** A reference to [FirebaseManager], which throws a [ReferenceError]
    when the script that defines it was not loaded. *)
Definition FirebaseManager_ref : JS unit :=
  fun w => if manager_loaded w then (Return tt, w) else (Throw "ReferenceError", w).

(** The three sources [init] consults, each in its own [try].
    Primary: the Firebase database. *)
Definition source_firebase (id : string) : JS (option QR.data) :=
  tryCatch
    (FirebaseManager_ref ;;
     qrData <- FirebaseManager.getQRCode id ;;
     match qrData with
     | Some _ => console_out LOG "QR data loaded from Firebase" ;; ret qrData
     | None => ret qrData
     end)
    (fun _ => console_out WARN "Firebase access failed:" ;; ret None).

(** Fallback 1: encrypted [localStorage]. *)
Definition source_encrypted (id : string) : JS (option QR.data) :=
  tryCatch
    (stored <- CryptoManager.getItem "qr-codes" ;;
     let qrData := Obj.get id (default [] stored) in
     match qrData with
     | Some _ =>
         console_out LOG "QR data loaded from encrypted localStorage" ;; ret qrData
     | None => ret qrData
     end)
    (fun _ => console_out WARN "Encrypted localStorage access failed:" ;; ret None).

(** Fallback 2: unencrypted [localStorage]. *)
Definition source_legacy (id : string) : JS (option QR.data) :=
  tryCatch
    (unencryptedData <- localStorage_getItem "qr-codes" ;;
     match if_truthy unencryptedData with
     | Some item =>
         parsedData <- parse_stored item ;;
         let qrData := Obj.get id parsedData in
         match qrData with
         | Some _ =>
             console_out LOG "QR data loaded from legacy localStorage" ;; ret qrData
         | None => ret qrData
         end
     | None => ret None
     end)
    (fun _ => console_out WARN "Legacy localStorage access failed:" ;; ret None).

(** The sources in order, each tried only if those before gave nothing. *)
Definition lookup (id : string) : JS (option QR.data) :=
  qrData <- source_firebase id ;;
  qrData <- match qrData with
            | Some _ => ret qrData
            | None => source_encrypted id
            end ;;
  match qrData with
  | Some _ => ret qrData
  | None => source_legacy id
  end.

(** Scan tracking, best effort. *)
Definition track (id : string) : JS unit :=
  tryCatch
    (FirebaseManager_ref ;; FirebaseManager.incrementScanCount id)
    (fun _ => console_out WARN "Scan tracking failed:").

Definition not_found : string :=
  "QR code content not found. The code may have expired or the database may be temporarily unavailable.".

(** [init()].  The [try] block ends by scheduling the redirection with
    [setTimeout]: it yields the text to redirect to, and the callback
    runs once the block is left. *)
Definition init (this : t) : JS unit :=
  match nonempty (qrId this) with
  | None => showError "Invalid QR code link. Missing identifier."
  | Some id =>
      scheduled <-
        tryCatch
          (qrData <- lookup id ;;
           match qrData with
           | None => showError not_found ;; ret None
           | Some qrData =>
               track id ;;
               let sanitizedText :=
                 SecurityUtils.truncateText (QR.originalText qrData) 50 in
               modify (with_page (PagePreview sanitizedText)) ;;
               ret (Some (QR.originalText qrData))
           end)
          (fun _ =>
             console_out ERROR "Redirect initialization error:" ;;
             showError "Unable to process your request. Please check your internet connection and try again." ;;
             ret None) ;;
      match scheduled with
      | Some originalText => redirectToOriginal originalText
      | None => ret tt
      end
  end.

(** [new QRRedirectManager()] *)
Definition constructor : JS t :=
  id <- getQRIdFromURL ;;
  data <- getFallbackDataFromURL ;;
  let this := mk id data in
  init this ;;
  ret this.

End WithPlatform.
End QRRedirectManager.

(** * Vocabulary of the properties *)

(** The timestamps of [l] that lie within the 60,000 ms before [now]. *)
Definition retained (now : Z) (l : list Z) : list Z :=
  List.filter (fun t => now - t <? 60000) l.

(** What no operation on [localStorage] or the console changes. *)
Definition surroundings (w : World) :=
  (search_id w, search_data w, manager_loaded w, firebase_defined w,
   window_database w, firebaseInitialized w, databaseAvailable w,
   remote w, remote_fault w, server_time w, quota_exceeded w, crypto_ok w,
   clock w, random36 w, page w).

(** An object the browser holds under ['qr-codes'], encrypted or not. *)
Definition stored (w : World) (o : Obj.t) : Prop :=
  (exists k, localStorage w !! "encrypted_qr-codes" = Some (Encrypted k o))
  \/ localStorage w !! "qr-codes" = Some (PlainJSON o).

(** The identifier is a key that is in no store: not in the networked
    backend, not in the encrypted cache, not in the unencrypted one. *)
Definition absent (id : string) (w : World) : Prop :=
  Obj.key id = true
  /\ remote w !! id = None
  /\ forall o, stored w o -> Obj.get id o = None.

(** What [incrementScanCount] and its caller write to the console. *)
Definition tracking_messages : list string :=
  ["Scan count incremented for:"; "Scan count incremented locally for:";
   "Error incrementing scan count:"; "Scan tracking failed:"].

(** Between [w] and [w'] the console gained no message of scan tracking. *)
Definition untracked (w w' : World) : Prop :=
  exists events,
    console w' = events ++ console w
    /\ Forall (fun e => ~ In (snd e) tracking_messages) events.

(** Between [w] and [w'] the console gained messages, the last of them
    one of scan tracking. *)
Definition tracked (w w' : World) : Prop :=
  exists l m events,
    console w' = (l, m) :: events ++ console w /\ In m tracking_messages.

(** What [redirectToOriginal] makes the page show for a content. *)
Definition classify `{Platform} (content : string) : Page :=
  let sanitizedText := SecurityUtils.sanitizeText content in
  if QRRedirectManager.isValidURL sanitizedText
  then PageNavigated sanitizedText
  else PageText (SecurityUtils.sanitizeText sanitizedText).

(** What a source of [init] does when the identifier is absent. *)
Definition misses (source : JS (option QR.data)) (id : string) : Prop :=
  forall w,
    absent id w ->
    exists w',
      source w = (Return None, w')
      /\ absent id w'
      /\ untracked w w'
      /\ remote w' = remote w
      /\ page w' = page w.

(** No character of [s] is the underscore. *)
Fixpoint plain (s : string) : Prop :=
  match s with
  | EmptyString => True
  | String c s' => c <> "_"%char /\ plain s'
  end.

(** Older or of the same age. *)
Definition not_newer (a b : string * QR.data) : Prop :=
  QR.createdAt (snd a) <= QR.createdAt (snd b).

(** What [getItem] would return for ['qr-codes']. *)
Definition readable (w : World) : option Obj.t :=
  match result (CryptoManager.getItem "qr-codes") w with
  | Return v => v
  | Throw _ => None
  end.

(** The browser can encrypt and store: [window.crypto.subtle] works,
    [localStorage] takes writes, and the key slot is empty or holds a
    key. *)
Definition healthy (w : World) : Prop :=
  crypto_ok w = true
  /\ quota_exceeded w = false
  /\ (localStorage w !! "app_crypto_key_v2" = None
      \/ exists k, localStorage w !! "app_crypto_key_v2" = Some (RawKey k)).

(** ** Statements of the specification that the code does not meet *)

(** C8 as the specification words it: the identifier is the timestamp
    in base 36, a separator, and a suffix of at least nine characters. *)
Definition newId_claim (w : World) : Prop :=
  exists suffix,
    result FirebaseManager.generateUniqueId w
    = Return (Base36.toString (clock w) +:+ "_" +:+ suffix)
    /\ (9 <= String.length suffix)%nat.

(** C2 as the specification words it: the write fails only if both
    tiers fail, the networked write and a write to the local cache. *)
Definition write_claim (w : World) : Prop :=
  forall originalText name logoPath,
    throws (FirebaseManager.createQRCode originalText name logoPath) w = true ->
    remote_fault w OpSet = true
    /\ forall data, throws (CryptoManager.setItem "qr-codes" data) w = true.

(** The records of the tier in use: the backend's when its handle
    exists, else those of the browser's cache. *)
Definition records_of_tier (w : World) : list (string * QR.data) :=
  if firebase_defined w && window_database w then map_to_list (remote w)
  else match result (CryptoManager.getItem "qr-codes") w with
       | Return v => default [] v
       | Throw _ => []
       end.

(** The fifty most recently created of [records], newest first. *)
Definition most_recent `{Platform} (records : list (string * QR.data))
  : list (string * QR.data) :=
  rev (FirebaseManager.limitToLast 50
         (fold_right FirebaseManager.insert_child [] records)).

(** C6 as the specification words it: the first match among the fifty
    most recently created records of the tier in use. *)
Definition findDuplicate_claim `{Platform} (w : World) (content label : string)
  : Prop :=
  result (FirebaseManager.checkForDuplicate content label) w
  = Return (List.find (FirebaseManager.is_duplicate content label)
              (map snd (most_recent (records_of_tier w)))).


(** * Examples

    A platform to run the scripts on, and worlds for the properties
    below.  The platform implements as much of the built-ins as the
    examples need: base64 without white space, JSON objects whose
    members are strings without escapes, URLs whose host has no space. *)

Module Example.
Import JSString.

Definition sextet (c : ascii) : option N :=
  let n := N_of_ascii c in
  if is_upper c then Some (n - 65)%N
  else if is_lower c then Some (n - 71)%N
  else if is_digit c then Some (n + 4)%N
  else if (c =? "+")%char then Some 62%N
  else if (c =? "/")%char then Some 63%N
  else None.

Definition byte (n : N) : ascii := ascii_of_N (n mod 256).

(** Groups of four characters to three bytes; a final group may be
    padded with [=]. *)
Fixpoint base64_decode (s : string) : option string :=
  match s with
  | EmptyString => Some EmptyString
  | String a (String b (String c (String d rest))) =>
      match sextet a, sextet b with
      | Some x, Some y =>
          let b1 := byte (x * 4 + y / 16) in
          match sextet c, sextet d with
          | Some z, Some u =>
              option_map
                (fun r => String b1 (String (byte (y * 16 + z / 4))
                                       (String (byte (z * 64 + u)) r)))
                (base64_decode rest)
          | Some z, None =>
              if (d =? "=")%char && String.eqb rest EmptyString
              then Some (String b1 (String (byte (y * 16 + z / 4)) EmptyString))
              else None
          | None, _ =>
              if (c =? "=")%char && (d =? "=")%char && String.eqb rest EmptyString
              then Some (String b1 EmptyString)
              else None
          end
      | _, _ => None
      end
  | _ => None
  end.

Definition quote : ascii := ascii_of_nat 34.

(** The characters up to the next double quote, and what follows it. *)
Fixpoint quoted (s : string) : option (string * string) :=
  match s with
  | EmptyString => None
  | String c s' =>
      if (c =? quote)%char then Some (EmptyString, s')
      else if (c =? "\")%char then None
      else match quoted s' with
           | Some (v, r) => Some (String c v, r)
           | None => None
           end
  end.

(** [fuel] members ["key":"value"], separated by commas, up to [}]. *)
Fixpoint members (fuel : nat) (s : string) : option (list (string * JSON)) :=
  match fuel with
  | O => None
  | S fuel' =>
      match s with
      | String q s1 =>
          if (q =? quote)%char then
            match quoted s1 with
            | Some (k, String colon (String q2 s2)) =>
                if (colon =? ":")%char && (q2 =? quote)%char then
                  match quoted s2 with
                  | Some (v, String sep s3) =>
                      if (sep =? "}")%char && String.eqb s3 EmptyString
                      then Some [(k, JString v)]
                      else if (sep =? ",")%char then
                        option_map (cons (k, JString v)) (members fuel' s3)
                      else None
                  | _ => None
                  end
                else None
            | _ => None
            end
          else None
      | EmptyString => None
      end
  end.

Definition parse_object (s : string) : option JSON :=
  match s with
  | String open rest =>
      if (open =? "{")%char then
        if String.eqb rest "}" then Some (JObject [])
        else option_map JObject (members (String.length rest) rest)
      else None
  | EmptyString => None
  end.

(** No escape to decode, or a [URIError]. *)
Definition decode_component (s : string) : option string :=
  if includes "%" s then None else Some s.

Definition is_slash (c : ascii) : bool := (c =? "/")%char || (c =? "\")%char.

Fixpoint drop_slashes (s : string) : string :=
  match s with
  | String c s' => if is_slash c then drop_slashes s' else s
  | EmptyString => s
  end.

Definition special (scheme : string) : bool :=
  existsb (String.eqb scheme) ["http"; "https"; "ftp"; "ws"; "wss"; "file"].

Definition remainder_ok (scheme rest : string) : bool :=
  if special scheme then
    let host := drop_slashes rest in
    negb (String.eqb host EmptyString) && negb (includes " " host)
  else true.

#[export] Instance platform : Platform :=
  Build_Platform remainder_ok decode_component base64_decode parse_object String.leb.


(** [btoa] of the JSON text of an object with [content]
    [https://example.com] and [label] [Demo]. *)
Definition payload : string :=
  "eyJjb250ZW50IjoiaHR0cHM6Ly9leGFtcGxlLmNvbSIsImxhYmVsIjoiRGVtbyJ9".

Definition payload_value : JSON :=
  JObject [("content", JString "https://example.com"); ("label", JString "Demo")].

Definition no_fault : NetOp -> bool := fun _ => false.

(** [(0.5).toString(36)], which is [0.i]. *)
Definition one_half : string := default EmptyString (Base36.fraction 1 2).

(** A scan of a link [?id=abc&data=payload] in a browser that has
    never seen the code, against a backend that does not hold it. *)
Definition stranger : World :=
  mkWorld (Some "abc") (Some payload) true true true true true
    ∅ no_fault 1700000000500 ∅ false true 7 1700000000000 one_half [] PageLoading.

Definition record (id content : string) (created : Z) : QR.data :=
  QR.mk id "Demo" content None 0 created None.

(** The backend holds under [abc] a record whose content is
    [javascript:alert(1)]. *)
Definition hostile : World :=
  mkWorld (Some "abc") None true true true true true
    {[ "abc" := record "abc" "javascript:alert(1)" 100 ]}
    no_fault 1700000000500 ∅ false true 7 1700000000000 one_half [] PageLoading.


(** The backend is connected and rejects writes; the browser's storage
    and cryptography work. *)
Definition rejecting : World :=
  mkWorld None None true true true true true
    ∅ (fun op => match op with OpSet => true | _ => false end)
    1700000000500 ∅ false true 7 1700000000000 one_half [] PageLoading.

(** No backend; the encrypted cache holds two records with the same
    content and label, the older one first. *)
Definition two_local : World :=
  mkWorld None None true false false false false
    ∅ no_fault 1700000000500
    {[ "encrypted_qr-codes" :=
         Encrypted 7 [("a", record "a" "https://meet.example/abc" 100);
                      ("b", record "b" "https://meet.example/abc" 200)];
       "app_crypto_key_v2" := RawKey 7 ]}
    false true 8 1700000000000 one_half [] PageLoading.

(** No backend and no [window.crypto.subtle], as on a page served over
    plain HTTP; [localStorage] holds one record, unencrypted, as
    [setItem] leaves it there. *)
Definition insecure : World :=
  mkWorld None None true false false false false
    ∅ no_fault 1700000000500
    {[ "qr-codes" := PlainJSON [("a", record "a" "https://example.com" 100)] ]}
    false false 7 1700000000000 one_half [] PageLoading.

End Example.

(** * The rest of the scripts

    The other functions of the configuration script, of the security
    utilities and of [js/redirect.js], and the part of
    [js/qr-generator.js] that calls them. *)

(** ** Vocabulary of the further properties *)

(** The clock readings of [times] at which the call was allowed. *)
Definition allowed (times : list Z) (answers : list bool) : list Z :=
  map fst (List.filter snd (combine times answers)).

(** The readings of [l] within the 60,000 ms that start at [a]. *)
Definition within (a : Z) (l : list Z) : list Z :=
  List.filter (fun t => (a <=? t) && (t <? a + 60000)) l.

(** No actor has more than ten timestamps on record. *)
Definition bounded (rl : RateLimiter.t) : Prop :=
  forall userId, (length (RateLimiter.userRequests rl userId) <= 10)%nat.

(** ** JavaScript strings, continued *)

Module StringOps.
Import JSString.

(** The number of characters of [s] that satisfy [f]. *)
Fixpoint count (f : ascii -> bool) (s : string) : nat :=
  match s with
  | EmptyString => O
  | String c s' => if f c then S (count f s') else count f s'
  end.

(** [s.trim()]: white space and line terminators are stripped from
    both ends; below 256 they are the characters of [\s]. *)
Fixpoint trimStart (s : string) : string :=
  match s with
  | String c s' => if is_space c then trimStart s' else s
  | EmptyString => s
  end.

Fixpoint trimEnd (s : string) : string :=
  match s with
  | EmptyString => EmptyString
  | String c s' =>
      match trimEnd s' with
      | EmptyString => if is_space c then EmptyString else String c EmptyString
      | r => String c r
      end
  end.

Definition trim (s : string) : string := trimEnd (trimStart s).

(** [re.test(s)] for a regular expression [re] without the [g] flag:
    [matchAt s] says whether [re] matches at the start of [s]. *)
Fixpoint test (matchAt : string -> bool) (s : string) : bool :=
  matchAt s
  || match s with
     | String _ s' => test matchAt s'
     | EmptyString => false
     end.

End StringOps.

(** The characters that the serialisation of a text node replaces. *)
Definition markup_char (c : ascii) : bool :=
  (c =? "&")%char || (c =? "<")%char || (c =? ">")%char
  || (nat_of_ascii c =? 160)%nat.

(** An angle bracket. *)
Definition angle (c : ascii) : bool := (c =? "<")%char || (c =? ">")%char.

(** Characters that neither [/javascript:/gi] nor [/on\w+\s*=/gi] can
    match. *)
Definition quiet (f : ascii -> bool) : Prop :=
  forall c, f c = true ->
    JSString.is_word c = false /\ JSString.is_space c = false
    /\ c <> "="%char /\ c <> ":"%char.

(** ** SecurityUtils, continued *)

Module SecurityChecks.
Import JSString StringOps.

(** [/<tag[^>]*>/i] at the start of [s], for [open] the text [<tag]. *)
Definition match_tag (open : string) (s : string) : bool :=
  startsWith_ci open s
  && match SecurityUtils.upto_gt (drop (String.length open) s) with
     | Some _ => true
     | None => false
     end.

Definition maliciousPatterns : list (string -> bool) :=
  [match_tag "<script"; startsWith_ci "javascript:"; startsWith_ci "data:text/html";
   startsWith_ci "vbscript:"; match_tag "<iframe"; match_tag "<object";
   match_tag "<embed"].

(** [validateQRInput(text, name)], for two strings. *)
Definition validateQRInput (text name : string) : Completion bool :=
  if String.eqb text EmptyString || (String.length (trim text) =? 0)%nat then
    Throw "Please enter some text or URL to generate QR code"
  else if (4000 <? String.length text)%nat then
    Throw "Text content too long (max 4000 characters)"
  else if String.eqb name EmptyString || (String.length (trim name) =? 0)%nat then
    Throw "Please enter a name/reference for this QR code"
  else if (100 <? String.length name)%nat then
    Throw "Name too long (max 100 characters)"
  else if existsb (fun pattern => test pattern text) maliciousPatterns then
    Throw "Invalid content detected in text"
  else if existsb (fun pattern => test pattern name) maliciousPatterns then
    Throw "Invalid content detected in name"
  else Return true.

(** A [File]: its name, its MIME type and its bytes, each below 256;
    [file.size] is their number. *)
Record File : Type := mkFile {
  file_name : string;
  file_type : string;
  file_bytes : list N
}.

Definition file_size (file : File) : Z := Z.of_nat (length (file_bytes file)).

Definition signatures : list (string * list (list N)) :=
  [("jpeg", [[255; 216; 255]]);
   ("png", [[137; 80; 78; 71; 13; 10; 26; 10]]);
   ("gif", [[71; 73; 70; 56]; [71; 73; 70; 57]]);
   ("webp", [[82; 73; 70; 70]])]%N.

(** [sig.every((byte, index) => bytes[index] === byte)] *)
Definition every_byte (bytes sig : list N) : bool :=
  forallb
    (fun '(index, byte) =>
       match nth_error bytes index with
       | Some b => (b =? byte)%N
       | None => false
       end)
    (combine (seq 0 (length sig)) sig).

(** The two loops over [Object.entries(signatures)]. *)
Fixpoint first_format (bytes : list N) (entries : list (string * list (list N)))
  : option string :=
  match entries with
  | [] => None
  | (format, sigs) :: rest =>
      if existsb (every_byte bytes) sigs then Some format
      else first_format bytes rest
  end.

(** [validateImageSignature(file)]; [None] is [false]. *)
Definition validateImageSignature (file : File) : option string :=
  let bytes := List.firstn 12 (file_bytes file) in
  first_format bytes signatures.

Definition allowedTypes : list string :=
  ["image/jpeg"; "image/jpg"; "image/png"; "image/gif"; "image/webp"].

Definition suspiciousExtensions : list string :=
  [".exe"; ".bat"; ".cmd"; ".com"; ".scr"; ".js"; ".vbs"; ".php"; ".asp"].

(** [validateImageFile(file)]; [None] is no file. *)
Definition validateImageFile (file : option File) : Completion bool :=
  match file with
  | None => Throw "No file selected"
  | Some file =>
      if negb (existsb (String.eqb (toLowerCase (file_type file))) allowedTypes) then
        Throw "Only JPEG, PNG, GIF, and WebP images are allowed"
      else if file_size file >? 2 * 1024 * 1024 then
        Throw "Image must be smaller than 2MB"
      else
        match validateImageSignature file with
        | None => Throw "Invalid image file format"
        | Some _ =>
            let fileName := toLowerCase (file_name file) in
            if existsb (fun ext => includes ext fileName) suspiciousExtensions then
              Throw "Suspicious file detected"
            else Return true
        end
  end.

End SecurityChecks.

(** The words [validateQRInput] looks for in any letter case. *)
Definition script_words : list string :=
  ["javascript:"; "data:text/html"; "vbscript:"].

(** ** FirebaseManager, continued *)

Module Dashboard.
Section WithPlatform.
Context `{Platform}.
Import FirebaseManager.

(** [limitToLast(limit)] of the backend's SDK throws unless [limit] is
    a positive integer. *)
Definition database_limitToLast (limit : nat) : JS (list QR.data) :=
  match limit with
  | O => throw "Query.limitToLast: First argument must be a positive integer."
  | S _ => database_recent limit
  end.

(** [values.sort((a, b) => b.createdAt - a.createdAt)]: the sort is
    stable, so a record stays before those of the same [createdAt] that
    followed it. *)
Fixpoint insert_newest (x : QR.data) (l : list QR.data) : list QR.data :=
  match l with
  | [] => [x]
  | y :: l' =>
      if QR.createdAt x <? QR.createdAt y then y :: insert_newest x l'
      else x :: l
  end.

Definition sort_newest_first (l : list QR.data) : list QR.data :=
  fold_right insert_newest [] l.

(** [getRecentQRCodes(limit)] *)
Definition getRecentQRCodes (limit : nat) : JS (list QR.data) :=
  tryCatch
    (handle <- backend_handle ;;
     if handle then
       snapshot <- database_limitToLast limit ;;
       ret (fold_left (fun qrCodes childSnapshot => childSnapshot :: qrCodes)
              snapshot [])
     else
       stored <- CryptoManager.getItem "qr-codes" ;;
       let localQRs := default [] stored in
       ret (List.firstn limit (sort_newest_first (map snd localQRs))))
    (fun _ =>
       console_out ERROR "Error getting recent QR codes:" ;;
       ret []).

End WithPlatform.
End Dashboard.

(** Newer or of the same age. *)
Definition not_older (a b : QR.data) : Prop := QR.createdAt b <= QR.createdAt a.

(** Reading a number back from its digits in base 36, as
    [parseInt(s, 36)] does for a string that [toString(36)] made. *)
Module Base36Read.

Definition digit_value (c : ascii) : N :=
  let n := N_of_ascii c in
  if (n <? 58)%N then (n - 48)%N else (n - 87)%N.

Fixpoint value_from (acc : N) (s : string) : N :=
  match s with
  | EmptyString => acc
  | String c s' => value_from (acc * 36 + digit_value c)%N s'
  end.

Definition parse (s : string) : Z :=
  match s with
  | String c r =>
      if (c =? "-")%char then - Z.of_N (value_from 0 r)
      else Z.of_N (value_from 0 s)
  | EmptyString => 0
  end.

End Base36Read.

(** ** The configuration script: initialisation and connection monitor *)

Module Connection.

Definition with_database (database : bool) (w : World) : World :=
  mkWorld (search_id w) (search_data w) (manager_loaded w) (firebase_defined w)
    database (firebaseInitialized w) (databaseAvailable w)
    (remote w) (remote_fault w) (server_time w) (localStorage w) (quota_exceeded w)
    (crypto_ok w) (fresh_key w) (clock w) (random36 w) (console w) (page w).

Definition with_status (initialized available : bool) (w : World) : World :=
  mkWorld (search_id w) (search_data w) (manager_loaded w) (firebase_defined w)
    (window_database w) initialized available
    (remote w) (remote_fault w) (server_time w) (localStorage w) (quota_exceeded w)
    (crypto_ok w) (fresh_key w) (clock w) (random36 w) (console w) (page w).

(** The calls to the SDK in the [try] block, each of which may throw. *)
Inductive Call : Type := InitializeApp | Database | Monitor.

(** A reference to [firebase], which throws a [ReferenceError] when the
    SDK was not loaded. *)
Definition firebase_ref : JS unit :=
  fun w => if firebase_defined w then (Return tt, w) else (Throw "ReferenceError", w).

Definition sdk (fails : Call -> bool) (call : Call) : JS unit :=
  fun w => if fails call then (Throw "Error", w) else (Return tt, w).

(** The [try] block that the script runs when it is loaded; [fails]
    says which calls to the SDK throw. *)
Definition initialize (fails : Call -> bool) : JS unit :=
  tryCatch
    (firebase_ref ;;
     sdk fails InitializeApp ;;
     sdk fails Database ;;
     modify (with_database true) ;;
     modify (with_status true true) ;;
     console_out LOG "Firebase initialized successfully" ;;
     sdk fails Monitor)
    (fun _ =>
       modify (with_status false false) ;;
       console_out WARN "Firebase initialization failed:" ;;
       console_out LOG "Running in offline mode - all data stored locally").

(** The listener of [.info/connected]; [connected] is
    [snapshot.val() === true]. *)
Definition on_connected (connected : bool) : JS unit :=
  wasAvailable <- get databaseAvailable ;;
  modify (fun w => with_status (firebaseInitialized w) connected w) ;;
  if negb connected && wasAvailable then
    console_out WARN "Firebase database disconnected - using local storage fallback"
  else if connected && negb wasAvailable then
    console_out LOG "Firebase database reconnected"
  else ret tt.

(** The listener run on a succession of values. *)
Fixpoint monitor (values : list bool) : JS unit :=
  match values with
  | [] => ret tt
  | connected :: rest => on_connected connected ;; monitor rest
  end.

End Connection.

(** ** QRGenerator

    [generateQRCode] of [js/qr-generator.js], up to the point where the
    record is written: what follows draws the code for the redirect
    link on a canvas and refreshes the page's lists.  The loading
    overlay and the state of the button, which the function sets and
    resets, are left out. *)

Module QRGenerator.
Section WithPlatform.
Context `{Platform}.

(** The dialogs the function opens. *)
Inductive Dialog : Type :=
| RateLimitAlert (remaining : Z)
  (** [alert] that the rate limit is exceeded and [remaining] more
      codes can be created *)
| Alert (message : string)
| Confirm (existing : QR.data)
  (** [confirm] whether to load the existing code *).

(** What the generator's page holds beside the world: [window.rateLimiter]
    and whether [window.securityUtils] is defined, the values of the two
    input fields, [this.selectedLogo], [this.currentQRId], the dialogs
    opened, latest first, and [later]: what [Date.now()] reads when the
    limiter reads it a second time, the world's [clock] being what it
    reads the first time. *)
Record t : Type := mk {
  world : World;
  rateLimiter : option RateLimiter.t;
  securityUtils : bool;
  qrTextArea : string;
  qrNameInput : string;
  selectedLogo : string;
  currentQRId : option string;
  dialogs : list Dialog;
  later : Z
}.

Definition with_world (w : World) (g : t) : t :=
  mk w (rateLimiter g) (securityUtils g) (qrTextArea g) (qrNameInput g)
     (selectedLogo g) (currentQRId g) (dialogs g) (later g).

Definition with_rateLimiter (rl : option RateLimiter.t) (g : t) : t :=
  mk (world g) rl (securityUtils g) (qrTextArea g) (qrNameInput g)
     (selectedLogo g) (currentQRId g) (dialogs g) (later g).

Definition with_currentQRId (qrId : option string) (g : t) : t :=
  mk (world g) (rateLimiter g) (securityUtils g) (qrTextArea g) (qrNameInput g)
     (selectedLogo g) qrId (dialogs g) (later g).

Definition open (dialog : Dialog) (g : t) : t :=
  mk (world g) (rateLimiter g) (securityUtils g) (qrTextArea g) (qrNameInput g)
     (selectedLogo g) (currentQRId g) (dialog :: dialogs g) (later g).

(** A computation of the scripts run on the page's world. *)
Definition run {A} (m : JS A) (g : t) : Completion A * t :=
  let '(r, w) := m (world g) in (r, with_world w g).

(** How the function ends. *)
Inductive Outcome : Type :=
| RateLimited
| Rejected
| LoadExisting (qrId : string)
  (** it goes on with [this.loadQRCode(qrId)] *)
| Created (qrId : string)
  (** the record is written; it goes on to draw the code *)
| Failed.

(** [window.rateLimiter && !window.rateLimiter.canMakeRequest()]: the
    limiter, when there is one, is asked and records the request if it
    allows it; when it refuses, it warns on the console. *)
Definition rate_limit_exceeded (g : t) : bool * t :=
  match rateLimiter g with
  | Some rl =>
      let '(allowed, rl') :=
        RateLimiter.canMakeRequest (clock (world g)) RateLimiter.anonymous rl in
      if allowed then (false, with_rateLimiter (Some rl') g)
      else
        (true,
         with_world
           (exec (console_out WARN
                    "Rate limit exceeded. Please wait before making more requests.")
                 (world g)) g)
  | None => (false, g)
  end.

(** [window.securityUtils.validateQRInput(text, name)]; with no
    [window.securityUtils] the reference throws a [TypeError], whose
    message is the engine's. *)
Definition validate (g : t) (text name : string) : Completion bool :=
  if securityUtils g then SecurityChecks.validateQRInput text name
  else Throw "TypeError".

(** The handler of the second [try]. *)
Definition failed (g : t) : Outcome * t :=
  (Failed,
   open (Alert "Failed to generate QR code. Please try again.")
     (with_world (exec (console_out ERROR "Error generating QR code:") (world g)) g)).

(** [FirebaseManager.createQRCode(text, name, this.selectedLogo)] and
    the assignment of [this.currentQRId]. *)
Definition create (text name : string) (g : t) : Outcome * t :=
  let '(r, g1) :=
    run (QRRedirectManager.FirebaseManager_ref ;;
         FirebaseManager.createQRCode text name (Some (selectedLogo g))) g in
  match r with
  | Return qrId => (Created qrId, with_currentQRId (Some qrId) g1)
  | Throw _ => failed g1
  end.

(** [generateQRCode()]; [confirmCreate] is the answer to the
    [confirm] dialog, should it open.  [canMakeRequest] and
    [getRemainingRequests] each read [Date.now()]: the former reads the
    world's [clock], the latter [later]. *)
Definition generateQRCode (confirmCreate : bool) (g : t) : Outcome * t :=
  let text := StringOps.trim (qrTextArea g) in
  let name := StringOps.trim (qrNameInput g) in
  let '(exceeded, g) := rate_limit_exceeded g in
  if exceeded then
    let remaining :=
      match rateLimiter g with
      | Some rl =>
          RateLimiter.getRemainingRequests (later g) RateLimiter.anonymous rl
      | None => 0
      end in
    (RateLimited, open (RateLimitAlert remaining) g)
  else
    match validate g text name with
    | Throw message => (Rejected, open (Alert message) g)
    | Return _ =>
        let '(r, g1) :=
          run (QRRedirectManager.FirebaseManager_ref ;;
               FirebaseManager.checkForDuplicate text name) g in
        match r with
        | Throw _ => failed g1
        | Return (Some existingQR) =>
            let g2 := open (Confirm existingQR) g1 in
            if confirmCreate then (LoadExisting (QR.id existingQR), g2)
            else create text name g2
        | Return None => create text name g1
        end
    end.

End WithPlatform.
End QRGenerator.

(** ** Further examples *)

Module Sample.

(** A limiter that has allowed ten requests at the clock reading of
    the example worlds. *)
Definition busy : RateLimiter.t :=
  snd (RateLimiter.calls (repeat 1700000000000 10) RateLimiter.anonymous
         RateLimiter.new).

(** The generator's page with the two fields filled in: the security
    utilities loaded, the default logo, no code shown yet, the clock
    read a second time one millisecond after the first. *)
Definition page (w : World) (rl : RateLimiter.t) (text name : string)
  : QRGenerator.t :=
  QRGenerator.mk w (Some rl) true text name "assets/holyLogo.png" None []
    (clock w + 1).

(** The same page when the second reading of the clock comes [delay]
    milliseconds after the first. *)
Definition page_after (delay : Z) (w : World) (rl : RateLimiter.t)
    (text name : string) : QRGenerator.t :=
  QRGenerator.mk w (Some rl) true text name "assets/holyLogo.png" None []
    (clock w + delay).

(** The first twelve bytes of a PNG file and of a WebP file, and the
    latter with its format tag overwritten. *)
Definition png : list N := [137; 80; 78; 71; 13; 10; 26; 10; 0; 0; 0; 13]%N.
Definition webp : list N := [82; 73; 70; 70; 36; 0; 0; 0; 87; 69; 66; 80]%N.
Definition wave : list N := [82; 73; 70; 70; 36; 0; 0; 0; 87; 65; 86; 69]%N.

End Sample.

(** * Properties *)

(** ** Proof steps shared below *)

Ltac js_light :=
  unfold tryCatch, bind, ret, throw, get, modify, console_out,
    localStorage_getItem, localStorage_setItem, localStorage_removeItem,
    parse_stored, exec, result in *.

Ltac js_unfold :=
  unfold CryptoManager.getItem, CryptoManager.setItem, CryptoManager.getOrCreateKey,
    subtle_generateKey, subtle_importKey, subtle_encrypt, subtle_decrypt in *;
  js_light;
  change ("encrypted_" +:+ "qr-codes") with "encrypted_qr-codes" in *.

(** Case analysis on the innermost scrutinee of the goal. *)
Ltac js_case :=
  match goal with
  | |- context [match ?x with _ => _ end] =>
      lazymatch x with
      | context [match _ with _ => _ end] => fail
      | _ => destruct x eqn:?
      end
  end.

Ltac js_cases := cbn; repeat (js_case; cbn in * ).

Ltac map_lookup :=
  repeat first
    [ rewrite lookup_delete_eq
    | rewrite lookup_delete_ne by discriminate
    | rewrite lookup_insert_eq
    | rewrite lookup_insert_ne by discriminate ].

Ltac map_lookup_in H :=
  repeat first
    [ rewrite lookup_delete_eq in H
    | rewrite lookup_delete_ne in H by discriminate
    | rewrite lookup_insert_eq in H
    | rewrite lookup_insert_ne in H by discriminate ].

Ltac truthy_cases :=
  repeat match goal with
    | H : if_truthy ?x = _ |- _ =>
        let E := fresh "E" in
        destruct x as [[| | |[|]]|] eqn:E; cbn in H; try discriminate;
        try (injection H as <-)
    end.

Ltac console_prefix c base :=
  lazymatch c with
  | base => constr:(@nil (Level * string))
  | ?e :: ?r => let p := console_prefix r base in constr:(e :: p)
  end.

Ltac solve_untracked :=
  unfold untracked; cbn;
  match goal with
  | |- exists events, ?c = events ++ ?base /\ _ =>
      let p := console_prefix c base in
      exists p; split;
      [ reflexivity
      | repeat constructor; cbn; intros [?|[?|[?|[?|[]]]]]; discriminate ]
  end.

Ltac solve_tracked :=
  unfold tracked; cbn;
  match goal with
  | |- exists l m events, (?l0, ?m0) :: ?c = _ /\ _ =>
      exists l0, m0;
      match goal with
      | |- exists events, _ :: ?c = _ :: events ++ ?base /\ _ =>
          let p := console_prefix c base in
          exists p; split; [reflexivity | cbn; tauto]
      end
  end.

(** ** RateLimiter *)

Section RateLimiterFacts.
Import RateLimiter.

Lemma recentRequests_retained now rl userId :
  configured rl ->
  recentRequests now rl userId = retained now (userRequests rl userId).
Proof.
  intros [_ Hw]. unfold recentRequests, retained. rewrite Hw. reflexivity.
Qed.

Lemma filter_all_true {A} (f : A -> bool) l :
  (forall x, In x l -> f x = true) -> List.filter f l = l.
Proof.
  induction l as [|a l IH]; simpl; intros Hall; [reflexivity|].
  rewrite (Hall a) by (left; reflexivity).
  f_equal. apply IH. intros x Hx. apply Hall. right; exact Hx.
Qed.

Lemma filter_all_false {A} (f : A -> bool) l :
  (forall x, In x l -> f x = false) -> List.filter f l = [].
Proof.
  induction l as [|a l IH]; simpl; intros Hall; [reflexivity|].
  rewrite (Hall a) by (left; reflexivity).
  apply IH. intros x Hx. apply Hall. right; exact Hx.
Qed.

(** One call that is allowed. *)
Lemma canMakeRequest_allowed now userId rl :
  configured rl ->
  (length (retained now (userRequests rl userId)) < 10)%nat ->
  exists rl',
    canMakeRequest now userId rl = (true, rl')
    /\ userRequests rl' userId = retained now (userRequests rl userId) ++ [now]
    /\ (forall other, other <> userId -> requests rl' !! other = requests rl !! other)
    /\ configured rl'.
Proof.
  intros Hc Hlen. pose proof Hc as [Hm Hw].
  unfold canMakeRequest. rewrite (recentRequests_retained _ _ _ Hc), Hm.
  destruct (Z.geb_spec (Z.of_nat (length (retained now (userRequests rl userId)))) 10)
    as [Hge|Hlt]; [lia|].
  eexists; split; [reflexivity|]. split; [|split].
  - unfold userRequests at 1. simpl. rewrite lookup_insert_eq. reflexivity.
  - intros other Hne. simpl. rewrite lookup_insert_ne by congruence. reflexivity.
  - split; simpl; [reflexivity|exact Hw].
Qed.

(** One call that is refused. *)
Lemma canMakeRequest_refused now userId rl :
  configured rl ->
  (10 <= length (retained now (userRequests rl userId)))%nat ->
  canMakeRequest now userId rl = (false, rl).
Proof.
  intros Hc Hlen. pose proof Hc as [Hm Hw].
  unfold canMakeRequest. rewrite (recentRequests_retained _ _ _ Hc), Hm.
  destruct (Z.geb_spec (Z.of_nat (length (retained now (userRequests rl userId)))) 10)
    as [Hge|Hlt]; [reflexivity|lia].
Qed.

(** Calls at times that all lie in one window, by an actor whose
    [n] recorded timestamps lie in that window too: they are allowed
    while fewer than ten timestamps are recorded, and all recorded. *)
Lemma calls_within_window userId :
  forall (times : list Z) (rl : RateLimiter.t) (seen : list Z),
    configured rl ->
    userRequests rl userId = seen ->
    (forall t s, In t times -> In s seen -> t - s < 60000) ->
    (forall a b, In a times -> In b times -> a - b < 60000) ->
    (length seen + length times <= 10)%nat ->
    fst (calls times userId rl) = repeat true (length times)
    /\ userRequests (snd (calls times userId rl)) userId = seen ++ times
    /\ configured (snd (calls times userId rl)).
Proof.
  induction times as [|now rest IH]; intros rl seen Hc Hseen Hold Hin Hlen.
  - simpl. rewrite app_nil_r. auto.
  - assert (Hret : retained now (userRequests rl userId) = seen).
    { rewrite Hseen. apply filter_all_true. intros s Hs.
      apply Z.ltb_lt. apply Hold; [left; reflexivity|exact Hs]. }
    destruct (canMakeRequest_allowed now userId rl Hc) as (rl1 & Hcall & Hreq & _ & Hc1).
    { rewrite Hret. simpl in Hlen. lia. }
    rewrite Hret in Hreq.
    destruct (IH rl1 (seen ++ [now]) Hc1 Hreq) as (Hbs & Hst & Hc2).
    + intros t s Ht Hs. apply in_app_or in Hs. destruct Hs as [Hs|[<-|[]]].
      * apply Hold; [right; exact Ht|exact Hs].
      * apply Hin; [right; exact Ht|left; reflexivity].
    + intros a b Ha Hb. apply Hin; right; assumption.
    + rewrite length_app. simpl in *. lia.
    + cbn [calls]. rewrite Hcall.
      destruct (calls rest userId rl1) as [bs rl2]. simpl in *.
      rewrite Hbs, Hst, <- app_assoc. auto.
Qed.

Lemma calls_app times1 times2 userId rl :
  calls (times1 ++ times2) userId rl =
  (fst (calls times1 userId rl) ++ fst (calls times2 userId (snd (calls times1 userId rl))),
   snd (calls times2 userId (snd (calls times1 userId rl)))).
Proof.
  revert rl. induction times1 as [|now rest IH]; intros rl; simpl.
  - destruct (calls times2 userId rl); reflexivity.
  - destruct (canMakeRequest now userId rl) as [b rl1].
    rewrite IH. destruct (calls rest userId rl1) as [bs rl2]. simpl.
    reflexivity.
Qed.

(** C5. [canMakeRequest] keeps of the actor's timestamps those within
    the last 60,000 ms; if fewer than 10 are kept it records the current
    time after them and returns true, touching no other actor;
    otherwise it returns false and changes nothing.  Hence of eleven
    calls within one window, made when no earlier timestamp is in the
    window, the first ten return true and the eleventh false, and a call
    made once the window has passed returns true. *)
Theorem canMakeRequest_window (rl : RateLimiter.t) (userId : string) :
  configured rl ->
  (forall now,
      let kept := retained now (userRequests rl userId) in
      ((length kept < 10)%nat ->
       exists rl',
         canMakeRequest now userId rl = (true, rl')
         /\ userRequests rl' userId = kept ++ [now]
         /\ (forall other, other <> userId ->
                requests rl' !! other = requests rl !! other))
      /\ ((10 <= length kept)%nat -> canMakeRequest now userId rl = (false, rl)))
  /\ (forall times later,
        length times = 11%nat ->
        (forall t s, In t times -> In s (userRequests rl userId) -> 60000 <= t - s) ->
        (forall a b, In a times -> In b times -> a - b < 60000) ->
        (forall t, In t times -> 60000 <= later - t) ->
        fst (calls times userId rl) = repeat true 10 ++ [false]
        /\ fst (canMakeRequest later userId (snd (calls times userId rl))) = true).
Proof.
  intros Hc. split.
  - intros now kept. split.
    + intros Hlen.
      destruct (canMakeRequest_allowed now userId rl Hc Hlen) as (rl' & H1 & H2 & H3 & _).
      exists rl'. auto.
    + apply canMakeRequest_refused; exact Hc.
  - intros times later Hlen Hold Hin Hlater.
    destruct times as [|t1 rest]; [discriminate|].
    assert (Hrest : rest <> []) by (intros ->; discriminate).
    rewrite (app_removelast_last 0 Hrest) in *.
    set (mid := List.removelast rest) in *. set (t11 := List.last rest 0) in *.
    assert (Hmid : length mid = 9%nat).
    { simpl in Hlen. rewrite length_app in Hlen. simpl in Hlen. lia. }
    clearbody mid t11. clear Hrest Hlen.
    (* the first call prunes every earlier timestamp *)
    assert (Hret1 : retained t1 (userRequests rl userId) = []).
    { apply filter_all_false. intros s Hs. apply Z.ltb_ge.
      apply Hold; [left; reflexivity|exact Hs]. }
    destruct (canMakeRequest_allowed t1 userId rl Hc) as (rl1 & Hcall1 & Hreq1 & _ & Hc1).
    { rewrite Hret1. simpl. lia. }
    rewrite Hret1 in Hreq1. simpl in Hreq1.
    (* the next nine are recorded after it *)
    destruct (calls_within_window userId mid rl1 [t1] Hc1 Hreq1) as (Hbs & Hst & Hc2).
    { intros t s Ht [<-|[]]. apply Hin; [right; apply in_or_app; left; exact Ht|left; reflexivity]. }
    { intros a b Ha Hb. apply Hin; right; apply in_or_app; left; assumption. }
    { simpl. lia. }
    set (rl2 := snd (calls mid userId rl1)) in *.
    (* the eleventh finds ten timestamps in its window *)
    assert (Hcall11 : canMakeRequest t11 userId rl2 = (false, rl2)).
    { apply canMakeRequest_refused; [exact Hc2|].
      rewrite Hst. unfold retained. rewrite (filter_all_true _ ([t1] ++ mid)).
      - rewrite length_app. simpl. lia.
      - intros s Hs. apply Z.ltb_lt. apply Hin.
        + right. apply in_or_app. right. left. reflexivity.
        + simpl in Hs. destruct Hs as [<-|Hs]; [left; reflexivity|].
          right. apply in_or_app. left. exact Hs. }
    assert (Hall : calls (t1 :: mid ++ [t11]) userId rl
                   = (true :: repeat true 9 ++ [false], rl2)).
    { cbn [calls]. rewrite Hcall1, calls_app. fold rl2. rewrite Hbs, Hmid.
      simpl calls. rewrite Hcall11. reflexivity. }
    rewrite Hall. split; [reflexivity|]. simpl snd.
    (* after the window none is left *)
    destruct (canMakeRequest_allowed later userId rl2 Hc2) as (rl3 & Hcall & _).
    { rewrite Hst. unfold retained. rewrite (filter_all_false _ ([t1] ++ mid)); [simpl; lia|].
      intros s Hs. apply Z.ltb_ge. apply Hlater.
      simpl in Hs. destruct Hs as [<-|Hs]; [left; reflexivity|].
      right. apply in_or_app. left. exact Hs. }
    rewrite Hcall. reflexivity.
Qed.

(** Eleven calls one millisecond apart on a new limiter, and a twelfth a
    minute after the last. *)
Lemma canMakeRequest_window_witness :
  configured RateLimiter.new
  /\ fst (calls [0; 1; 2; 3; 4; 5; 6; 7; 8; 9; 10] anonymous RateLimiter.new)
     = repeat true 10 ++ [false]
  /\ fst (canMakeRequest 60010 anonymous
            (snd (calls [0; 1; 2; 3; 4; 5; 6; 7; 8; 9; 10] anonymous RateLimiter.new)))
     = true.
Proof.
  assert (Hc : configured RateLimiter.new) by (split; reflexivity).
  split; [exact Hc|].
  apply (proj2 (canMakeRequest_window RateLimiter.new anonymous Hc)).
  - reflexivity.
  - intros t s _ [].
  - intros a b Ha Hb. simpl in Ha, Hb. lia.
  - intros t Ht. simpl in Ht. lia.
Defined.

End RateLimiterFacts.

(** ** CryptoManager

    What [getItem] and [setItem] do is established once, by cases on the
    three entries of [localStorage] they read and on the two ways the
    platform can fail them. *)

Lemma untracked_trans w1 w2 w3 : untracked w1 w2 -> untracked w2 w3 -> untracked w1 w3.
Proof.
  intros (e1 & H1 & F1) (e2 & H2 & F2). exists (e2 ++ e1). split.
  - rewrite H2, H1, app_assoc. reflexivity.
  - apply Forall_app. split; assumption.
Qed.

(** [getItem] returns; an object it returns was stored; it stores no
    object that was not; beyond [localStorage] it writes to the console
    only. *)
Lemma getItem_stored w :
  exists v w',
    CryptoManager.getItem "qr-codes" w = (Return v, w')
    /\ (forall o, v = Some o -> stored w o)
    /\ (forall o, stored w' o -> stored w o)
    /\ untracked w w'
    /\ surroundings w' = surroundings w.
Proof.
  unfold stored. js_unfold.
  change ("encrypted_" +:+ "qr-codes") with "encrypted_qr-codes".
  js_cases; truthy_cases; cbn in *; subst.
  all: eexists _, _; split; [reflexivity|].
  all: split; [intros o' Ho'; try discriminate; injection Ho' as <-; eauto|].
  all: split; [|split; [solve_untracked|reflexivity]].
  all: cbn; map_lookup.
  all: intros o' [[k' Hk]|Hk]; map_lookup_in Hk; try discriminate.
  all: try (injection Hk as <-; try subst).
  all: eauto.
  all: try (right; congruence).
  all: match goal with
       | H1 : ?a = Some _, H2 : ?a = Some _ |- _ =>
           rewrite H1 in H2; injection H2 as ? ?; subst; eauto
       end.
Qed.

Lemma surroundings_remote w w' : surroundings w' = surroundings w -> remote w' = remote w.
Proof. unfold surroundings. intros Hs. injection Hs. auto. Qed.

Lemma surroundings_page w w' : surroundings w' = surroundings w -> page w' = page w.
Proof. unfold surroundings. intros Hs. injection Hs. auto. Qed.

Lemma absent_mono id w w' :
  remote w' = remote w ->
  (forall o, stored w' o -> stored w o) ->
  absent id w -> absent id w'.
Proof.
  intros Hr Hs (Hk & Ha & Hb). split; [exact Hk|].
  split; [rewrite Hr; exact Ha|]. intros o Ho. apply Hb, Hs, Ho.
Qed.

(** [setItem] touches [localStorage] and the console only. *)
Lemma setItem_untracked key data w :
  exists r w',
    CryptoManager.setItem key data w = (r, w')
    /\ untracked w w'
    /\ surroundings w' = surroundings w.
Proof.
  js_unfold. js_cases.
  all: eexists _, _; split; [reflexivity|split; [solve_untracked|reflexivity]].
Qed.

(** ** QRRedirectManager *)

Section RedirectFacts.
Context `{Platform}.
Import QRRedirectManager.

(** Each source, and so the three in turn, misses an identifier that
    is in no store, whatever fails on the way. *)
Lemma source_firebase_misses id : misses (source_firebase id) id.
Proof.
  intros w Ha. pose proof Ha as (Hk & Hr & Hs).
  unfold source_firebase, FirebaseManager_ref, FirebaseManager.getQRCode,
    FirebaseManager.backend_handle, FirebaseManager.database_once.
  js_light. cbn.
  destruct (manager_loaded w); cbn.
  2:{ eexists; split; [reflexivity|]. repeat split; try solve_untracked; assumption. }
  destruct (String.eqb id ""); cbn.
  { eexists; split; [reflexivity|]. repeat split; try solve_untracked; assumption. }
  destruct (firebase_defined w && window_database w); cbn.
  - destruct (remote_fault w OpGet); cbn.
    + eexists; split; [reflexivity|]. repeat split; try solve_untracked; assumption.
    + rewrite Hr. cbn.
      eexists; split; [reflexivity|]. repeat split; try solve_untracked; assumption.
  - destruct (getItem_stored w) as (v & w1 & Hg & Hv & Hw1 & Hu & Hsur).
    rewrite Hg. cbn.
    assert (Hget : Obj.get id (default [] v) = None).
    { destruct v as [o|]; [apply Hs, Hv; reflexivity|reflexivity]. }
    rewrite Hget. cbn.
    exists w1. split; [reflexivity|].
    split; [|split; [exact Hu|split; [apply surroundings_remote|apply surroundings_page]; exact Hsur]].
    apply (absent_mono id w); [apply surroundings_remote; exact Hsur|exact Hw1|exact Ha].
Qed.

Lemma source_encrypted_misses id : misses (source_encrypted id) id.
Proof.
  intros w Ha. pose proof Ha as (Hk & Hr & Hs).
  unfold source_encrypted. js_light. cbn.
  destruct (getItem_stored w) as (v & w1 & Hg & Hv & Hw1 & Hu & Hsur).
  rewrite Hg. cbn.
  assert (Hget : Obj.get id (default [] v) = None).
  { destruct v as [o|]; [apply Hs, Hv; reflexivity|reflexivity]. }
  rewrite Hget. cbn.
  exists w1. split; [reflexivity|].
  split; [|split; [exact Hu|split; [apply surroundings_remote|apply surroundings_page]; exact Hsur]].
  apply (absent_mono id w); [apply surroundings_remote; exact Hsur|exact Hw1|exact Ha].
Qed.

Lemma source_legacy_misses id : misses (source_legacy id) id.
Proof.
  intros w Ha. pose proof Ha as (Hk & Hr & Hs).
  unfold source_legacy. js_light. cbn.
  destruct (localStorage w !! "qr-codes") as [[o| | |[|]]|] eqn:E; cbn.
  1:{ rewrite (Hs o) by (right; exact E). cbn.
      eexists; split; [reflexivity|]. repeat split; try solve_untracked; assumption. }
  all: eexists; split; [reflexivity|]; repeat split; try solve_untracked; assumption.
Qed.

Lemma lookup_misses id : misses (lookup id) id.
Proof.
  intros w Ha. unfold lookup. unfold bind at 1 2.
  destruct (source_firebase_misses id w Ha) as (w1 & H1 & Ha1 & Hu1 & Hr1 & Hp1).
  rewrite H1.
  destruct (source_encrypted_misses id w1 Ha1) as (w2 & H2 & Ha2 & Hu2 & Hr2 & Hp2).
  rewrite H2.
  destruct (source_legacy_misses id w2 Ha2) as (w3 & H3 & Ha3 & Hu3 & Hr3 & Hp3).
  exists w3. split; [exact H3|]. split; [exact Ha3|].
  split; [eauto using untracked_trans|]. split; congruence.
Qed.

Lemma tracked_after w w1 l m :
  untracked w w1 -> In m tracking_messages ->
  tracked w (with_console ((l, m) :: console w1) w1).
Proof.
  intros (ev & Hc & _) Hin. exists l, m, ev. cbn. rewrite Hc. auto.
Qed.

(** The attempt to count the scan always returns, and ends with a
    message of its outcome. *)
Lemma track_returns id w :
  exists w',
    track id w = (Return tt, w')
    /\ tracked w w'
    /\ page w' = page w
    /\ (manager_loaded w = true ->
        firebase_defined w && window_database w = true ->
        remote_fault w OpTransaction = false ->
        forall d, remote w !! id = Some d ->
                  remote w' !! id = Some (FirebaseManager.scanned (server_time w) d)).
Proof.
  unfold track, FirebaseManager_ref, FirebaseManager.incrementScanCount,
    FirebaseManager.backend_handle, FirebaseManager.database_transaction.
  js_light. cbn.
  destruct (manager_loaded w); cbn.
  2:{ eexists; split; [reflexivity|]. split; [solve_tracked|]. split; [reflexivity|].
      discriminate. }
  destruct (firebase_defined w && window_database w); cbn.
  - destruct (remote_fault w OpTransaction); cbn.
    + eexists; split; [reflexivity|]. split; [solve_tracked|]. split; [reflexivity|].
      discriminate.
    + destruct (remote w !! id) as [d0|] eqn:Hd; cbn.
      * eexists; split; [reflexivity|]. split; [solve_tracked|]. split; [reflexivity|].
        intros _ _ _ d Heq. injection Heq as <-. cbn. apply lookup_insert_eq.
      * eexists; split; [reflexivity|]. split; [solve_tracked|]. split; [reflexivity|].
        discriminate.
  - destruct (getItem_stored w) as (v & w1 & Hg & _ & _ & Hu & Hsur).
    rewrite Hg. cbn.
    destruct (Obj.get id (default [] v)) as [d|]; cbn.
    + match goal with
      | |- context [CryptoManager.setItem ?k ?o w1] =>
          destruct (setItem_untracked k o w1) as (r & w2 & Hset & Hu2 & Hsur2);
          rewrite Hset
      end.
      pose proof (untracked_trans _ _ _ Hu Hu2) as Hu12.
      assert (Hp : page w2 = page w).
      { rewrite (surroundings_page _ _ Hsur2). apply surroundings_page, Hsur. }
      destruct r as [[]|e]; cbn.
      * eexists; split; [reflexivity|].
        split; [apply tracked_after; [exact Hu12|cbn; tauto]|].
        split; [exact Hp|discriminate].
      * eexists; split; [reflexivity|].
        split; [apply tracked_after; [exact Hu12|cbn; tauto]|].
        split; [exact Hp|discriminate].
    + eexists; split; [reflexivity|].
      split; [apply tracked_after; [exact Hu|cbn; tauto]|].
      split; [apply surroundings_page, Hsur|discriminate].
Qed.

(** C10. Extracting the inline payload always returns: the value is
    [null] or what [JSON.parse] made of the decoded [data] parameter,
    and nothing but the console is touched. *)
Theorem getFallbackDataFromURL_total (w : World) :
  exists v w',
    getFallbackDataFromURL w = (Return v, w')
    /\ (v = JNull
        \/ exists encoded decoded text,
             search_data w = Some encoded
             /\ decodeURIComponent encoded = Some decoded
             /\ atob decoded = Some text
             /\ JSON_parse text = Some v)
    /\ (search_data w = None -> v = JNull)
    /\ page w' = page w
    /\ localStorage w' = localStorage w
    /\ remote w' = remote w.
Proof.
  unfold getFallbackDataFromURL, builtin, nonempty. js_unfold. cbn.
  assert (Hnull : forall w0 : World,
             page w0 = page w -> localStorage w0 = localStorage w ->
             remote w0 = remote w ->
             exists v w',
               (Return JNull, w0) = (Return v, w')
               /\ (v = JNull
                   \/ exists encoded decoded text,
                        search_data w = Some encoded
                        /\ decodeURIComponent encoded = Some decoded
                        /\ atob decoded = Some text
                        /\ JSON_parse text = Some v)
               /\ (search_data w = None -> v = JNull)
               /\ page w' = page w
               /\ localStorage w' = localStorage w
               /\ remote w' = remote w).
  { intros w0 Hp Hl Hr. exists JNull, w0. auto 10. }
  destruct (search_data w) as [[|c encoded]|] eqn:Hdata; cbn.
  - apply Hnull; reflexivity.
  - destruct (decodeURIComponent (String c encoded)) as [decoded|] eqn:Hd; cbn;
      [|apply Hnull; reflexivity].
    destruct (atob decoded) as [text|] eqn:Ha; cbn; [|apply Hnull; reflexivity].
    destruct (JSON_parse text) as [v|] eqn:Hp; cbn; [|apply Hnull; reflexivity].
    exists v, w. split; [reflexivity|]. split; [|split; [discriminate|auto]].
    right. exists (String c encoded), decoded, text. auto.
  - apply Hnull; reflexivity.
Qed.

(** What is shown depends on the content alone. *)
Lemma redirectToOriginal_page content w :
  result (redirectToOriginal content) w = Return tt
  /\ page (exec (redirectToOriginal content) w) = classify content
  /\ remote (exec (redirectToOriginal content) w) = remote w
  /\ localStorage (exec (redirectToOriginal content) w) = localStorage w.
Proof.
  unfold redirectToOriginal, classify, showTextContent. js_unfold.
  destruct (isValidURL (SecurityUtils.sanitizeText content)); cbn; auto.
Qed.



(** [init] once the sources have answered. *)
Lemma init_found this id w d w1 :
  nonempty (qrId this) = Some id ->
  lookup id w = (Return (Some d), w1) ->
  exists w2,
    track id w1 = (Return tt, w2)
    /\ init this w
       = redirectToOriginal (QR.originalText d)
           (with_page (PagePreview (SecurityUtils.truncateText (QR.originalText d) 50)) w2).
Proof.
  intros Hid Hl. destruct (track_returns id w1) as (w2 & Ht & _).
  exists w2. split; [exact Ht|].
  unfold init. rewrite Hid. js_light. rewrite Hl, Ht. reflexivity.
Qed.

Lemma init_missing this id w w1 :
  nonempty (qrId this) = Some id ->
  lookup id w = (Return None, w1) ->
  init this w = (Return tt, with_page (PageError not_found) w1).
Proof.
  intros Hid Hl. unfold init. rewrite Hid. unfold showError. js_light.
  rewrite Hl. reflexivity.
Qed.

(** C1. When the identifier is in no store, [init] shows the error
    "content not found", whatever inline payload the link carries; the
    scan is not counted. *)
Theorem init_without_stored_record (this : t) (id : string) (w : World) :
  nonempty (qrId this) = Some id ->
  absent id w ->
  exists w1,
    init this w = (Return tt, with_page (PageError not_found) w1)
    /\ untracked w w1
    /\ remote w1 = remote w.
Proof.
  intros Hid Ha.
  destruct (lookup_misses id w Ha) as (w1 & Hl & _ & Hu & Hr & _).
  exists w1. split; [apply (init_missing this id w w1 Hid Hl)|]. auto.
Qed.

(** C3. A resolution whose record holds the content
    [javascript:alert(1)] ends with the page showing text, namely what
    is left of the content once sanitised, and not with a navigation. *)
Theorem javascript_content_shown_as_text (this : t) (id : string) (w w1 : World)
    (d : QR.data) :
  nonempty (qrId this) = Some id ->
  lookup id w = (Return (Some d), w1) ->
  QR.originalText d = "javascript:alert(1)" ->
  result (init this) w = Return tt
  /\ page (exec (init this) w) = PageText "alert(1)"
  /\ forall href, page (exec (init this) w) <> PageNavigated href.
Proof.
  intros Hid Hl Hc.
  destruct (init_found this id w d w1 Hid Hl) as (w2 & _ & Hinit).
  unfold result, exec. rewrite Hinit, Hc.
  match goal with
  | |- context [redirectToOriginal ?c ?w0] =>
      destruct (redirectToOriginal_page c w0) as (Hres & Hpage & _)
  end.
  unfold result, exec in Hres, Hpage. rewrite Hres, Hpage.
  split; [reflexivity|]. split; [reflexivity|]. intros href. discriminate.
Qed.


Lemma length_append (p s : string) :
  String.length (p +:+ s) = (String.length p + String.length s)%nat.
Proof. induction p as [|c p IH]; simpl; [reflexivity|]. rewrite IH. reflexivity. Qed.

Lemma append_longer (p s : string) : p <> EmptyString -> s <> p +:+ s.
Proof.
  intros Hp Heq. apply (f_equal String.length) in Heq.
  rewrite length_append in Heq. destruct p; [congruence|]. simpl in Heq. lia.
Qed.

(** C7. A content that, once sanitised, has a dot and no space and does
    not parse as a URL, while it does with [https://] before it, is
    navigated to as it stands, without the prefix. *)
Theorem bare_domain_navigates_unprefixed (content : string) (w : World) :
  let s := SecurityUtils.sanitizeText content in
  URL.protocol s = None ->
  JSString.includes "." s = true ->
  JSString.includes " " s = false ->
  URL.protocol ("https://" +:+ s) <> None ->
  isValidURL s = true
  /\ page (exec (redirectToOriginal content) w) = PageNavigated s
  /\ page (exec (redirectToOriginal content) w) <> PageNavigated ("https://" +:+ s).
Proof.
  intros s Hnone Hdot Hspace Hhttps.
  assert (Hvalid : isValidURL s = true).
  { unfold isValidURL. rewrite Hnone, Hdot, Hspace.
    change (true && negb false) with true. cbv zeta iota.
    destruct (JSString.startsWith "www." s);
      destruct (URL.protocol ("https://" +:+ s)) eqn:E;
      solve [reflexivity | contradiction]. }
  destruct (redirectToOriginal_page content w) as (_ & Hpage & _).
  rewrite Hpage. unfold classify. fold s. rewrite Hvalid.
  split; [reflexivity|]. split; [reflexivity|].
  intros Heq. injection Heq as Heq. revert Heq. apply append_longer. discriminate.
Qed.

End RedirectFacts.

(** The link carries the payload, the identifier is stored nowhere:
    the page shows the error. *)
Lemma init_without_stored_record_witness :
  result (QRRedirectManager.getFallbackDataFromURL (H := Example.platform))
         Example.stranger
  = Return Example.payload_value
  /\ absent "abc" Example.stranger
  /\ exists w1,
       QRRedirectManager.init (H := Example.platform)
         (QRRedirectManager.mk (Some "abc") Example.payload_value) Example.stranger
       = (Return tt, with_page (PageError QRRedirectManager.not_found) w1)
       /\ untracked Example.stranger w1
       /\ remote w1 = remote Example.stranger.
Proof.
  assert (Ha : absent "abc" Example.stranger).
  { split; [reflexivity|]. split; [reflexivity|].
    intros o [[k Hk]|Hk]; cbn in Hk; rewrite lookup_empty in Hk; discriminate. }
  split; [vm_compute; reflexivity|]. split; [exact Ha|].
  apply (init_without_stored_record (H := Example.platform)
           (QRRedirectManager.mk (Some "abc") Example.payload_value) "abc"
           Example.stranger eq_refl Ha).
Defined.

(** The backend holds the hostile record: its content is shown as text. *)
Lemma javascript_content_shown_as_text_witness :
  QRRedirectManager.lookup "abc" Example.hostile
  = (Return (Some (Example.record "abc" "javascript:alert(1)" 100)),
     exec (QRRedirectManager.lookup "abc") Example.hostile)
  /\ page (exec (QRRedirectManager.init (H := Example.platform)
                   (QRRedirectManager.mk (Some "abc") JNull))
                Example.hostile)
     = PageText "alert(1)".
Proof.
  assert (Hl : QRRedirectManager.lookup "abc" Example.hostile
               = (Return (Some (Example.record "abc" "javascript:alert(1)" 100)),
                  exec (QRRedirectManager.lookup "abc") Example.hostile))
    by (vm_compute; reflexivity).
  split; [exact Hl|].
  apply (javascript_content_shown_as_text (H := Example.platform)
           (QRRedirectManager.mk (Some "abc") JNull) "abc" Example.hostile _ _
           eq_refl Hl eq_refl).
Defined.


(** The content [google.com]. *)
Lemma bare_domain_navigates_unprefixed_witness :
  SecurityUtils.sanitizeText "google.com" = "google.com"
  /\ page (exec (QRRedirectManager.redirectToOriginal (H := Example.platform)
                   "google.com") Example.stranger)
     = PageNavigated "google.com".
Proof.
  split; [reflexivity|].
  apply (bare_domain_navigates_unprefixed (H := Example.platform)
           "google.com" Example.stranger);
    try reflexivity.
  vm_compute. discriminate.
Defined.

(** ** generateUniqueId *)

Section IdFacts.
Import JSString.

Lemma take_length n s : (String.length (take n s) <= n)%nat.
Proof.
  revert s. induction n as [|n IH]; intros [|c s]; cbn; try lia.
  specialize (IH s). lia.
Qed.

Lemma digit_not_separator d : (d < 36)%N -> Base36.digit d <> "_"%char.
Proof.
  intros Hd Heq. unfold Base36.digit in Heq.
  apply (f_equal N_of_ascii) in Heq.
  destruct (N.ltb_spec d 10);
    rewrite N_ascii_embedding in Heq by lia; cbn in Heq; lia.
Qed.

Lemma digits_plain fuel n acc : plain acc -> plain (Base36.digits fuel n acc).
Proof.
  revert n acc. induction fuel as [|fuel IH]; intros n acc Hacc; cbn; [exact Hacc|].
  assert (Hd : plain (String (Base36.digit (n mod 36)) acc)).
  { split; [|exact Hacc]. apply digit_not_separator. apply N.mod_lt. lia. }
  destruct (n / 36 =? 0)%N; [exact Hd|]. apply IH, Hd.
Qed.

Lemma toString_plain n : plain (Base36.toString n).
Proof.
  destruct n as [|p|p]; cbn.
  - split; [discriminate|exact I].
  - apply digits_plain. exact I.
  - split; [discriminate|]. apply digits_plain. exact I.
Qed.

Lemma plain_includes s : plain s -> includes "_" s = false.
Proof.
  induction s as [|c s IH]; [reflexivity|]. intros [Hc Hs].
  change (includes "_" (String c s))
    with ((("_" =? c)%char && true) || includes "_" s).
  rewrite (IH Hs), orb_false_r, andb_true_r.
  apply Ascii.eqb_neq. congruence.
Qed.

(** C8. The identifier is the timestamp in base 36, which has no
    underscore, then an underscore, then at most nine characters: those
    of the random number's base-36 form from the third on. *)
Theorem generateUniqueId_shape (w : World) :
  let timestamp := Base36.toString (clock w) in
  let suffix := substr 2 9 (random36 w) in
  FirebaseManager.generateUniqueId w = (Return (timestamp +:+ "_" +:+ suffix), w)
  /\ includes "_" timestamp = false
  /\ (String.length suffix <= 9)%nat.
Proof.
  intros timestamp suffix. split; [reflexivity|]. split.
  - apply plain_includes, toString_plain.
  - apply take_length.
Qed.

Lemma one_half_is : Example.one_half = "0.i".
Proof. reflexivity. Qed.

(** With the random number one half, whose base-36 form is [0.i], the
    suffix has one character. *)
Lemma generateUniqueId_short_suffix : ~ newId_claim Example.stranger.
Proof.
  intros (suffix & Hid & Hlen).
  vm_compute in Hid. injection Hid as Hs. subst suffix.
  cbn in Hlen. lia.
Qed.

End IdFacts.

(** ** createQRCode *)

(** Reading back a property just assigned. *)
Lemma get_replace k v o :
  Obj.get k o <> None -> Obj.get k (Obj.replace k v o) = Some v.
Proof.
  induction o as [|[k' v'] o IH]; cbn; [congruence|].
  destruct (String.eqb k k') eqn:E; cbn.
  - rewrite String.eqb_refl. reflexivity.
  - rewrite E. exact IH.
Qed.

Lemma get_app_new k v o :
  Obj.get k o = None -> Obj.get k (o ++ [(k, v)]) = Some v.
Proof.
  induction o as [|[k' v'] o IH]; cbn.
  - rewrite String.eqb_refl. reflexivity.
  - destruct (String.eqb k k'); [discriminate|exact IH].
Qed.

Lemma get_insert_index n k v o :
  Obj.get k o = None -> Obj.get k (Obj.insert_index n k v o) = Some v.
Proof.
  induction o as [|[k' v'] o IH]; cbn.
  - rewrite String.eqb_refl. reflexivity.
  - destruct (String.eqb k k') eqn:E; [discriminate|]. intros Hnone.
    destruct (Obj.array_index k') as [n'|]; [destruct (n <? n')%N|]; cbn.
    + rewrite String.eqb_refl. reflexivity.
    + rewrite E. apply IH, Hnone.
    + rewrite String.eqb_refl. reflexivity.
Qed.

Lemma get_set k v o : Obj.get k (Obj.set k v o) = Some v.
Proof.
  unfold Obj.set. destruct (Obj.get k o) eqn:E.
  - apply get_replace. congruence.
  - destruct (Obj.array_index k); [apply get_insert_index|apply get_app_new]; exact E.
Qed.

(** [setItem] succeeds exactly when [localStorage] takes a write. *)
Lemma setItem_writes data w :
  quota_exceeded w = false ->
  exists w',
    CryptoManager.setItem "qr-codes" data w = (Return tt, w')
    /\ stored w' data
    /\ surroundings w' = surroundings w.
Proof.
  intros Hq. unfold stored. js_unfold. js_cases; truthy_cases.
  all: try congruence.
  all: eexists; split; [reflexivity|]; split; [|reflexivity].
  all: cbn; map_lookup; eauto.
Qed.

Lemma setItem_full key data w :
  quota_exceeded w = true ->
  exists e w',
    CryptoManager.setItem key data w = (Throw e, w')
    /\ localStorage w' = localStorage w
    /\ surroundings w' = surroundings w.
Proof.
  intros Hq. js_unfold. js_cases; truthy_cases.
  all: try congruence.
  all: eexists _, _; split; [reflexivity|]; split; reflexivity.
Qed.

Lemma getItem_full w :
  quota_exceeded w = true ->
  localStorage (exec (CryptoManager.getItem "qr-codes") w) = localStorage w.
Proof.
  intros Hq. js_unfold. js_cases; truthy_cases.
  all: try congruence.
  all: reflexivity.
Qed.

Lemma surroundings_quota w w' :
  surroundings w' = surroundings w -> quota_exceeded w' = quota_exceeded w.
Proof. unfold surroundings. intros Hs. injection Hs. auto. Qed.

(** [createQRCode] writes to one tier, chosen by whether the
    backend's handle exists.  With the handle it writes to the backend
    and leaves the browser's storage alone: the record is stored under
    the new identifier with the server's time, or, if the backend
    rejects the write, the call throws and nothing is stored anywhere.
    Without the handle it writes to the browser's storage and leaves the
    backend alone: the stored object holds the record, or, if the
    storage takes no write, the call throws and the storage is as it
    was. *)
Lemma createQRCode_single_tier (originalText name : string)
    (logoPath : option string) (w : World) :
  let qrId := Base36.toString (clock w) +:+ "_" +:+ JSString.substr 2 9 (random36 w) in
  let run := FirebaseManager.createQRCode originalText name logoPath w in
  (firebase_defined w && window_database w = true ->
   localStorage (snd run) = localStorage w
   /\ (remote_fault w OpSet = false ->
       fst run = Return qrId
       /\ remote (snd run)
          = <[qrId := QR.mk qrId name originalText logoPath 0 (server_time w) None]>
              (remote w))
   /\ (remote_fault w OpSet = true ->
       fst run = Throw "Failed to save QR code. Please try again."
       /\ remote (snd run) = remote w))
  /\ (firebase_defined w && window_database w = false ->
      remote (snd run) = remote w
      /\ (quota_exceeded w = false ->
          fst run = Return qrId
          /\ exists o,
               stored (snd run) o
               /\ Obj.get qrId o
                  = Some (QR.mk qrId name originalText logoPath 0 (clock w) None))
      /\ (quota_exceeded w = true ->
          fst run = Throw "Failed to save QR code. Please try again."
          /\ localStorage (snd run) = localStorage w)).
Proof.
  intros qrId run. subst run.
  unfold FirebaseManager.createQRCode, FirebaseManager.generateUniqueId, Date_now,
    FirebaseManager.backend_handle, FirebaseManager.database_set.
  js_light. cbn. fold qrId.
  split; intros Hh; rewrite Hh; cbn.
  - destruct (remote_fault w OpSet); cbn.
    + split; [reflexivity|]. split; [discriminate|]. auto.
    + split; [reflexivity|]. split; [|discriminate]. auto.
  - destruct (getItem_stored w) as (v & w1 & Hg & _ & _ & _ & Hsur).
    pose proof (getItem_full w) as Hfull. unfold exec in Hfull.
    rewrite Hg in *. cbn in Hfull |- *.
    pose proof (surroundings_quota _ _ Hsur) as Hq1.
    pose proof (surroundings_remote _ _ Hsur) as Hr1.
    destruct (quota_exceeded w) eqn:Hq.
    + match goal with
      | |- context [CryptoManager.setItem ?k ?o w1] =>
          destruct (setItem_full k o w1 Hq1) as (e & w2 & Hset & Hls & Hsur2);
          rewrite Hset
      end.
      cbn. split; [rewrite (surroundings_remote _ _ Hsur2); exact Hr1|].
      split; [discriminate|]. intros _. split; [reflexivity|].
      rewrite Hls. apply Hfull. reflexivity.
    + match goal with
      | |- context [CryptoManager.setItem "qr-codes" ?o w1] =>
          destruct (setItem_writes o w1 Hq1) as (w2 & Hset & Hst & Hsur2);
          rewrite Hset
      end.
      cbn. split; [rewrite (surroundings_remote _ _ Hsur2); exact Hr1|].
      split; [|discriminate]. intros _. split; [reflexivity|].
      eexists. split; [exact Hst|]. apply get_set.
Qed.

(** The backend rejects the write while the browser's storage would
    take it: the creation fails. *)
Lemma createQRCode_fails_on_rejected_write : ~ write_claim Example.rejecting.
Proof.
  intros Hclaim.
  destruct (Hclaim "https://example.com" "Demo" None) as [_ Hlocal];
    [vm_compute; reflexivity|].
  specialize (Hlocal []). vm_compute in Hlocal. discriminate.
Qed.

(** C2. When the backend's handle exists and the backend rejects the
    write, [createQRCode] throws without trying the browser's cache:
    the backend and the browser's storage are as they were, although,
    where the storage takes writes, [CryptoManager.setItem] would have
    stored whatever object it was given.  So the networked write alone
    makes the creation fail, against the rule that it fails only if
    both tiers fail. *)
Theorem createQRCode_rejected_write_not_retried (originalText name : string)
    (logoPath : option string) (w : World) :
  firebase_defined w && window_database w = true ->
  remote_fault w OpSet = true ->
  let run := FirebaseManager.createQRCode originalText name logoPath in
  result run w = Throw "Failed to save QR code. Please try again."
  /\ remote (exec run w) = remote w
  /\ localStorage (exec run w) = localStorage w
  /\ (quota_exceeded w = false ->
      (forall data, result (CryptoManager.setItem "qr-codes" data) w = Return tt)
      /\ ~ write_claim w).
Proof.
  intros Hh Hf run.
  assert (Hrun : result run w = Throw "Failed to save QR code. Please try again."
                 /\ remote (exec run w) = remote w
                 /\ localStorage (exec run w) = localStorage w).
  { subst run.
    unfold result, exec, FirebaseManager.createQRCode,
      FirebaseManager.generateUniqueId, Date_now,
      FirebaseManager.backend_handle, FirebaseManager.database_set.
    js_light. cbn. rewrite Hh. cbn. rewrite Hf. cbn. auto. }
  destruct Hrun as (Hres & Hrem & Hls).
  split; [exact Hres|]. split; [exact Hrem|]. split; [exact Hls|].
  intros Hq.
  assert (Hset : forall data,
             result (CryptoManager.setItem "qr-codes" data) w = Return tt).
  { intros data. destruct (setItem_writes data w Hq) as (w' & Hs & _).
    unfold result. rewrite Hs. reflexivity. }
  split; [exact Hset|].
  intros Hclaim.
  destruct (Hclaim originalText name logoPath) as [_ Hlocal].
  { unfold throws. fold run. rewrite Hres. reflexivity. }
  specialize (Hlocal []). unfold throws in Hlocal. rewrite Hset in Hlocal.
  discriminate.
Qed.

Lemma createQRCode_rejected_write_not_retried_witness :
  let run := FirebaseManager.createQRCode "https://example.com" "Demo" None in
  result run Example.rejecting = Throw "Failed to save QR code. Please try again."
  /\ localStorage (exec run Example.rejecting) = localStorage Example.rejecting
  /\ result (CryptoManager.setItem "qr-codes" []) Example.rejecting = Return tt.
Proof.
  destruct (createQRCode_rejected_write_not_retried "https://example.com" "Demo" None
              Example.rejecting eq_refl eq_refl)
    as (Hres & _ & Hls & Hlocal).
  intros run. split; [exact Hres|]. split; [exact Hls|].
  apply (proj1 (Hlocal eq_refl)).
Defined.

(** ** checkForDuplicate *)

Section DuplicateFacts.
Context `{Platform}.
Import FirebaseManager.

Lemma find_app {A} (f : A -> bool) (l1 l2 : list A) :
  List.find f (l1 ++ l2)
  = match List.find f l1 with
    | Some x => Some x
    | None => List.find f l2
    end.
Proof.
  induction l1 as [|a l1 IH]; cbn; [reflexivity|].
  destruct (f a); [reflexivity|exact IH].
Qed.

(** The loop of [snapshot.forEach] keeps the last match. *)
Lemma fold_left_last_match {A} (f : A -> bool) (l : list A) (acc : option A) :
  fold_left (fun duplicate x => if f x then Some x else duplicate) l acc
  = match List.find f (rev l) with
    | Some x => Some x
    | None => acc
    end.
Proof.
  revert acc. induction l as [|a l IH]; intros acc; cbn; [reflexivity|].
  rewrite IH, find_app. destruct (List.find f (rev l)); [reflexivity|].
  cbn. destruct (f a); reflexivity.
Qed.

Lemma child_leb_not_newer a b : child_leb a b = true -> not_newer a b.
Proof.
  unfold child_leb, not_newer. intros Hle.
  apply orb_true_iff in Hle. destruct Hle as [Hlt|Heq]; [apply Z.ltb_lt in Hlt; lia|].
  apply andb_true_iff in Heq. destruct Heq as [Heq _]. apply Z.eqb_eq in Heq. lia.
Qed.

Lemma child_leb_newer a b : child_leb a b = false -> not_newer b a.
Proof.
  unfold child_leb, not_newer. intros Hle.
  apply orb_false_iff in Hle. destruct Hle as [Hlt _]. apply Z.ltb_ge in Hlt. lia.
Qed.

(** The query's order: a permutation of the children, oldest first. *)
Lemma insert_child_perm x l : Permutation (insert_child x l) (x :: l).
Proof.
  induction l as [|y l IH]; cbn; [reflexivity|].
  destruct (child_leb x y); [reflexivity|].
  rewrite IH. apply perm_swap.
Qed.

Lemma insert_child_sorted x l :
  StronglySorted not_newer l -> StronglySorted not_newer (insert_child x l).
Proof.
  induction 1 as [|y l Hs IH Hy]; cbn.
  - constructor; constructor.
  - destruct (child_leb x y) eqn:E.
    + constructor; [constructor; assumption|].
      apply child_leb_not_newer in E. constructor; [exact E|].
      eapply List.Forall_impl; [|exact Hy]. unfold not_newer in *. intros; lia.
    + constructor; [exact IH|].
      apply child_leb_newer in E.
      apply (Permutation_Forall (Permutation_sym (insert_child_perm x l))).
      constructor; assumption.
Qed.

Lemma orderByChild_sorted r : StronglySorted not_newer (orderByChild_createdAt r).
Proof.
  unfold orderByChild_createdAt.
  induction (map_to_list r) as [|x l IH]; cbn; [constructor|].
  apply insert_child_sorted, IH.
Qed.

Lemma orderByChild_perm r : Permutation (orderByChild_createdAt r) (map_to_list r).
Proof.
  unfold orderByChild_createdAt.
  induction (map_to_list r) as [|x l IH]; cbn; [reflexivity|].
  rewrite insert_child_perm, IH. reflexivity.
Qed.

Lemma orderByChild_In r k d :
  In (k, d) (orderByChild_createdAt r) <-> r !! k = Some d.
Proof.
  rewrite <- elem_of_map_to_list, <- list_elem_of_In.
  split; intros Hin.
  - rewrite <- (orderByChild_perm r). exact Hin.
  - rewrite (orderByChild_perm r). exact Hin.
Qed.

Lemma limitToLast_length {A} n (l : list A) : (length (limitToLast n l) <= n)%nat.
Proof. unfold limitToLast. rewrite length_skipn. lia. Qed.

Lemma sorted_app_le {A} (R : A -> A -> Prop) (l1 l2 : list A) :
  StronglySorted R (l1 ++ l2) ->
  StronglySorted R l2 /\ forall a b, In a l1 -> In b l2 -> R a b.
Proof.
  induction l1 as [|x l1 IH]; cbn; intros Hs.
  - split; [exact Hs|]. intros a b [].
  - inversion Hs as [|? ? Hs' Hx]; subst. destruct (IH Hs') as [H2 Hle].
    split; [exact H2|]. intros a b [<-|Ha] Hb.
    + rewrite List.Forall_forall in Hx. apply Hx. apply in_or_app. right. exact Hb.
    + apply Hle; assumption.
Qed.

Lemma sorted_snoc {A} (R : A -> A -> Prop) (l : list A) (x : A) :
  StronglySorted R l -> (forall y, In y l -> R y x) -> StronglySorted R (l ++ [x]).
Proof.
  induction 1 as [|y l Hs IH Hy]; cbn; intros Hx.
  - constructor; constructor.
  - constructor.
    + apply IH. intros z Hz. apply Hx. right. exact Hz.
    + apply List.Forall_app. split; [exact Hy|].
      constructor; [|constructor]. apply Hx. left. reflexivity.
Qed.

Lemma sorted_rev {A} (R : A -> A -> Prop) (l : list A) :
  StronglySorted R l -> StronglySorted (fun a b => R b a) (rev l).
Proof.
  induction 1 as [|x l Hs IH Hx]; cbn; [constructor|].
  apply sorted_snoc; [exact IH|].
  intros y Hy. apply in_rev in Hy. rewrite List.Forall_forall in Hx. apply Hx, Hy.
Qed.

(** C6. [checkForDuplicate] always returns.  With the backend's handle
    it examines the children the query yields, at most fifty, none
    older than a child left out, and returns the first match in the
    order newest first, or null if there is none or the query is
    rejected.  Without the handle it examines every record of the
    browser's cache in the order the object enumerates them and returns
    the first match, or null. *)
Theorem checkForDuplicate_examines_recent (originalText name : string) (w : World) :
  let examined := rev (limitToLast 50 (orderByChild_createdAt (remote w))) in
  exists r w',
    checkForDuplicate originalText name w = (Return r, w')
    /\ (firebase_defined w && window_database w = true ->
        remote_fault w OpQuery = false ->
        r = List.find (is_duplicate originalText name) (map snd examined))
    /\ (firebase_defined w && window_database w = true ->
        remote_fault w OpQuery = true ->
        r = None)
    /\ (firebase_defined w && window_database w = false ->
        exists v w1,
          CryptoManager.getItem "qr-codes" w = (Return v, w1)
          /\ r = List.find (is_duplicate originalText name) (map snd (default [] v)))
    /\ (length examined <= 50)%nat
    /\ StronglySorted (fun a b => not_newer b a) examined
    /\ (forall k d, In (k, d) examined -> remote w !! k = Some d)
    /\ (forall k d,
          remote w !! k = Some d -> ~ In (k, d) examined ->
          forall e, In e examined -> not_newer (k, d) e).
Proof.
  intros examined.
  assert (Hsorted := orderByChild_sorted (remote w)).
  assert (Hsplit : orderByChild_createdAt (remote w)
                   = firstn (length (orderByChild_createdAt (remote w)) - 50)
                       (orderByChild_createdAt (remote w))
                     ++ limitToLast 50 (orderByChild_createdAt (remote w))).
  { unfold limitToLast. symmetry. apply firstn_skipn. }
  rewrite Hsplit in Hsorted. apply sorted_app_le in Hsorted.
  destruct Hsorted as [Hlast Hfirst].
  assert (Hprops :
    (length examined <= 50)%nat
    /\ StronglySorted (fun a b => not_newer b a) examined
    /\ (forall k d, In (k, d) examined -> remote w !! k = Some d)
    /\ (forall k d,
          remote w !! k = Some d -> ~ In (k, d) examined ->
          forall e, In e examined -> not_newer (k, d) e)).
  { subst examined. split; [rewrite length_rev; apply limitToLast_length|].
    split; [apply sorted_rev, Hlast|]. split.
    - intros k d Hin. apply in_rev in Hin. apply orderByChild_In.
      rewrite Hsplit. apply in_or_app. right. exact Hin.
    - intros k d Hkd Hout e He. apply in_rev in He.
      apply Hfirst; [|exact He].
      apply orderByChild_In in Hkd. rewrite Hsplit in Hkd.
      apply in_app_or in Hkd. destruct Hkd as [Hkd|Hkd]; [exact Hkd|].
      exfalso. apply Hout. apply in_rev in Hkd. exact Hkd. }
  unfold checkForDuplicate, backend_handle, database_recent. js_light. cbn.
  destruct (firebase_defined w && window_database w); cbn.
  - destruct (remote_fault w OpQuery) eqn:Hf; cbn.
    + eexists _, _. split; [reflexivity|].
      split; [discriminate|]. split; [reflexivity|]. split; [discriminate|exact Hprops].
    + eexists _, _. split; [reflexivity|].
      split; [|split; [discriminate|split; [discriminate|exact Hprops]]].
      intros _ _. rewrite fold_left_last_match. subst examined.
      rewrite map_rev. destruct (List.find _ _); reflexivity.
  - destruct (getItem_stored w) as (v & w1 & Hg & _).
    rewrite Hg. cbn.
    eexists _, _. split; [reflexivity|].
    split; [discriminate|]. split; [discriminate|].
    split; [|exact Hprops]. intros _. exists v, w1. auto.
Qed.

End DuplicateFacts.

(** The cache holds two matching records, the older enumerated first:
    the older is returned, not the most recent. *)
Lemma checkForDuplicate_local_returns_oldest :
  ~ findDuplicate_claim (H := Example.platform) Example.two_local
      "https://meet.example/abc" "Demo".
Proof.
  unfold findDuplicate_claim. vm_compute. discriminate.
Qed.

(** ** incrementScanCount *)

(** C9. On a page without [window.crypto.subtle] whose [localStorage]
    holds the records unencrypted, counting a scan of an identifier that
    is not among them returns without error and leaves [localStorage]
    empty: the stored object is gone. *)
Theorem incrementScanCount_drops_unencrypted_store :
  let w := Example.insecure in
  let o := [("a", Example.record "a" "https://example.com" 100)] in
  firebase_defined w && window_database w = false
  /\ stored w o
  /\ Obj.get "b" o = None
  /\ result (FirebaseManager.incrementScanCount "b") w = Return tt
  /\ localStorage (exec (FirebaseManager.incrementScanCount "b") w) = ∅
  /\ ~ stored (exec (FirebaseManager.incrementScanCount "b") w) o.
Proof.
  assert (Hls : localStorage (exec (FirebaseManager.incrementScanCount "b")
                                Example.insecure) = ∅)
    by (vm_compute; reflexivity).
  cbv zeta. split; [reflexivity|]. split; [right; reflexivity|].
  split; [reflexivity|]. split; [vm_compute; reflexivity|]. split; [exact Hls|].
  unfold stored. rewrite Hls. intros [[k Hk]|Hk]; rewrite lookup_empty in Hk; discriminate.
Qed.

(** ** Further properties *)

(** X1. [getRemainingRequests] is ten less the number of the actor's
    timestamps within the window, and not below zero; a request is
    allowed exactly when some remain. *)
Theorem getRemainingRequests_counts (now : Z) (userId : string) (rl : RateLimiter.t) :
  RateLimiter.configured rl ->
  RateLimiter.getRemainingRequests now userId rl
  = Z.max 0 (10 - Z.of_nat (length (retained now (RateLimiter.userRequests rl userId))))
  /\ fst (RateLimiter.canMakeRequest now userId rl)
     = (0 <? RateLimiter.getRemainingRequests now userId rl).
Proof.
  intros Hc. pose proof Hc as [Hm Hw].
  unfold RateLimiter.getRemainingRequests, RateLimiter.canMakeRequest.
  rewrite (recentRequests_retained _ _ _ Hc), Hm.
  split; [reflexivity|].
  destruct (Z.geb_spec
              (Z.of_nat (length (retained now (RateLimiter.userRequests rl userId)))) 10);
    cbn; symmetry; [apply Z.ltb_ge|apply Z.ltb_lt]; lia.
Qed.

Lemma getRemainingRequests_counts_witness :
  RateLimiter.getRemainingRequests 0 RateLimiter.anonymous RateLimiter.new = 10.
Proof.
  rewrite (proj1 (getRemainingRequests_counts 0 RateLimiter.anonymous RateLimiter.new
                    (conj eq_refl eq_refl))).
  reflexivity.
Defined.

(** [x || 0] is [x]. *)
Lemma or_zero_same (x : Z) : FirebaseManager.or_zero x = x.
Proof.
  unfold FirebaseManager.or_zero. destruct (Z.eqb_spec x 0); congruence.
Qed.

(** Below [2^53] in magnitude a count is stepped exactly. *)
Lemma plus_one_exact (x : Z) :
  Z.abs x < 2 ^ 53 -> FirebaseManager.plus_one x = x + 1.
Proof.
  intros Hx. unfold FirebaseManager.plus_one, FirebaseManager.double.
  destruct (Z.leb_spec (Z.abs (x + 1)) (2 ^ 53)); [reflexivity|lia].
Qed.

(** From [2^53] on it is not: the count stays, or moves by two. *)
Lemma plus_one_inexact :
  FirebaseManager.plus_one (2 ^ 53) = 2 ^ 53
  /\ FirebaseManager.plus_one (2 ^ 53 + 2) = 2 ^ 53 + 4
  /\ FirebaseManager.plus_one (2 ^ 53 + 4) = 2 ^ 53 + 4.
Proof. vm_compute. auto. Qed.

Lemma scanned_count (at_ : Z) (d : QR.data) :
  Z.abs (QR.scanCount d) < 2 ^ 53 ->
  FirebaseManager.scanned at_ d
  = QR.mk (QR.id d) (QR.name d) (QR.originalText d) (QR.logoPath d)
          (QR.scanCount d + 1) (QR.createdAt d) (Some at_).
Proof.
  intros Hx. unfold FirebaseManager.scanned.
  rewrite or_zero_same, (plus_one_exact _ Hx). reflexivity.
Qed.

(** X2. On the networked tier a scan that the backend accepts, of a
    record whose count is below [2^53] in magnitude, adds exactly one
    to the count and stamps the record with the server's time; no other
    child and nothing in the browser changes. *)
Theorem incrementScanCount_adds_one (id : string) (w : World) (d : QR.data) :
  firebase_defined w && window_database w = true ->
  remote_fault w OpTransaction = false ->
  remote w !! id = Some d ->
  Z.abs (QR.scanCount d) < 2 ^ 53 ->
  exists d',
    result (FirebaseManager.incrementScanCount id) w = Return tt
    /\ remote (exec (FirebaseManager.incrementScanCount id) w) = <[id := d']> (remote w)
    /\ QR.scanCount d' = QR.scanCount d + 1
    /\ QR.lastScanned d' = Some (server_time w)
    /\ (QR.id d', QR.name d', QR.originalText d', QR.logoPath d', QR.createdAt d')
       = (QR.id d, QR.name d, QR.originalText d, QR.logoPath d, QR.createdAt d)
    /\ localStorage (exec (FirebaseManager.incrementScanCount id) w) = localStorage w.
Proof.
  intros Hh Hf Hd Hx. exists (FirebaseManager.scanned (server_time w) d).
  unfold FirebaseManager.incrementScanCount, FirebaseManager.backend_handle,
    FirebaseManager.database_transaction.
  js_light. cbn - [FirebaseManager.scanned]. rewrite Hh.
  cbn - [FirebaseManager.scanned]. rewrite Hf, Hd.
  cbn - [FirebaseManager.scanned]. rewrite (scanned_count _ _ Hx). cbn.
  repeat split.
Qed.

Lemma incrementScanCount_adds_one_witness :
  QR.scanCount <$> remote (exec (FirebaseManager.incrementScanCount "abc")
                             Example.hostile) !! "abc"
  = Some 1.
Proof.
  destruct (incrementScanCount_adds_one "abc" Example.hostile
              (Example.record "abc" "javascript:alert(1)" 100)
              eq_refl eq_refl eq_refl eq_refl)
    as (d' & _ & Hr & Hc & _).
  rewrite Hr, lookup_insert_eq. cbn. rewrite Hc. reflexivity.
Defined.

Lemma newId_nonempty (timestamp suffix : string) :
  String.eqb (timestamp +:+ "_" +:+ suffix) EmptyString = false.
Proof. destruct timestamp; reflexivity. Qed.

(** X3. On the networked tier a record written by [createQRCode] is
    read back by [getQRCode] under the identifier returned, field for
    field, its [createdAt] being the server's time. *)
Theorem createQRCode_then_getQRCode (originalText name : string)
    (logoPath : option string) (w : World) :
  firebase_defined w && window_database w = true ->
  remote_fault w OpSet = false ->
  remote_fault w OpGet = false ->
  exists id w1,
    FirebaseManager.createQRCode originalText name logoPath w = (Return id, w1)
    /\ result (FirebaseManager.getQRCode id) w1
       = Return (Some (QR.mk id name originalText logoPath 0 (server_time w) None)).
Proof.
  intros Hh Hset Hget.
  unfold FirebaseManager.createQRCode, FirebaseManager.generateUniqueId, Date_now,
    FirebaseManager.backend_handle, FirebaseManager.database_set,
    FirebaseManager.getQRCode, FirebaseManager.database_once.
  js_light. cbn. rewrite Hh. cbn. rewrite Hset. cbn.
  eexists _, _. split; [reflexivity|].
  cbn. rewrite newId_nonempty. cbn. rewrite Hh. cbn. rewrite Hget. cbn.
  rewrite lookup_insert_eq. reflexivity.
Qed.

Lemma createQRCode_then_getQRCode_witness :
  exists id w1,
    FirebaseManager.createQRCode "https://example.com" "Demo" None Example.stranger
    = (Return id, w1)
    /\ result (FirebaseManager.getQRCode id) w1
       = Return (Some (QR.mk id "Demo" "https://example.com" None 0 1700000000500 None)).
Proof.
  apply (createQRCode_then_getQRCode "https://example.com" "Demo" None Example.stranger);
    reflexivity.
Defined.

(** X4. Without the backend's handle, counting a scan of a key that
    the browser's cache does not hold returns without error, leaves the
    backend alone, and stores no object that was not stored before: no
    record is created and none is modified. *)
Theorem incrementScanCount_stores_nothing_new (id : string) (w : World) :
  Obj.key id = true ->
  firebase_defined w && window_database w = false ->
  (forall o, stored w o -> Obj.get id o = None) ->
  exists w',
    FirebaseManager.incrementScanCount id w = (Return tt, w')
    /\ (forall o, stored w' o -> stored w o)
    /\ remote w' = remote w.
Proof.
  intros _ Hh Habs.
  unfold FirebaseManager.incrementScanCount, FirebaseManager.backend_handle.
  js_light. cbn. rewrite Hh. cbn.
  destruct (getItem_stored w) as (v & w1 & Hg & Hv & Hst & _ & Hsur).
  rewrite Hg. cbn.
  assert (Hget : Obj.get id (default [] v) = None).
  { destruct v as [o|]; [apply Habs, Hv; reflexivity|reflexivity]. }
  rewrite Hget. cbn.
  eexists. split; [reflexivity|]. split; [exact Hst|].
  cbn. apply surroundings_remote, Hsur.
Qed.

Lemma incrementScanCount_stores_nothing_new_witness :
  result (FirebaseManager.incrementScanCount "c") Example.two_local = Return tt.
Proof.
  destruct (incrementScanCount_stores_nothing_new "c" Example.two_local
              eq_refl eq_refl)
    as (w' & Hrun & _).
  - intros o [[k Hk]|Hk]; vm_compute in Hk.
    + injection Hk as _ <-. reflexivity.
    + discriminate.
  - unfold result. rewrite Hrun. reflexivity.
Defined.

Section NavigationFacts.
Context `{Platform}.
Import QRRedirectManager.

Lemma existsb_false {A} (f : A -> bool) (l : list A) (x : A) :
  existsb f l = false -> In x l -> f x = false.
Proof.
  intros Hf Hin. destruct (f x) eqn:E; [|reflexivity].
  assert (existsb f l = true); [|congruence].
  apply existsb_exists. exists x. split; assumption.
Qed.

(** X5. Whatever the content, the page navigates only to the sanitised
    content itself, and only if that parses as a URL whose scheme is
    [http] or [https] and holds none of the dangerous patterns, or has
    no scheme, a dot and no space and parses once [https://] is put
    before it. *)
Theorem navigation_only_to_web_urls (content : string) (w : World) (href : string) :
  page (exec (redirectToOriginal content) w) = PageNavigated href ->
  href = SecurityUtils.sanitizeText content
  /\ ((exists protocol,
         URL.protocol href = Some protocol
         /\ (protocol = "http:" \/ protocol = "https:")
         /\ forall pattern,
              In pattern dangerousPatterns ->
              JSString.includes pattern (JSString.toLowerCase href) = false)
      \/ (URL.protocol href = None
          /\ JSString.includes "." href = true
          /\ JSString.includes " " href = false
          /\ URL.protocol ("https://" +:+ href) <> None)).
Proof.
  destruct (redirectToOriginal_page content w) as (_ & Hpage & _).
  rewrite Hpage. unfold classify.
  destruct (isValidURL (SecurityUtils.sanitizeText content)) eqn:Hvalid; [|discriminate].
  intros Heq. injection Heq as <-. split; [reflexivity|].
  revert Hvalid. generalize (SecurityUtils.sanitizeText content). intros s.
  unfold isValidURL.
  destruct (URL.protocol s) as [protocol|] eqn:Hp.
  - destruct (existsb (String.eqb protocol) ["http:"; "https:"]) eqn:Hweb;
      [|discriminate].
    destruct (existsb _ dangerousPatterns) eqn:Hdanger; [discriminate|].
    intros _. left. exists protocol. split; [reflexivity|]. split.
    + apply existsb_exists in Hweb. destruct Hweb as (x & Hin & Hx).
      apply String.eqb_eq in Hx. subst x.
      destruct Hin as [<-|[<-|[]]]; auto.
    + intros pattern Hin.
      apply (existsb_false _ _ pattern Hdanger Hin).
  - destruct (JSString.includes "." s) eqn:Hdot; [|discriminate].
    destruct (JSString.includes " " s) eqn:Hspace; [discriminate|].
    change (true && negb false) with true. cbv zeta iota.
    intros Hhttps. right. split; [reflexivity|]. split; [reflexivity|].
    split; [reflexivity|].
    destruct (JSString.startsWith "www." s);
      destruct (URL.protocol ("https://" +:+ s)); congruence.
Qed.

End NavigationFacts.

Lemma navigation_only_to_web_urls_witness :
  URL.protocol (H := Example.platform) "https://example.com" = Some "https:".
Proof.
  destruct (navigation_only_to_web_urls (H := Example.platform)
              "https://example.com" Example.stranger "https://example.com" eq_refl)
    as [_ [(protocol & Hp & _)|(Hp & _)]]; [|vm_compute in Hp; discriminate].
  vm_compute. reflexivity.
Defined.

(** A step of evaluation: a lookup in an updated map is resolved, a
    scrutinee that a hypothesis settles is replaced, another is split. *)
Ltac js_step :=
  first
    [ progress map_lookup
    | match goal with
      | H : ?x = _ |- context [match ?x with _ => _ end] => rewrite H
      end
    | js_case ];
  cbn in *.

(** In such a browser a second read returns what the first did. *)
Lemma getItem_twice w :
  healthy w ->
  readable (exec (CryptoManager.getItem "qr-codes") w) = readable w
  /\ healthy (exec (CryptoManager.getItem "qr-codes") w).
Proof.
  intros (Hc & Hq & Hk). unfold readable, healthy. js_unfold. cbn.
  rewrite ?Hc, ?Hq.
  destruct Hk as [Hk|[k Hk]].
  - repeat js_step; truthy_cases; try congruence.
    all: try (rewrite Nat.eqb_refl in *; discriminate).
    all: try (split; [reflexivity|]).
    all: cbn; map_lookup; eauto 6.
  - repeat js_step; truthy_cases; try congruence.
    all: try (rewrite Nat.eqb_refl in *; discriminate).
    all: try (split; [reflexivity|]).
    all: cbn; map_lookup; eauto 6.
Qed.

Lemma readable_console c w : readable (with_console c w) = readable w.
Proof.
  unfold readable. js_unfold. js_cases; reflexivity.
Qed.

(** X6. In a browser that can encrypt and store, and without the
    backend's handle, counting a scan of a key that the cache does not
    hold returns without error; the cache then reads as it did before,
    and the backend is as it was. *)
Theorem incrementScanCount_keeps_cache (id : string) (w : World) :
  Obj.key id = true ->
  healthy w ->
  firebase_defined w && window_database w = false ->
  Obj.get id (default [] (readable w)) = None ->
  result (FirebaseManager.incrementScanCount id) w = Return tt
  /\ readable (exec (FirebaseManager.incrementScanCount id) w) = readable w
  /\ remote (exec (FirebaseManager.incrementScanCount id) w) = remote w.
Proof.
  intros _ Hh Hhandle Habs.
  destruct (getItem_twice w Hh) as [Htwice _].
  destruct (getItem_stored w) as (v & w1 & Hg & _ & _ & _ & Hsur).
  assert (Hv : readable w = v) by (unfold readable, result; rewrite Hg; reflexivity).
  unfold exec in Htwice. rewrite Hg in Htwice. cbn in Htwice.
  unfold FirebaseManager.incrementScanCount, FirebaseManager.backend_handle.
  js_light. cbn. rewrite Hhandle. cbn. rewrite Hg. cbn.
  rewrite Hv in Habs. rewrite Habs. cbn.
  split; [reflexivity|]. split.
  - rewrite readable_console. exact Htwice.
  - apply surroundings_remote, Hsur.
Qed.

Lemma incrementScanCount_keeps_cache_witness :
  readable (exec (FirebaseManager.incrementScanCount "c") Example.two_local)
  = Some [("a", Example.record "a" "https://meet.example/abc" 100);
          ("b", Example.record "b" "https://meet.example/abc" 200)].
Proof.
  assert (Hh : healthy Example.two_local).
  { split; [reflexivity|]. split; [reflexivity|]. right. exists 7%nat. reflexivity. }
  rewrite (proj1 (proj2 (incrementScanCount_keeps_cache "c" Example.two_local
                           eq_refl Hh eq_refl eq_refl))).
  reflexivity.
Defined.

(** ** Properties of the rest of the scripts *)

(** *** RateLimiter over a succession of requests *)

Section RateLimiterMore.
Import RateLimiter.

Lemma retained_app now l1 l2 : retained now (l1 ++ l2) = retained now l1 ++ retained now l2.
Proof. unfold retained. apply List.filter_app. Qed.

Lemma retained_later now later l :
  now <= later -> retained later (retained now l) = retained later l.
Proof.
  intros Hle. unfold retained. induction l as [|t l IH]; simpl; [reflexivity|].
  destruct (Z.ltb_spec (now - t) 60000); simpl.
  - rewrite IH. reflexivity.
  - rewrite IH. destruct (Z.ltb_spec (later - t) 60000); [lia|reflexivity].
Qed.

Lemma within_app a l1 l2 : within a (l1 ++ l2) = within a l1 ++ within a l2.
Proof. unfold within. apply List.filter_app. Qed.

Lemma within_retained a now l :
  now < a + 60000 ->
  (length (within a l) <= length (retained now l))%nat.
Proof.
  intros Hle. unfold within, retained. induction l as [|t l IH]; simpl; [lia|].
  destruct (Z.leb_spec a t); destruct (Z.ltb_spec t (a + 60000));
    destruct (Z.ltb_spec (now - t) 60000); simpl; lia.
Qed.

Lemma allowed_cons now b times bs :
  allowed (now :: times) (b :: bs)
  = (if b then [now] else []) ++ allowed times bs.
Proof. unfold allowed. simpl. destruct b; reflexivity. Qed.

(** The limiter answers as one that forgets nothing would: what it has
    dropped is out of every later window. *)
Lemma calls_window userId :
  forall (times : list Z) (rl : RateLimiter.t) (past : list Z) (lo : Z),
    configured rl ->
    (forall now, lo <= now ->
       retained now (userRequests rl userId) = retained now past) ->
    (forall a, (length (within a past) <= 10)%nat) ->
    StronglySorted Z.le (lo :: times) ->
    forall a,
      (length (within a (past ++ allowed times (fst (calls times userId rl)))) <= 10)%nat.
Proof.
  induction times as [|now rest IH]; intros rl past lo Hc Hsame Hpast Hsorted a.
  - simpl. unfold allowed. simpl. rewrite app_nil_r. apply Hpast.
  - assert (Hlo : lo <= now).
    { inversion Hsorted as [|? ? _ Hall]. inversion Hall. assumption. }
    assert (Hrest : StronglySorted Z.le (now :: rest)).
    { inversion Hsorted. assumption. }
    cbn [calls].
    destruct (Nat.lt_ge_cases (length (retained now (userRequests rl userId))) 10)
      as [Hlt|Hge].
    + destruct (canMakeRequest_allowed now userId rl Hc Hlt)
        as (rl1 & Hcall & Hreq & _ & Hc1).
      rewrite Hcall.
      specialize (IH rl1 (past ++ [now]) now Hc1).
      destruct (calls rest userId rl1) as [bs rl2] eqn:Hcalls.
      cbn [fst] in *. rewrite allowed_cons. simpl app.
      replace (past ++ now :: allowed rest bs)
        with ((past ++ [now]) ++ allowed rest bs)
        by (rewrite <- app_assoc; reflexivity).
      apply IH.
      * intros later Hlater. rewrite Hreq, !retained_app.
        rewrite (retained_later _ _ _ Hlater). rewrite Hsame by lia. reflexivity.
      * intros a'. rewrite within_app, length_app.
        unfold within at 2. simpl.
        destruct (Z.leb_spec a' now); destruct (Z.ltb_spec now (a' + 60000)); simpl.
        2-4: specialize (Hpast a'); lia.
        pose proof (within_retained a' now past ltac:(assumption)) as Hw.
        rewrite <- (Hsame now Hlo) in Hw. lia.
      * exact Hrest.
    + rewrite (canMakeRequest_refused now userId rl Hc Hge).
      specialize (IH rl past now Hc).
      destruct (calls rest userId rl) as [bs rl2] eqn:Hcalls.
      cbn [fst] in *. rewrite allowed_cons. simpl app.
      apply IH.
      * intros later Hlater. apply Hsame. lia.
      * exact Hpast.
      * exact Hrest.
Qed.

(** X7. Requests made at clock readings that never go back, by one
    actor on a new limiter: whatever the readings, at most ten of the
    requests that [canMakeRequest] allows fall within any 60,000 ms. *)
Theorem rate_limit_sliding_window (times : list Z) (userId : string) (a : Z) :
  StronglySorted Z.le times ->
  (length (within a (allowed times (fst (calls times userId RateLimiter.new)))) <= 10)%nat.
Proof.
  intros Hsorted.
  apply (calls_window userId times RateLimiter.new [] (hd 0 times)).
  - split; reflexivity.
  - intros now _. reflexivity.
  - intros a'. simpl. lia.
  - destruct times as [|t rest]; simpl.
    + repeat constructor.
    + constructor; [exact Hsorted|]. constructor; [lia|].
      inversion Hsorted. assumption.
Qed.

(** X8. [canMakeRequest] keeps the limiter's records bounded and the
    actors apart: if no actor has more than ten timestamps on record,
    none has after the call; the limits stay as the constructor set
    them; and the timestamps of every other actor are untouched. *)
Theorem canMakeRequest_keeps_bound (now : Z) (userId : string) (rl : RateLimiter.t) :
  configured rl ->
  bounded rl ->
  bounded (snd (canMakeRequest now userId rl))
  /\ configured (snd (canMakeRequest now userId rl))
  /\ forall other, other <> userId ->
       userRequests (snd (canMakeRequest now userId rl)) other = userRequests rl other.
Proof.
  intros Hc Hb.
  destruct (Nat.lt_ge_cases (length (retained now (userRequests rl userId))) 10)
    as [Hlt|Hge].
  - destruct (canMakeRequest_allowed now userId rl Hc Hlt)
      as (rl1 & Hcall & Hreq & Hothers & Hc1).
    rewrite Hcall. cbn [snd]. split; [|split; [exact Hc1|]].
    + intros u. destruct (String.eqb_spec u userId) as [->|Hne].
      * rewrite Hreq, length_app. simpl. lia.
      * unfold userRequests. rewrite (Hothers u Hne). apply Hb.
    + intros other Hne. unfold userRequests. rewrite (Hothers other Hne). reflexivity.
  - rewrite (canMakeRequest_refused now userId rl Hc Hge). auto.
Qed.
End RateLimiterMore.

(** Fourteen requests: twelve within a tenth of a second, two a minute
    later. *)
Lemma rate_limit_sliding_window_witness :
  (length (within 5%Z
     (allowed [0; 10; 20; 30; 40; 50; 60; 70; 80; 90; 100; 110; 60005; 60015]%Z
        (fst (RateLimiter.calls [0; 10; 20; 30; 40; 50; 60; 70; 80; 90; 100; 110; 60005; 60015]%Z
                RateLimiter.anonymous RateLimiter.new)))) <= 10)%nat.
Proof.
  apply rate_limit_sliding_window.
  repeat (constructor; [|repeat (constructor; [lia|]); constructor]).
  constructor.
Defined.

Lemma canMakeRequest_keeps_bound_witness :
  bounded (snd (RateLimiter.canMakeRequest 0 RateLimiter.anonymous RateLimiter.new)).
Proof.
  apply (canMakeRequest_keeps_bound 0 RateLimiter.anonymous RateLimiter.new).
  - split; reflexivity.
  - intros userId. unfold RateLimiter.userRequests. simpl.
    rewrite lookup_empty. simpl. lia.
Defined.

(** *** SecurityUtils: what sanitising leaves and removes *)

Section SanitizeFacts.
Import JSString StringOps SecurityUtils.

Lemma count_app f a b : count f (a +:+ b) = (count f a + count f b)%nat.
Proof.
  induction a as [|c a IH]; simpl; [reflexivity|].
  destruct (f c); simpl; rewrite IH; reflexivity.
Qed.

(** Removal only deletes: what the deleted runs do not hold is kept in
    number. *)
Lemma removeAll_from_count f matchAt :
  (forall s n, matchAt s = Some n -> count f (take n s) = O) ->
  forall s skip,
    count f (take skip s) = O ->
    count f (removeAll_from matchAt skip s) = count f s.
Proof.
  intros Hm. induction s as [|c s IH]; intros skip Hskip; [reflexivity|].
  destruct skip as [|k]; simpl in *.
  - destruct (matchAt (String c s)) as [[|n]|] eqn:E.
    + simpl. rewrite (IH O) by (destruct s; reflexivity). reflexivity.
    + specialize (Hm _ _ E). simpl in Hm.
      destruct (f c); [discriminate|]. apply IH, Hm.
    + simpl. rewrite (IH O) by (destruct s; reflexivity). reflexivity.
  - destruct (f c); [discriminate|]. apply IH, Hskip.
Qed.

Lemma removeAll_from_count_le f matchAt s :
  forall skip, (count f (removeAll_from matchAt skip s) <= count f s)%nat.
Proof.
  induction s as [|c s IH]; intros skip; simpl; [lia|].
  destruct skip as [|k].
  - destruct (matchAt (String c s)) as [[|n]|]; simpl.
    + specialize (IH O). destruct (f c); lia.
    + specialize (IH n). destruct (f c); lia.
    + specialize (IH O). destruct (f c); lia.
  - specialize (IH k). destruct (f c); lia.
Qed.

Lemma serializeText_no_angle s : count angle (serializeText s) = O.
Proof.
  induction s as [|c s IH]; simpl; [reflexivity|].
  destruct (c =? "&")%char eqn:E1; [rewrite count_app, IH; reflexivity|].
  destruct (c =? "<")%char eqn:E2; [rewrite count_app, IH; reflexivity|].
  destruct (c =? ">")%char eqn:E3; [rewrite count_app, IH; reflexivity|].
  destruct (nat_of_ascii c =? 160)%nat eqn:E4; [rewrite count_app, IH; reflexivity|].
  simpl. unfold angle at 1. rewrite E2, E3. simpl. exact IH.
Qed.

Lemma sanitizeText_no_angle text : count angle (sanitizeText text) = O.
Proof.
  unfold sanitizeText. destruct text as [|c s]; [reflexivity|].
  cbv zeta. unfold removeAll.
  repeat match goal with
  | |- count angle (removeAll_from ?m O ?x) = O =>
      pose proof (removeAll_from_count_le angle m x O);
      enough (count angle x = O) by lia
  end.
  unfold escapeHTML. apply serializeText_no_angle.
Qed.

Lemma includes_char_count (c : ascii) s :
  count (Ascii.eqb c) s = O -> includes (String c EmptyString) s = false.
Proof.
  induction s as [|d s IH]; simpl; [reflexivity|].
  destruct (Ascii.eqb c d) eqn:E; [discriminate|]. simpl. exact IH.
Qed.

Lemma count_weaken f g s :
  (forall c, g c = true -> f c = true) -> count f s = O -> count g s = O.
Proof.
  intros Hfg. induction s as [|c s IH]; simpl; [reflexivity|].
  destruct (f c) eqn:Ef; [discriminate|].
  destruct (g c) eqn:Eg; [rewrite (Hfg c Eg) in Ef; discriminate|]. exact IH.
Qed.

(** X9. Whatever the text, neither [sanitizeText] nor [escapeHTML]
    returns a string that holds an angle bracket. *)
Theorem sanitizeText_no_markup (text : string) :
  includes "<" (sanitizeText text) = false
  /\ includes ">" (sanitizeText text) = false
  /\ includes "<" (escapeHTML text) = false
  /\ includes ">" (escapeHTML text) = false.
Proof.
  assert (He : count angle (escapeHTML text) = O).
  { destruct text; [reflexivity|]. apply serializeText_no_angle. }
  pose proof (sanitizeText_no_angle text) as Hs.
  repeat split; apply includes_char_count.
  1,2: apply (count_weaken angle); [|exact Hs].
  3,4: apply (count_weaken angle); [|exact He].
  all: intros c Hc; unfold angle; rewrite Ascii.eqb_sym in Hc; rewrite Hc;
    auto using orb_true_r.
Qed.

Lemma match_script_idle s :
  count angle s = O -> removeAll match_script s = s.
Proof.
  unfold removeAll. induction s as [|c s IH]; simpl; [reflexivity|].
  unfold angle at 1. destruct (c =? "<")%char eqn:E; simpl; [discriminate|].
  destruct (c =? ">")%char; [discriminate|]. intros Hs.
  assert (Hm : match_script (String c s) = None).
  { unfold match_script.
    change (startsWith_ci "<script" (String c s))
      with (("<" =? c)%char && startsWith_ci "script" s).
    rewrite Ascii.eqb_sym, E. reflexivity. }
  rewrite Hm, (IH Hs). reflexivity.
Qed.

Lemma escapeHTML_no_angle text : count angle (escapeHTML text) = O.
Proof. destruct text; [reflexivity|]. apply serializeText_no_angle. Qed.

Lemma sanitizeText_two_rules text :
  sanitizeText text
  = removeAll match_handler (removeAll match_javascript (escapeHTML text)).
Proof.
  unfold sanitizeText. destruct text; [reflexivity|].
  cbv zeta. rewrite (match_script_idle _ (escapeHTML_no_angle _)). reflexivity.
Qed.

(** X10. The first rule of [sanitizeText], which removes script
    elements, never removes anything: it runs on escaped text, where no
    tag can open.  [sanitizeText] is [escapeHTML] followed by the
    removal of [javascript:] and of event-handler assignments only. *)
Theorem sanitizeText_script_rule_idle (text : string) :
  removeAll match_script (escapeHTML text) = escapeHTML text
  /\ sanitizeText text
     = removeAll match_handler (removeAll match_javascript (escapeHTML text)).
Proof.
  split; [apply match_script_idle, escapeHTML_no_angle|apply sanitizeText_two_rules].
Qed.

Lemma take_length_exact n s :
  (n <= String.length s)%nat -> String.length (take n s) = n.
Proof.
  revert s. induction n as [|n IH]; intros [|c s]; simpl; try lia.
  intros Hle. rewrite IH; lia.
Qed.

(** X12. For a limit of at least three, [truncateText] returns at
    most [maxLength] characters; a sanitised text longer than that is
    cut to [maxLength - 3] characters and three dots, exactly
    [maxLength] characters in all. *)
Theorem truncateText_length (text : string) (maxLength : nat) :
  (3 <= maxLength)%nat ->
  (String.length (truncateText text maxLength) <= maxLength)%nat
  /\ ((maxLength < String.length (sanitizeText text))%nat ->
      String.length (truncateText text maxLength) = maxLength
      /\ truncateText text maxLength
         = take (maxLength - 3) (sanitizeText text) +:+ "...").
Proof.
  intros Hmax. unfold truncateText.
  destruct text as [|c s]; [simpl; split; [lia|intros Hlt; simpl in Hlt; lia]|].
  cbv zeta.
  destruct (Nat.leb_spec (String.length (sanitizeText (String c s))) maxLength)
    as [Hle|Hgt].
  - split; [exact Hle|lia].
  - assert (Hlen : String.length (take (maxLength - 3) (sanitizeText (String c s)) +:+ "...")
                   = maxLength).
    { rewrite length_append, take_length_exact by lia. simpl. lia. }
    split; [lia|]. intros _. split; [exact Hlen|reflexivity].
Qed.


(** A character that no character of the pattern matches is not in the
    text the pattern matched. *)
Lemma startsWith_ci_count f p :
  forall s,
    (forall a c, f c = true -> eq_ci a c = true -> count (Ascii.eqb a) p = O) ->
    startsWith_ci p s = true ->
    count f (take (String.length p) s) = O.
Proof.
  induction p as [|a p IH]; intros s Hf Hs; [destruct s; reflexivity|].
  destruct s as [|c s]; [discriminate|]. simpl in Hs.
  apply andb_prop in Hs. destruct Hs as [Hac Hs].
  simpl. destruct (f c) eqn:Efc.
  - specialize (Hf a c Efc Hac). simpl in Hf. rewrite Ascii.eqb_refl in Hf. discriminate.
  - apply IH; [|exact Hs]. intros a' c' Hc' Hac'.
    specialize (Hf a' c' Hc' Hac'). simpl in Hf.
    destruct (Ascii.eqb a' a); [discriminate|exact Hf].
Qed.

Lemma take_add f a b s :
  count f (take (a + b) s) = (count f (take a s) + count f (take b (drop a s)))%nat.
Proof.
  revert s. induction a as [|a IH]; intros s; simpl.
  - destruct s, b; reflexivity.
  - destruct s as [|c s]; simpl; [destruct b; reflexivity|].
    rewrite IH. destruct (f c); reflexivity.
Qed.

Lemma span_count f g s n r :
  (forall c, g c = true -> f c = false) ->
  span g s = (n, r) ->
  count f (take n s) = O /\ drop n s = r.
Proof.
  intros Hgf. revert n r. induction s as [|c s IH]; intros n r Hspan; simpl in Hspan.
  - injection Hspan as <- <-. auto.
  - destruct (g c) eqn:Eg.
    + destruct (span g s) as [n' r'] eqn:E. injection Hspan as <- <-.
      destruct (IH n' r' eq_refl) as [Hc Hd]. simpl.
      rewrite (Hgf c Eg). auto.
    + injection Hspan as <- <-. auto.
Qed.

Lemma quiet_javascript f s n :
  quiet f -> match_javascript s = Some n -> count f (take n s) = O.
Proof.
  intros Hq. unfold match_javascript.
  destruct (startsWith_ci "javascript:" s) eqn:E; [|discriminate].
  intros Hn. injection Hn as <-.
  apply (startsWith_ci_count f "javascript:" s); [|exact E].
  intros a c Hc Hac. destruct (Hq c Hc) as (Hw & _ & _ & Hcolon).
  unfold eq_ci in Hac. destruct (is_alpha a) eqn:Ea.
  - apply andb_prop in Hac. destruct Hac as [Hal _].
    unfold is_word in Hw. rewrite Hal in Hw. discriminate.
  - apply Ascii.eqb_eq in Hac. subst c.
    destruct (Ascii.eqb_spec a ":") as [->|Hne]; [congruence|].
    simpl. repeat match goal with
      | |- context [Ascii.eqb a ?x] =>
          destruct (Ascii.eqb_spec a x) as [->|?]; [discriminate Ea || congruence|]
      end.
    reflexivity.
Qed.

Lemma quiet_handler f s n :
  quiet f -> match_handler s = Some n -> count f (take n s) = O.
Proof.
  intros Hq. unfold match_handler.
  destruct (startsWith_ci "on" s) eqn:E; [|discriminate].
  destruct (span is_word (drop 2 s)) as [w r1] eqn:Ew.
  destruct w as [|w]; [discriminate|].
  destruct (span is_space r1) as [sp r2] eqn:Es.
  destruct r2 as [|c r2]; [discriminate|].
  destruct (Ascii.eqb_spec c "=") as [->|]; [|discriminate].
  intros Hn. injection Hn as <-.
  assert (Hgw : forall c, is_word c = true -> f c = false).
  { intros c Hc. destruct (f c) eqn:Ef; [|reflexivity].
    destruct (Hq c Ef) as (Hw & _). congruence. }
  destruct (span_count f is_word _ _ _ Hgw Ew) as [Hcw Hdw].
  assert (Hgs : forall c, is_space c = true -> f c = false).
  { intros c Hc. destruct (f c) eqn:Ef; [|reflexivity].
    destruct (Hq c Ef) as (_ & Hsp & _). congruence. }
  destruct (span_count f is_space _ _ _ Hgs Es) as [Hcs Hds].
  replace (S (S (S (w + sp + 1)))) with (2 + (S w + (sp + 1)))%nat by lia.
  rewrite (take_add f 2), (take_add f (S w)), (take_add f sp).
  rewrite Hdw. rewrite Hcw, Hcs. rewrite Hds.
  assert (Hon : count f (take 2 s) = O).
  { apply (startsWith_ci_count f "on" s); [|exact E].
    intros a c Hc Hac. destruct (Hq c Hc) as (Hw & _).
    unfold eq_ci in Hac. destruct (is_alpha a) eqn:Ea.
    - apply andb_prop in Hac. destruct Hac as [Hal _].
      unfold is_word in Hw. rewrite Hal in Hw. discriminate.
    - apply Ascii.eqb_eq in Hac. subst c. simpl.
      repeat match goal with
      | |- context [Ascii.eqb a ?x] =>
          destruct (Ascii.eqb_spec a x) as [->|?]; [discriminate Ea|]
      end.
      reflexivity. }
  rewrite Hon. simpl.
  destruct (f "="%char) eqn:Ef; [|reflexivity].
  destruct (Hq _ Ef) as (_ & _ & Hne & _). congruence.
Qed.

Lemma quiet_removals f s :
  quiet f ->
  count f (removeAll match_handler (removeAll match_javascript s)) = count f s.
Proof.
  intros Hq. unfold removeAll.
  rewrite (removeAll_from_count f match_handler);
    [|intros; eapply quiet_handler; eauto|reflexivity].
  apply (removeAll_from_count f match_javascript);
    [intros; eapply quiet_javascript; eauto|reflexivity].
Qed.

Lemma quiet_char (a : ascii) :
  is_word a = false -> is_space a = false -> a <> "="%char -> a <> ":"%char ->
  quiet (Ascii.eqb a).
Proof.
  intros Hw Hs He Hc c Hac. apply Ascii.eqb_eq in Hac. subst c. auto.
Qed.

Lemma count_cons f c s :
  count f (String c s) = ((if f c then 1 else 0) + count f s)%nat.
Proof. simpl. destruct (f c); reflexivity. Qed.

Lemma nbsp_is c : (nat_of_ascii c =? 160)%nat = true -> c = ascii_of_nat 160.
Proof.
  intros E. apply Nat.eqb_eq in E. rewrite <- E. symmetry. apply ascii_nat_embedding.
Qed.

Lemma serializeText_semicolons s :
  count (Ascii.eqb ";") (serializeText s)
  = (count (Ascii.eqb ";") s + count markup_char s)%nat.
Proof.
  induction s as [|c s IH]; [reflexivity|].
  rewrite (count_cons _ c s), (count_cons markup_char c s).
  cbn [serializeText]. unfold markup_char at 1.
  destruct (c =? "&")%char eqn:E1;
    [apply Ascii.eqb_eq in E1; subst c; rewrite count_app, IH; simpl; lia|].
  destruct (c =? "<")%char eqn:E2;
    [apply Ascii.eqb_eq in E2; subst c; rewrite count_app, IH; simpl; lia|].
  destruct (c =? ">")%char eqn:E3;
    [apply Ascii.eqb_eq in E3; subst c; rewrite count_app, IH; simpl; lia|].
  destruct (nat_of_ascii c =? 160)%nat eqn:E4.
  - apply nbsp_is in E4. subst c. rewrite count_app, IH. simpl. lia.
  - rewrite count_cons, IH. cbn [orb]. lia.
Qed.

Lemma serializeText_ampersands s :
  count (Ascii.eqb "&") (serializeText s) = count markup_char s.
Proof.
  induction s as [|c s IH]; [reflexivity|].
  rewrite (count_cons markup_char c s).
  cbn [serializeText]. unfold markup_char at 1.
  destruct (c =? "&")%char eqn:E1; [rewrite count_app, IH; reflexivity|].
  destruct (c =? "<")%char eqn:E2; [rewrite count_app, IH; reflexivity|].
  destruct (c =? ">")%char eqn:E3; [rewrite count_app, IH; reflexivity|].
  destruct (nat_of_ascii c =? 160)%nat eqn:E4; [rewrite count_app, IH; reflexivity|].
  rewrite count_cons, IH, Ascii.eqb_sym, E1. reflexivity.
Qed.

Lemma sanitizeText_counts text :
  count (Ascii.eqb ";") (sanitizeText text)
  = (count (Ascii.eqb ";") text + count markup_char text)%nat
  /\ count (Ascii.eqb "&") (sanitizeText text) = count markup_char text.
Proof.
  rewrite sanitizeText_two_rules.
  rewrite !quiet_removals by (apply quiet_char; (reflexivity || discriminate)).
  destruct text as [|c s]; [split; reflexivity|].
  unfold escapeHTML. split; [apply serializeText_semicolons|apply serializeText_ampersands].
Qed.

Lemma markup_split s :
  count markup_char s
  = (count (Ascii.eqb "&") s
     + count (fun c => negb (c =? "&")%char && markup_char c) s)%nat.
Proof.
  induction s as [|c s IH]; [reflexivity|].
  rewrite !count_cons, IH. unfold markup_char at 1 3.
  rewrite (Ascii.eqb_sym "&" c). destruct (c =? "&")%char; cbn [orb negb andb]; lia.
Qed.

Lemma serializeText_other s :
  count (fun c => negb (c =? "&")%char && markup_char c) (serializeText s) = O.
Proof.
  induction s as [|c s IH]; [reflexivity|].
  cbn [serializeText].
  destruct (c =? "&")%char eqn:E1; [rewrite count_app, IH; reflexivity|].
  destruct (c =? "<")%char eqn:E2; [rewrite count_app, IH; reflexivity|].
  destruct (c =? ">")%char eqn:E3; [rewrite count_app, IH; reflexivity|].
  destruct (nat_of_ascii c =? 160)%nat eqn:E4; [rewrite count_app, IH; reflexivity|].
  rewrite count_cons, IH. unfold markup_char. rewrite E1, E2, E3, E4. reflexivity.
Qed.

Lemma sanitizeText_markup text :
  count markup_char (sanitizeText text) = count markup_char text.
Proof.
  rewrite markup_split. destruct (sanitizeText_counts text) as [_ ->].
  enough (count (fun c => negb (c =? "&")%char && markup_char c) (sanitizeText text) = O)
    by lia.
  unfold sanitizeText. destruct text as [|c s]; [reflexivity|].
  cbv zeta. unfold removeAll.
  repeat match goal with
  | |- count ?f (removeAll_from ?m O ?x) = O =>
      pose proof (removeAll_from_count_le f m x O);
      enough (count f x = O) by lia
  end.
  unfold escapeHTML. apply serializeText_other.
Qed.

End SanitizeFacts.

Section ShownTwice.
Context `{Platform}.
Import JSString StringOps SecurityUtils QRRedirectManager.

(** X11. A content that [redirectToOriginal] shows as text is
    sanitised twice, once there and once in [showTextContent]: the
    markup holds two semicolons more for every ampersand, angle bracket
    and no-break space of the content, and differs from the sanitised
    content as soon as the content has one. *)
Theorem text_content_escaped_twice (content : string) (w : World) (markup : string) :
  page (exec (redirectToOriginal content) w) = PageText markup ->
  markup = sanitizeText (sanitizeText content)
  /\ count (Ascii.eqb ";") markup
     = (count (Ascii.eqb ";") content + 2 * count markup_char content)%nat
  /\ ((0 < count markup_char content)%nat -> markup <> sanitizeText content).
Proof.
  destruct (redirectToOriginal_page content w) as (_ & Hpage & _).
  rewrite Hpage. unfold classify.
  destruct (isValidURL (sanitizeText content)); [discriminate|].
  intros Heq. injection Heq as <-.
  destruct (sanitizeText_counts content) as [Hs1 Ha1].
  destruct (sanitizeText_counts (sanitizeText content)) as [Hs2 _].
  pose proof (sanitizeText_markup content) as Hm.
  split; [reflexivity|]. split; [lia|].
  intros Hpos Heq. rewrite Heq in Hs2 at 1. lia.
Qed.
End ShownTwice.

Lemma text_content_escaped_twice_witness :
  SecurityUtils.sanitizeText (SecurityUtils.sanitizeText "Tom & Jerry")
  <> SecurityUtils.sanitizeText "Tom & Jerry".
Proof.
  assert (Hpage : page (exec (QRRedirectManager.redirectToOriginal (H := Example.platform)
                                "Tom & Jerry") Example.stranger)
                  = PageText "Tom &amp;amp; Jerry")
    by (vm_compute; reflexivity).
  destruct (text_content_escaped_twice (H := Example.platform)
              "Tom & Jerry" Example.stranger "Tom &amp;amp; Jerry" Hpage)
    as (Hm & _ & Hne).
  rewrite <- Hm. apply Hne. simpl. lia.
Defined.

Lemma truncateText_length_witness :
  (String.length (SecurityUtils.truncateText
                    "https://meet.example/a-rather-long-link-to-a-quarterly-meeting" 50)
   <= 50)%nat.
Proof.
  apply (truncateText_length
           "https://meet.example/a-rather-long-link-to-a-quarterly-meeting" 50).
  lia.
Defined.

(** *** SecurityUtils: validation of the input and of uploaded files *)

Section ValidationFacts.
Import JSString StringOps SecurityChecks.

Lemma eq_ci_lower (a c : ascii) :
  In a (list_ascii_of_string "javscript:dex/hmlb") ->
  eq_ci a c = Ascii.eqb a (lower_char c).
Proof.
  intros Hin.
  assert (Hall :
    forallb
      (fun a =>
         forallb
           (fun n => Bool.eqb (eq_ci a (ascii_of_nat n))
                              (Ascii.eqb a (lower_char (ascii_of_nat n))))
           (seq 0 256))
      (list_ascii_of_string "javscript:dex/hmlb") = true)
    by (vm_compute; reflexivity).
  rewrite List.forallb_forall in Hall. specialize (Hall a Hin).
  rewrite List.forallb_forall in Hall. specialize (Hall (nat_of_ascii c)).
  rewrite ascii_nat_embedding in Hall.
  apply Bool.eqb_prop, Hall. apply in_seq.
  pose proof (nat_ascii_bounded c). lia.
Qed.

Lemma startsWith_ci_lower p s :
  (forall a, In a (list_ascii_of_string p) ->
             forall c, eq_ci a c = Ascii.eqb a (lower_char c)) ->
  startsWith_ci p s = startsWith p (toLowerCase s).
Proof.
  revert s. induction p as [|a p IH]; intros s Hp; [destruct s; reflexivity|].
  destruct s as [|c s]; [reflexivity|].
  cbn [startsWith_ci startsWith toLowerCase].
  rewrite (Hp a (or_introl eq_refl)), IH; [reflexivity|].
  intros a' Ha'. apply Hp. right. exact Ha'.
Qed.

Lemma test_ci_includes p s :
  (forall a, In a (list_ascii_of_string p) ->
             forall c, eq_ci a c = Ascii.eqb a (lower_char c)) ->
  test (startsWith_ci p) s = includes p (toLowerCase s).
Proof.
  intros Hp. induction s as [|c s IH].
  - cbn [test includes toLowerCase]. rewrite (startsWith_ci_lower p "" Hp). reflexivity.
  - cbn [test includes toLowerCase]. rewrite IH.
    rewrite (startsWith_ci_lower p (String c s) Hp). reflexivity.
Qed.

Lemma validateQRInput_limits (text name : string) :
  validateQRInput text name = Return true ->
  (1 <= String.length text <= 4000)%nat
  /\ (1 <= String.length name <= 100)%nat
  /\ trim text <> EmptyString
  /\ trim name <> EmptyString
  /\ existsb (fun pattern => test pattern text) maliciousPatterns = false
  /\ existsb (fun pattern => test pattern name) maliciousPatterns = false.
Proof.
  unfold validateQRInput.
  destruct (String.eqb_spec text EmptyString) as [->|Htext]; [discriminate|].
  destruct (Nat.eqb_spec (String.length (trim text)) 0) as [|Htrim]; [discriminate|].
  cbn [orb].
  destruct (Nat.ltb_spec 4000 (String.length text)) as [|Hlen]; [discriminate|].
  destruct (String.eqb_spec name EmptyString) as [->|Hname]; [discriminate|].
  destruct (Nat.eqb_spec (String.length (trim name)) 0) as [|Htrim']; [discriminate|].
  cbn [orb].
  destruct (Nat.ltb_spec 100 (String.length name)) as [|Hlen']; [discriminate|].
  destruct (existsb (fun pattern => test pattern text) maliciousPatterns) eqn:Ht;
    [discriminate|].
  destruct (existsb (fun pattern => test pattern name) maliciousPatterns) eqn:Hn;
    [discriminate|].
  intros _.
  split; [destruct text; [congruence|cbn [String.length] in *; lia]|].
  split; [destruct name; [congruence|cbn [String.length] in *; lia]|].
  split; [intros E; rewrite E in Htrim; apply Htrim; reflexivity|].
  split; [intros E; rewrite E in Htrim'; apply Htrim'; reflexivity|].
  split; reflexivity.
Qed.

(** X13. What [validateQRInput] accepts: a text of 1 to 4000
    characters and a name of 1 to 100, neither of them blank, neither
    holding [javascript:], [data:text/html] or [vbscript:] in any
    letter case. *)
Theorem validateQRInput_accepts (text name : string) :
  validateQRInput text name = Return true ->
  (1 <= String.length text <= 4000)%nat
  /\ (1 <= String.length name <= 100)%nat
  /\ trim text <> EmptyString
  /\ trim name <> EmptyString
  /\ forall word, In word script_words ->
       includes word (toLowerCase text) = false
       /\ includes word (toLowerCase name) = false.
Proof.
  intros Hok.
  destruct (validateQRInput_limits text name Hok) as (H1 & H2 & H3 & H4 & Ht & Hn).
  repeat (split; [assumption|]).
  intros word Hw.
  assert (Hin : In (startsWith_ci word) maliciousPatterns).
  { unfold maliciousPatterns.
    destruct Hw as [<-|[<-|[<-|[]]]];
      [right; left|right; right; left|right; right; right; left]; reflexivity. }
  assert (Hchars : forall a, In a (list_ascii_of_string word) ->
                     forall c, eq_ci a c = Ascii.eqb a (lower_char c)).
  { intros a Ha c. apply eq_ci_lower.
    destruct Hw as [<-|[<-|[<-|[]]]]; simpl in Ha |- *; tauto. }
  rewrite <- !(test_ci_includes word _ Hchars).
  split.
  - apply (existsb_false _ _ _ Ht Hin).
  - apply (existsb_false _ _ _ Hn Hin).
Qed.
End ValidationFacts.

Lemma validateQRInput_accepts_witness :
  (1 <= String.length "https://example.com" <= 4000)%nat.
Proof.
  apply (validateQRInput_accepts "https://example.com" "Demo").
  vm_compute. reflexivity.
Defined.

Section ImageFacts.
Import JSString SecurityChecks.

Lemma nth_error_firstn_lt {A} (l : list A) : forall n i,
  (i < n)%nat -> nth_error (firstn n l) i = nth_error l i.
Proof.
  induction l as [|x l IH]; intros [|n] [|i] Hlt; cbn; try reflexivity; try lia.
  apply IH. lia.
Qed.

Lemma forallb_ext_in {A} (f g : A -> bool) (l : list A) :
  (forall x, In x l -> f x = g x) -> forallb f l = forallb g l.
Proof.
  induction l as [|x l IH]; cbn; intros Hfg; [reflexivity|].
  rewrite (Hfg x (or_introl eq_refl)), IH; [reflexivity|].
  intros y Hy. apply Hfg. right. exact Hy.
Qed.

Lemma every_byte_prefix (b b' : list N) (sig : list N) :
  (length sig <= 8)%nat ->
  firstn 8 b = firstn 8 b' ->
  every_byte (firstn 12 b) sig = every_byte (firstn 12 b') sig.
Proof.
  intros Hlen Heq. unfold every_byte. apply forallb_ext_in.
  intros [index byte] Hin.
  assert (Hi : (index < 8)%nat).
  { apply in_combine_l in Hin. apply in_seq in Hin. lia. }
  rewrite !nth_error_firstn_lt by lia.
  rewrite <- (nth_error_firstn_lt b 8 index Hi), Heq, (nth_error_firstn_lt b' 8 index Hi).
  reflexivity.
Qed.

Lemma validateImageSignature_prefix (f g : File) :
  firstn 8 (file_bytes f) = firstn 8 (file_bytes g) ->
  validateImageSignature f = validateImageSignature g.
Proof.
  intros Heq. unfold validateImageSignature, signatures. cbn [first_format existsb].
  rewrite !(every_byte_prefix (file_bytes f) (file_bytes g)) by (cbn; (lia || exact Heq)).
  reflexivity.
Qed.

(** X14. The verdict of [validateImageFile] depends on the file's
    bytes through their number and the first eight only, and on its
    declared type through its being one of the allowed types only: the
    bytes 9 to 12, which are read, and the agreement of the signature
    with the declared type play no part. *)
Theorem validateImageFile_reads_eight_bytes (f g : File) :
  file_name f = file_name g ->
  existsb (String.eqb (toLowerCase (file_type f))) allowedTypes
  = existsb (String.eqb (toLowerCase (file_type g))) allowedTypes ->
  length (file_bytes f) = length (file_bytes g) ->
  firstn 8 (file_bytes f) = firstn 8 (file_bytes g) ->
  validateImageFile (Some f) = validateImageFile (Some g).
Proof.
  intros Hname Htype Hlen Hbytes. unfold validateImageFile, file_size.
  rewrite Htype, Hlen, Hname, (validateImageSignature_prefix f g Hbytes). reflexivity.
Qed.
End ImageFacts.

(** A WebP file, and a file that starts as one and is declared a PNG
    image. *)
Lemma validateImageFile_reads_eight_bytes_witness :
  SecurityChecks.validateImageFile
    (Some (SecurityChecks.mkFile "logo.png" "image/png" Sample.wave))
  = SecurityChecks.validateImageFile
      (Some (SecurityChecks.mkFile "logo.png" "image/webp" Sample.webp)).
Proof.
  apply (validateImageFile_reads_eight_bytes
           (SecurityChecks.mkFile "logo.png" "image/png" Sample.wave)
           (SecurityChecks.mkFile "logo.png" "image/webp" Sample.webp));
    reflexivity.
Defined.

(** *** FirebaseManager: the recent codes *)

Section RecentFacts.
Context `{Platform}.
Import FirebaseManager Dashboard.

Lemma fold_left_cons {A} (l acc : list A) :
  fold_left (fun qrCodes x => x :: qrCodes) l acc = rev l ++ acc.
Proof.
  revert acc. induction l as [|a l IH]; intros acc; cbn; [reflexivity|].
  rewrite IH, <- app_assoc. reflexivity.
Qed.

Lemma insert_newest_perm x l : Permutation (insert_newest x l) (x :: l).
Proof.
  induction l as [|y l IH]; cbn; [reflexivity|].
  destruct (QR.createdAt x <? QR.createdAt y); [|reflexivity].
  rewrite IH. apply perm_swap.
Qed.

Lemma insert_newest_sorted x l :
  StronglySorted not_older l -> StronglySorted not_older (insert_newest x l).
Proof.
  induction 1 as [|y l Hs IH Hy]; cbn.
  - constructor; constructor.
  - destruct (Z.ltb_spec (QR.createdAt x) (QR.createdAt y)) as [Hlt|Hge].
    + constructor; [exact IH|].
      apply (Permutation_Forall (Permutation_sym (insert_newest_perm x l))).
      constructor; [unfold not_older; lia|exact Hy].
    + constructor; [constructor; assumption|].
      constructor; [exact Hge|].
      eapply List.Forall_impl; [|exact Hy]. unfold not_older in *. intros; lia.
Qed.

Lemma sort_newest_first_sorted l : StronglySorted not_older (sort_newest_first l).
Proof.
  induction l as [|x l IH]; cbn; [constructor|]. apply insert_newest_sorted, IH.
Qed.

Lemma sort_newest_first_perm l : Permutation (sort_newest_first l) l.
Proof.
  induction l as [|x l IH]; cbn; [reflexivity|].
  rewrite insert_newest_perm, IH. reflexivity.
Qed.

Lemma sorted_map_snd (l : list (string * QR.data)) :
  StronglySorted (fun a b => not_newer b a) l ->
  StronglySorted not_older (map snd l).
Proof.
  induction 1 as [|x l Hs IH Hx]; cbn; constructor; [exact IH|].
  apply List.Forall_map. exact Hx.
Qed.

Lemma sorted_firstn {A} (R : A -> A -> Prop) n (l : list A) :
  StronglySorted R l -> StronglySorted R (firstn n l).
Proof.
  intros Hs. revert n. induction Hs as [|x l Hs IH Hx]; intros [|n]; cbn;
    try constructor.
  - apply IH.
  - rewrite List.Forall_forall in *. intros y Hy. apply Hx.
    rewrite <- (firstn_skipn n l). apply in_or_app. left. exact Hy.
Qed.

(** What the query yields, newest first. *)
Lemma recent_of_query n w :
  let ordered := orderByChild_createdAt (remote w) in
  let l := rev (map snd (limitToLast n ordered)) in
  let rest := map snd (firstn (length ordered - n) ordered) in
  (length l <= n)%nat
  /\ StronglySorted not_older l
  /\ Permutation (l ++ rest) (map snd (map_to_list (remote w)))
  /\ length l = Nat.min n (length (map_to_list (remote w)))
  /\ forall a b, In a l -> In b rest -> not_older a b.
Proof.
  intros ordered l rest.
  assert (Hsorted := orderByChild_sorted (remote w)).
  assert (Hsplit : ordered = firstn (length ordered - n) ordered ++ limitToLast n ordered).
  { unfold limitToLast. symmetry. apply firstn_skipn. }
  fold ordered in Hsorted. rewrite Hsplit in Hsorted.
  apply sorted_app_le in Hsorted. destruct Hsorted as [Hlast Hfirst].
  split; [subst l; rewrite length_rev, length_map; apply limitToLast_length|].
  split; [subst l; rewrite <- map_rev; apply sorted_map_snd, sorted_rev, Hlast|].
  split; [|split].
  - subst l rest.
    apply Permutation_trans with (map snd ordered);
      [|apply Permutation_map, orderByChild_perm].
    assert (Hm : map snd ordered
                 = map snd (firstn (length ordered - n) ordered)
                   ++ map snd (limitToLast n ordered)).
    { rewrite <- map_app, <- Hsplit. reflexivity. }
    rewrite Hm.
    apply Permutation_trans with (1 := Permutation_app_comm _ _).
    apply Permutation_app_head. symmetry. apply Permutation_rev.
  - subst l. rewrite length_rev, length_map. unfold limitToLast.
    rewrite length_skipn.
    rewrite <- (Permutation_length (orderByChild_perm (remote w))). fold ordered. lia.
  - intros a b Ha Hb. subst l rest. apply in_rev in Ha.
    apply in_map_iff in Ha. destruct Ha as (x & <- & Hx).
    apply in_map_iff in Hb. destruct Hb as (y & <- & Hy).
    apply (Hfirst y x Hy Hx).
Qed.

(** X15. [getRecentQRCodes] always returns, in either tier and
    whatever fails: at most [limit] records, newest first; the backend
    is left as it was. *)
Theorem getRecentQRCodes_newest_first (limit : nat) (w : World) :
  exists l w',
    getRecentQRCodes limit w = (Return l, w')
    /\ (length l <= limit)%nat
    /\ StronglySorted not_older l
    /\ remote w' = remote w.
Proof.
  unfold getRecentQRCodes, backend_handle, database_limitToLast, database_recent.
  js_light. cbn.
  destruct (firebase_defined w && window_database w); cbn.
  - destruct limit as [|n]; cbn.
    + eexists _, _. split; [reflexivity|]. cbn. repeat split; [lia|constructor].
    + destruct (remote_fault w OpQuery); cbn.
      * eexists _, _. split; [reflexivity|]. cbn. repeat split; [lia|constructor].
      * eexists _, _. split; [reflexivity|].
        rewrite fold_left_cons, app_nil_r.
        destruct (recent_of_query (S n) w) as (Hlen & Hs & _).
        repeat split; assumption.
  - destruct (getItem_stored w) as (v & w1 & Hg & _ & _ & _ & Hsur).
    rewrite Hg. cbn. eexists _, _. split; [reflexivity|].
    split; [rewrite length_firstn; lia|].
    split; [apply sorted_firstn, sort_newest_first_sorted|].
    apply surroundings_remote, Hsur.
Qed.

(** X16. Unless the backend rejects the query, [getRecentQRCodes]
    returns the most recent records of the tier in use: as many as
    there are, up to [limit], and no record left out is newer than one
    returned. *)
Theorem getRecentQRCodes_most_recent (limit : nat) (w : World) :
  (firebase_defined w && window_database w = true -> remote_fault w OpQuery = false) ->
  let records := map snd (records_of_tier w) in
  exists l rest,
    result (getRecentQRCodes limit) w = Return l
    /\ Permutation (l ++ rest) records
    /\ length l = Nat.min limit (length records)
    /\ forall a b, In a l -> In b rest -> not_older a b.
Proof.
  intros Hfault records. subst records. unfold records_of_tier.
  unfold getRecentQRCodes, backend_handle, database_limitToLast, database_recent.
  js_light. cbn.
  destruct (firebase_defined w && window_database w) eqn:Hh; cbn.
  - destruct limit as [|n]; cbn.
    + exists [], (map snd (map_to_list (remote w))). repeat split; [reflexivity|].
      intros a b [].
    + rewrite (Hfault eq_refl). cbn.
      rewrite fold_left_cons, app_nil_r.
      destruct (recent_of_query (S n) w) as (_ & _ & Hp & Hlen & Hle).
      eexists _, _. split; [reflexivity|]. split; [exact Hp|]. split; [|exact Hle].
      rewrite Hlen, length_map. reflexivity.
  - destruct (getItem_stored w) as (v & w1 & Hg & _).
    rewrite Hg. cbn.
    set (sorted := sort_newest_first (map snd (default [] v))).
    exists (firstn limit sorted), (skipn limit sorted).
    split; [reflexivity|]. split; [|split].
    + rewrite firstn_skipn. apply sort_newest_first_perm.
    + rewrite length_firstn. subst sorted.
      rewrite (Permutation_length (sort_newest_first_perm _)). reflexivity.
    + pose proof (sort_newest_first_sorted (map snd (default [] v))) as Hs.
      fold sorted in Hs. rewrite <- (firstn_skipn limit sorted) in Hs.
      apply sorted_app_le in Hs. destruct Hs as [_ Hle]. exact Hle.
Qed.

(** X17. With the backend's handle, [checkForDuplicate] returns the
    first record with the given content and label among those that
    [getRecentQRCodes(50)] returns, in that order, or null if there is
    none; a rejected query gives null. *)
Theorem checkForDuplicate_first_of_recent (originalText name : string) (w : World) :
  firebase_defined w && window_database w = true ->
  exists l,
    result (getRecentQRCodes 50) w = Return l
    /\ result (checkForDuplicate originalText name) w
       = Return (List.find (is_duplicate originalText name) l).
Proof.
  intros Hh.
  unfold getRecentQRCodes, checkForDuplicate, backend_handle, database_limitToLast,
    database_recent.
  js_light. cbn. rewrite Hh. cbn - [limitToLast].
  destruct (remote_fault w OpQuery); cbn - [limitToLast].
  - exists []. split; reflexivity.
  - eexists. split; [reflexivity|].
    rewrite fold_left_last_match, fold_left_cons, app_nil_r.
    destruct (List.find _ _); reflexivity.
Qed.
End RecentFacts.

Lemma getRecentQRCodes_most_recent_witness :
  exists l rest,
    result (Dashboard.getRecentQRCodes (H := Example.platform) 1) Example.two_local
    = Return l
    /\ Permutation (l ++ rest)
         (map snd (records_of_tier Example.two_local))
    /\ length l = Nat.min 1 (length (map snd (records_of_tier Example.two_local)))
    /\ forall a b, In a l -> In b rest -> not_older a b.
Proof.
  apply (getRecentQRCodes_most_recent (H := Example.platform) 1 Example.two_local).
  simpl. discriminate.
Defined.

Lemma checkForDuplicate_first_of_recent_witness :
  exists l,
    result (Dashboard.getRecentQRCodes (H := Example.platform) 50) Example.hostile
    = Return l
    /\ result (FirebaseManager.checkForDuplicate (H := Example.platform)
                 "javascript:alert(1)" "Demo") Example.hostile
       = Return (List.find (FirebaseManager.is_duplicate "javascript:alert(1)" "Demo") l).
Proof.
  apply (checkForDuplicate_first_of_recent (H := Example.platform)
           "javascript:alert(1)" "Demo" Example.hostile).
  reflexivity.
Defined.

Section CreatedFound.
Context `{Platform}.
Import FirebaseManager.

Lemma find_present {A} (f : A -> bool) (l : list A) (x : A) :
  In x l -> f x = true -> exists y, List.find f l = Some y /\ f y = true.
Proof.
  intros Hin Hf. destruct (List.find f l) as [y|] eqn:E.
  - exists y. split; [reflexivity|]. apply (List.find_some _ _ E).
  - rewrite (List.find_none _ _ E x Hin) in Hf. discriminate.
Qed.

(** X18. On the networked tier, with fewer than fifty codes in the
    backend and no operation rejected, a code that [createQRCode] has
    just written is found by [checkForDuplicate] for the same content
    and label: it returns a record with that content and that label. *)
Theorem created_code_found_as_duplicate (originalText name : string)
    (logoPath : option string) (w : World) :
  firebase_defined w && window_database w = true ->
  remote_fault w OpSet = false ->
  remote_fault w OpQuery = false ->
  (size (remote w) < 50)%nat ->
  exists id w1 found,
    createQRCode originalText name logoPath w = (Return id, w1)
    /\ result (checkForDuplicate originalText name) w1 = Return (Some found)
    /\ QR.originalText found = originalText
    /\ QR.name found = name.
Proof.
  intros Hh Hset Hquery Hsize.
  remember (Base36.toString (clock w) +:+ "_" +:+ JSString.substr 2 9 (random36 w))
    as id eqn:Hid.
  remember (QR.mk id name originalText logoPath 0 (server_time w) None) as d eqn:Hd.
  remember (<[id := d]> (remote w)) as r1 eqn:Hr1.
  assert (Hcreate :
    createQRCode originalText name logoPath w
    = (Return id,
       with_console ((LOG, "QR code created successfully in Firebase:") :: console w)
         (with_remote r1 w))).
  { unfold createQRCode, generateUniqueId, Date_now, backend_handle, database_set.
    js_light. cbn - [JSString.substr Base36.toString String.append].
    rewrite Hh. cbn - [JSString.substr Base36.toString String.append].
    rewrite Hset. rewrite <- Hid, <- Hd, <- Hr1. reflexivity. }
  assert (Hall : limitToLast 50 (orderByChild_createdAt r1) = orderByChild_createdAt r1).
  { unfold limitToLast.
    replace (length (orderByChild_createdAt r1) - 50)%nat with O; [reflexivity|].
    rewrite (Permutation_length (orderByChild_perm r1)), length_map_to_list.
    rewrite Hr1, map_size_insert. destruct (remote w !! id); cbn; lia. }
  assert (Hin : In d (rev (map snd (orderByChild_createdAt r1)))).
  { apply in_rev. rewrite rev_involutive. apply in_map_iff. exists (id, d).
    split; [reflexivity|]. apply orderByChild_In. rewrite Hr1.
    apply lookup_insert_eq. }
  assert (Hdup : is_duplicate originalText name d = true).
  { unfold is_duplicate. rewrite Hd. cbn. rewrite !String.eqb_refl. reflexivity. }
  destruct (find_present _ _ _ Hin Hdup) as (found & Hfind & Hfound).
  eexists id, _, found. split; [exact Hcreate|].
  unfold is_duplicate in Hfound. apply andb_prop in Hfound.
  destruct Hfound as [Ht Hn]. apply String.eqb_eq in Ht, Hn.
  split; [|split; assumption].
  unfold checkForDuplicate, backend_handle, database_recent. js_light.
  cbn - [limitToLast orderByChild_createdAt].
  rewrite Hh. cbn - [limitToLast orderByChild_createdAt].
  rewrite Hquery. cbn - [limitToLast orderByChild_createdAt].
  rewrite Hall, fold_left_last_match, Hfind. reflexivity.
Qed.
End CreatedFound.

Lemma created_code_found_as_duplicate_witness :
  exists id w1 found,
    FirebaseManager.createQRCode "https://example.com" "Demo" None Example.stranger
    = (Return id, w1)
    /\ result (FirebaseManager.checkForDuplicate (H := Example.platform)
                 "https://example.com" "Demo") w1 = Return (Some found)
    /\ QR.originalText found = "https://example.com"
    /\ QR.name found = "Demo".
Proof.
  apply (created_code_found_as_duplicate (H := Example.platform)
           "https://example.com" "Demo" None Example.stranger);
    try reflexivity.
  vm_compute. lia.
Defined.

(** *** CryptoManager: what is written and read back *)

Section CryptoFacts.

Lemma getItem_readable w :
  exists w', CryptoManager.getItem "qr-codes" w = (Return (readable w), w')
             /\ surroundings w' = surroundings w.
Proof.
  destruct (getItem_stored w) as (v & w1 & Hg & _ & _ & _ & Hsur).
  exists w1. split; [|exact Hsur]. unfold readable, result. rewrite Hg. reflexivity.
Qed.

(** In a browser that can encrypt and store, what [setItem] writes is
    what [getItem] then reads. *)
Lemma setItem_readable data w :
  healthy w ->
  exists w1,
    CryptoManager.setItem "qr-codes" data w = (Return tt, w1)
    /\ readable w1 = Some data
    /\ healthy w1
    /\ surroundings w1 = surroundings w.
Proof.
  intros (Hc & Hq & Hk). unfold readable, healthy. js_unfold. cbn.
  rewrite ?Hc, ?Hq.
  destruct Hk as [Hk|[k Hk]]; repeat (rewrite ?Hc, ?Hq, ?Hk; cbn).
  - eexists. split; [reflexivity|].
    repeat (progress (map_lookup; rewrite ?Hc, ?Hq, ?Hk, ?Nat.eqb_refl; cbn)).
    split; [reflexivity|]. split; [|reflexivity].
    repeat split; try assumption. right. eexists. map_lookup. reflexivity.
  - eexists. split; [reflexivity|].
    repeat (progress (map_lookup; rewrite ?Hc, ?Hq, ?Hk, ?Nat.eqb_refl; cbn)).
    split; [reflexivity|]. split; [|reflexivity].
    repeat split; try assumption. right. eexists. map_lookup. rewrite ?Hk. reflexivity.
Qed.

(** X19. In a browser that can encrypt and store, [getItem] returns
    what [setItem] has just written under the same key, whatever the
    key. *)
Theorem setItem_then_getItem (key : string) (data : Obj.t) (w : World) :
  healthy w ->
  result (CryptoManager.setItem key data ;; CryptoManager.getItem key) w
  = Return (Some data).
Proof.
  intros (Hc & Hq & Hk).
  assert (Hne : "encrypted_" +:+ key <> "app_crypto_key_v2") by discriminate.
  assert (Hne' : "app_crypto_key_v2" <> "encrypted_" +:+ key) by discriminate.
  unfold CryptoManager.getItem, CryptoManager.setItem, CryptoManager.getOrCreateKey,
    subtle_generateKey, subtle_importKey, subtle_encrypt, subtle_decrypt.
  js_light. cbn - [String.append].
  destruct Hk as [Hk|[k Hk]];
    repeat (rewrite ?Hc, ?Hq, ?Hk; cbn - [String.append]).
  - rewrite lookup_insert_eq. cbn - [String.append].
    rewrite lookup_insert_ne by exact Hne. rewrite lookup_insert_eq.
    repeat (progress (rewrite ?Hc, ?Nat.eqb_refl; cbn - [String.append])).
    reflexivity.
  - rewrite lookup_insert_eq. cbn - [String.append].
    rewrite lookup_insert_ne by exact Hne. rewrite Hk.
    repeat (progress (rewrite ?Hc, ?Nat.eqb_refl; cbn - [String.append])).
    reflexivity.
Qed.

(** X20. Without [window.crypto.subtle], and with no encrypted entry
    under the key, [setItem] stores the data unencrypted under the key
    itself; the next [getItem] returns the data and removes that entry,
    so that a second [getItem] returns null. *)
Theorem plaintext_fallback_read_once (key : string) (data : Obj.t) (w : World) :
  crypto_ok w = false ->
  quota_exceeded w = false ->
  if_truthy (localStorage w !! ("encrypted_" +:+ key)) = None ->
  let w1 := exec (CryptoManager.setItem key data) w in
  let w2 := exec (CryptoManager.getItem key) w1 in
  result (CryptoManager.setItem key data) w = Return tt
  /\ localStorage w1 = <[key := PlainJSON data]> (localStorage w)
  /\ result (CryptoManager.getItem key) w1 = Return (Some data)
  /\ localStorage w2 = delete key (localStorage w)
  /\ result (CryptoManager.getItem key) w2 = Return None.
Proof.
  intros Hc Hq He.
  assert (Hne : key <> "encrypted_" +:+ key) by (apply append_longer; discriminate).
  assert (Hset : forall w0,
             crypto_ok w0 = false -> quota_exceeded w0 = false ->
             exists c,
               CryptoManager.setItem key data w0
               = (Return tt,
                  with_localStorage (<[key := PlainJSON data]> (localStorage w0))
                    (with_console c w0))).
  { intros w0 Hc0 Hq0.
    unfold CryptoManager.setItem, CryptoManager.getOrCreateKey,
      subtle_generateKey, subtle_importKey, subtle_encrypt.
    js_light. cbn - [String.append].
    destruct (if_truthy (localStorage w0 !! "app_crypto_key_v2")) as [[| | |]|];
      cbn - [String.append]; rewrite ?Hc0, ?Hq0; cbn - [String.append];
      rewrite ?Hq0; eexists; reflexivity. }
  destruct (Hset w Hc Hq) as (c1 & Hs1).
  intros w1 w2. subst w2 w1. unfold exec, result. rewrite Hs1. cbn [fst snd].
  split; [reflexivity|]. split; [reflexivity|].
  assert (Hg1 : exists c,
             CryptoManager.getItem key
               (with_localStorage (<[key := PlainJSON data]> (localStorage w))
                  (with_console c1 w))
             = (Return (Some data),
                with_localStorage (delete key (localStorage w)) (with_console c w))).
  { unfold CryptoManager.getItem at 1. js_light. cbn - [String.append CryptoManager.setItem].
    rewrite lookup_insert_ne by exact Hne. rewrite He.
    cbn - [String.append CryptoManager.setItem].
    rewrite lookup_insert_eq. js_light. cbn - [String.append CryptoManager.setItem].
    match goal with
    | |- context [CryptoManager.setItem key data ?w0] =>
        destruct (Hset w0 Hc Hq) as (c2 & Hs2); rewrite Hs2
    end.
    cbn - [String.append]. eexists. f_equal.
    unfold with_localStorage. cbn. f_equal.
    rewrite delete_insert_eq, delete_insert_eq. reflexivity. }
  destruct Hg1 as (c2 & Hg1). rewrite Hg1. cbn [fst snd].
  split; [reflexivity|]. split; [reflexivity|].
  unfold CryptoManager.getItem. js_light. cbn - [String.append].
  rewrite lookup_delete_ne by exact Hne. rewrite He. cbn - [String.append].
  rewrite lookup_delete_eq. reflexivity.
Qed.
End CryptoFacts.

Lemma setItem_then_getItem_witness :
  result (CryptoManager.setItem "qr-codes" [] ;; CryptoManager.getItem "qr-codes")
    Example.two_local
  = Return (Some []).
Proof.
  apply (setItem_then_getItem "qr-codes" [] Example.two_local).
  split; [reflexivity|]. split; [reflexivity|]. right. exists 7%nat. reflexivity.
Defined.

Lemma plaintext_fallback_read_once_witness :
  result (CryptoManager.getItem "qr-codes")
    (exec (CryptoManager.getItem "qr-codes")
       (exec (CryptoManager.setItem "qr-codes" []) Example.insecure))
  = Return None.
Proof.
  apply (plaintext_fallback_read_once "qr-codes" [] Example.insecure);
    reflexivity.
Defined.

(** *** FirebaseManager on the browser's storage *)

Section LocalTier.
Import FirebaseManager.

(** What [getItem] leaves behind in such a browser. *)
Lemma getItem_healthy w :
  healthy w ->
  exists w1,
    CryptoManager.getItem "qr-codes" w = (Return (readable w), w1)
    /\ readable w1 = readable w
    /\ healthy w1
    /\ surroundings w1 = surroundings w.
Proof.
  intros Hh. destruct (getItem_readable w) as (w1 & Hg & Hsur).
  destruct (getItem_twice w Hh) as [Hr Hh1].
  unfold exec in Hr, Hh1. rewrite Hg in Hr, Hh1. cbn in Hr, Hh1.
  exists w1. auto.
Qed.

Lemma surroundings_handle w w' :
  surroundings w' = surroundings w ->
  firebase_defined w' && window_database w' = firebase_defined w && window_database w.
Proof. unfold surroundings. intros Hs. injection Hs. intros. congruence. Qed.

Lemma surroundings_clock w w' : surroundings w' = surroundings w -> clock w' = clock w.
Proof. unfold surroundings. intros Hs. injection Hs. auto. Qed.

(** X21. Without the backend's handle, in a browser that can encrypt
    and store, a record written by [createQRCode] is read back by
    [getQRCode] under the identifier returned, field for field, its
    [createdAt] being the browser's clock; the cache is the one read
    before, with the record assigned under its identifier. *)
Theorem createQRCode_then_getQRCode_local (originalText name : string)
    (logoPath : option string) (w : World) :
  healthy w ->
  firebase_defined w && window_database w = false ->
  exists id w1,
    createQRCode originalText name logoPath w = (Return id, w1)
    /\ result (getQRCode id) w1
       = Return (Some (QR.mk id name originalText logoPath 0 (clock w) None))
    /\ readable w1
       = Some (Obj.set id (QR.mk id name originalText logoPath 0 (clock w) None)
                 (default [] (readable w)))
    /\ remote w1 = remote w.
Proof.
  intros Hh Hhandle.
  destruct (getItem_healthy w Hh) as (w1 & Hg & Hr1 & Hh1 & Hsur1).
  set (id := Base36.toString (clock w) +:+ "_" +:+ JSString.substr 2 9 (random36 w)).
  set (d := QR.mk id name originalText logoPath 0 (clock w) None).
  destruct (setItem_readable (Obj.set id d (default [] (readable w))) w1 Hh1)
    as (w2 & Hset & Hr2 & Hh2 & Hsur2).
  exists id, (with_console ((LOG, "QR code created successfully in local storage:")
                              :: console w2) w2).
  assert (Hcreate :
    createQRCode originalText name logoPath w
    = (Return id, with_console ((LOG, "QR code created successfully in local storage:")
                                  :: console w2) w2)).
  { unfold createQRCode, generateUniqueId, Date_now, backend_handle.
    js_light. cbn - [CryptoManager.getItem CryptoManager.setItem JSString.substr Base36.toString String.append Obj.set scanned].
    rewrite Hhandle. cbn - [CryptoManager.getItem CryptoManager.setItem JSString.substr Base36.toString String.append Obj.set scanned].
    rewrite Hg. cbn - [CryptoManager.getItem CryptoManager.setItem JSString.substr Base36.toString String.append Obj.set scanned].
    fold id. fold d. rewrite Hset. reflexivity. }
  split; [exact Hcreate|].
  assert (Hsur : surroundings w2 = surroundings w) by congruence.
  split; [|split].
  - unfold getQRCode, backend_handle. js_light.
    cbn - [CryptoManager.getItem JSString.substr Base36.toString String.append Obj.set Obj.get].
    assert (Hne : String.eqb id EmptyString = false) by apply newId_nonempty.
    rewrite Hne.
    cbn - [CryptoManager.getItem JSString.substr Base36.toString String.append Obj.set Obj.get].
    rewrite (surroundings_handle _ _ Hsur), Hhandle.
    cbn - [CryptoManager.getItem JSString.substr Base36.toString String.append Obj.set Obj.get].
    destruct (getItem_readable
                (with_console ((LOG, "QR code created successfully in local storage:")
                                 :: console w2) w2)) as (w3 & Hg3 & _).
    rewrite Hg3, readable_console, Hr2. cbn. rewrite get_set. reflexivity.
  - rewrite readable_console. exact Hr2.
  - cbn. apply surroundings_remote, Hsur.
Qed.

(** X22. Without the backend's handle, in a browser that can encrypt
    and store, counting a scan of a record of the cache whose count is
    below [2^53] in magnitude returns without error and leaves the
    cache with that record's count one higher and its [lastScanned] set
    to the browser's clock, the backend as it was. *)
Theorem incrementScanCount_counts_locally (id : string) (w : World)
    (o : Obj.t) (d : QR.data) :
  Obj.key id = true ->
  healthy w ->
  firebase_defined w && window_database w = false ->
  readable w = Some o ->
  Obj.get id o = Some d ->
  Z.abs (QR.scanCount d) < 2 ^ 53 ->
  result (incrementScanCount id) w = Return tt
  /\ readable (exec (incrementScanCount id) w)
     = Some (Obj.set id (scanned (clock w) d) o)
  /\ Obj.get id (Obj.set id (scanned (clock w) d) o)
     = Some (QR.mk (QR.id d) (QR.name d) (QR.originalText d) (QR.logoPath d)
               (QR.scanCount d + 1) (QR.createdAt d) (Some (clock w)))
  /\ remote (exec (incrementScanCount id) w) = remote w.
Proof.
  intros _ Hh Hhandle Hread Hget Hx.
  destruct (getItem_healthy w Hh) as (w1 & Hg & Hr1 & Hh1 & Hsur1).
  destruct (setItem_readable (Obj.set id (scanned (clock w) d) o) w1 Hh1)
    as (w2 & Hset & Hr2 & Hh2 & Hsur2).
  assert (Hrun :
    incrementScanCount id w
    = (Return tt, with_console ((LOG, "Scan count incremented locally for:")
                                  :: console w2) w2)).
  { unfold incrementScanCount, Date_now, backend_handle.
    js_light. cbn - [CryptoManager.getItem CryptoManager.setItem JSString.substr Base36.toString String.append Obj.set scanned].
    rewrite Hhandle. cbn - [CryptoManager.getItem CryptoManager.setItem JSString.substr Base36.toString String.append Obj.set scanned].
    rewrite Hg, Hread. cbn - [CryptoManager.getItem CryptoManager.setItem JSString.substr Base36.toString String.append Obj.set scanned].
    rewrite Hget. cbn - [CryptoManager.getItem CryptoManager.setItem JSString.substr Base36.toString String.append Obj.set scanned].
    rewrite (surroundings_clock _ _ Hsur1), Hset. reflexivity. }
  unfold result, exec. rewrite Hrun. cbn [fst snd].
  split; [reflexivity|]. split; [rewrite readable_console; exact Hr2|].
  split; [rewrite get_set, (scanned_count _ _ Hx); reflexivity|].
  cbn. apply surroundings_remote. congruence.
Qed.
End LocalTier.

Lemma createQRCode_then_getQRCode_local_witness :
  exists id w1,
    FirebaseManager.createQRCode "https://example.com" "Demo" None Example.two_local
    = (Return id, w1)
    /\ result (FirebaseManager.getQRCode id) w1
       = Return (Some (QR.mk id "Demo" "https://example.com" None 0 1700000000000 None)).
Proof.
  destruct (createQRCode_then_getQRCode_local "https://example.com" "Demo" None
              Example.two_local)
    as (id & w1 & Hc & Hg & _).
  - split; [reflexivity|]. split; [reflexivity|]. right. exists 7%nat. reflexivity.
  - reflexivity.
  - exists id, w1. split; [exact Hc|exact Hg].
Defined.

Lemma incrementScanCount_counts_locally_witness :
  result (FirebaseManager.incrementScanCount "a") Example.two_local = Return tt.
Proof.
  apply (incrementScanCount_counts_locally "a" Example.two_local
           [("a", Example.record "a" "https://meet.example/abc" 100);
            ("b", Example.record "b" "https://meet.example/abc" 200)]
           (Example.record "a" "https://meet.example/abc" 100)).
  - reflexivity.
  - split; [reflexivity|]. split; [reflexivity|]. right. exists 7%nat. reflexivity.
  - reflexivity.
  - vm_compute. reflexivity.
  - reflexivity.
  - reflexivity.
Defined.

(** *** Identifiers *)

Section IdMore.
Import JSString StringOps Base36Read.

Lemma digit_value_digit d : (d < 36)%N -> digit_value (Base36.digit d) = d.
Proof.
  intros Hd. unfold digit_value, Base36.digit.
  destruct (N.ltb_spec d 10).
  - rewrite N_ascii_embedding by lia.
    destruct (N.ltb_spec (48 + d) 58); lia.
  - rewrite N_ascii_embedding by lia.
    destruct (N.ltb_spec (87 + d) 58); lia.
Qed.

Lemma value_from_shift s :
  forall acc, value_from acc s = (acc * 36 ^ N.of_nat (String.length s) + value_from 0 s)%N.
Proof.
  induction s as [|c s IH]; intros acc.
  - cbn. lia.
  - cbn [value_from String.length]. rewrite IH, (IH (0 * 36 + digit_value c)%N).
    rewrite Nat2N.inj_succ, N.pow_succ_r'. lia.
Qed.

Lemma digits_value fuel :
  forall n acc,
    (0 < n)%N -> (n < 2 ^ N.of_nat fuel)%N ->
    value_from 0 (Base36.digits fuel n acc)
    = (n * 36 ^ N.of_nat (String.length acc) + value_from 0 acc)%N.
Proof.
  induction fuel as [|fuel IH]; intros n acc Hpos Hlt.
  - cbn in Hlt. lia.
  - cbn [Base36.digits]. cbv zeta.
    assert (Hmod : (n mod 36 < 36)%N) by (apply N.mod_lt; lia).
    assert (Hacc : value_from 0 (String (Base36.digit (n mod 36)) acc)
                   = ((n mod 36) * 36 ^ N.of_nat (String.length acc) + value_from 0 acc)%N).
    { cbn [value_from]. rewrite value_from_shift, digit_value_digit by exact Hmod.
      lia. }
    pose proof (N.div_mod n 36 ltac:(lia)) as Hdm.
    destruct (N.eqb_spec (n / 36) 0) as [Hz|Hnz].
    + rewrite Hacc. rewrite Hz in Hdm. f_equal. f_equal. lia.
    + rewrite IH.
      * rewrite Hacc. cbn [String.length]. rewrite Nat2N.inj_succ, N.pow_succ_r'.
        set (P := (36 ^ N.of_nat (String.length acc))%N). nia.
      * lia.
      * rewrite Nat2N.inj_succ, N.pow_succ_r' in Hlt.
        apply N.Div0.div_lt_upper_bound. lia.
Qed.

Lemma size_nat_bound p : (Npos p < 2 ^ N.of_nat (Pos.size_nat p))%N.
Proof.
  induction p as [p IH|p IH|]; cbn [Pos.size_nat].
  - rewrite Nat2N.inj_succ, N.pow_succ_r'. lia.
  - rewrite Nat2N.inj_succ, N.pow_succ_r'. lia.
  - cbn. lia.
Qed.

Lemma digits_avoid (x : ascii) fuel :
  (forall d, (d < 36)%N -> Base36.digit d <> x) ->
  forall n acc,
    count (Ascii.eqb x) acc = O ->
    count (Ascii.eqb x) (Base36.digits fuel n acc) = O.
Proof.
  intros Hx. induction fuel as [|fuel IH]; intros n acc Hacc; [exact Hacc|].
  cbn [Base36.digits]. cbv zeta.
  assert (Hc : count (Ascii.eqb x) (String (Base36.digit (n mod 36)) acc) = O).
  { cbn [count]. destruct (Ascii.eqb_spec x (Base36.digit (n mod 36))) as [E|_];
      [|exact Hacc].
    exfalso. apply (Hx (n mod 36)%N); [apply N.mod_lt; lia|congruence]. }
  destruct (n / 36 =? 0)%N; [exact Hc|apply IH, Hc].
Qed.

Lemma digit_not_minus d : (d < 36)%N -> Base36.digit d <> "-"%char.
Proof.
  intros Hd E. apply (f_equal N_of_ascii) in E. unfold Base36.digit in E.
  destruct (d <? 10)%N; rewrite N_ascii_embedding in E by lia; cbn in E; lia.
Qed.

Lemma digits_nonempty fuel n acc :
  fuel <> O -> Base36.digits fuel n acc <> EmptyString.
Proof.
  destruct fuel as [|fuel]; [congruence|]. intros _.
  cbn [Base36.digits]. cbv zeta. revert n acc.
  induction fuel as [|fuel IH]; intros n acc.
  - cbn. destruct (n / 36 =? 0)%N; discriminate.
  - destruct (n / 36 =? 0)%N; [discriminate|].
    cbn [Base36.digits]. cbv zeta. apply IH.
Qed.

(** The digits are read back as the number. *)
Lemma parse_toString n : parse (Base36.toString n) = n.
Proof.
  destruct n as [|p|p]; [reflexivity| |].
  - unfold Base36.toString.
    pose proof (digits_value (Pos.size_nat p) (Npos p) EmptyString
                  ltac:(lia) (size_nat_bound p)) as Hv.
    pose proof (digits_avoid "-" (Pos.size_nat p) digit_not_minus (Npos p) EmptyString
                  eq_refl) as Hm.
    destruct (Base36.digits (Pos.size_nat p) (N.pos p) "") as [|c r] eqn:E.
    + exfalso. apply (digits_nonempty _ _ _ ltac:(destruct p; discriminate) E).
    + unfold parse. cbn [count] in Hm.
      rewrite Ascii.eqb_sym.
      destruct (Ascii.eqb "-" c); [discriminate|].
      rewrite Hv. cbn. lia.
  - unfold Base36.toString.
    pose proof (digits_value (Pos.size_nat p) (Npos p) EmptyString
                  ltac:(lia) (size_nat_bound p)) as Hv.
    change ("-" +:+ Base36.digits (Pos.size_nat p) (N.pos p) "")
      with (String "-" (Base36.digits (Pos.size_nat p) (N.pos p) "")).
    unfold parse. rewrite Ascii.eqb_refl, Hv. cbn. lia.
Qed.

Lemma split_at_separator t1 :
  forall t2 s1 s2,
    plain t1 -> plain t2 ->
    t1 +:+ "_" +:+ s1 = t2 +:+ "_" +:+ s2 ->
    t1 = t2 /\ s1 = s2.
Proof.
  induction t1 as [|c t1 IH]; intros [|c2 t2] s1 s2 Hp1 Hp2 Heq; simpl in *.
  - injection Heq as Heq. auto.
  - injection Heq as Hc _. destruct Hp2 as [Hc2 _]. congruence.
  - injection Heq as Hc _. destruct Hp1 as [Hc1 _]. congruence.
  - injection Heq as Hc Heq. destruct Hp1 as [_ Hp1]. destruct Hp2 as [_ Hp2].
    destruct (IH t2 s1 s2 Hp1 Hp2 Heq) as [Ht Hs]. subst. auto.
Qed.

(** X23. Two identifiers made by [generateUniqueId] are equal
    exactly when they were made at the same millisecond with random
    numbers whose first nine digits in base 36 are the same. *)
Theorem generateUniqueId_collides (w1 w2 : World) :
  result FirebaseManager.generateUniqueId w1 = result FirebaseManager.generateUniqueId w2
  <-> clock w1 = clock w2
      /\ substr 2 9 (random36 w1) = substr 2 9 (random36 w2).
Proof.
  unfold FirebaseManager.generateUniqueId, Date_now. js_light.
  cbn - [Base36.toString substr String.append].
  split.
  - intros Heq. injection Heq as Heq.
    apply split_at_separator in Heq; try apply toString_plain.
    destruct Heq as [Ht Hs]. split; [|exact Hs].
    rewrite <- (parse_toString (clock w1)), Ht. apply parse_toString.
  - intros [-> ->]. reflexivity.
Qed.
End IdMore.

(** *** QRRedirectManager: the resolution of a scan *)

Section ResolutionFacts.
Context `{Platform}.
Import QRRedirectManager.

(** Reading the inline payload writes to the console at most. *)
Lemma getFallbackDataFromURL_console w :
  exists v c, getFallbackDataFromURL w = (Return v, with_console (c ++ console w) w)
              /\ Forall (fun e => ~ In (snd e) tracking_messages) c.
Proof.
  unfold getFallbackDataFromURL, builtin. js_light. cbn.
  assert (Hw : with_console (console w) w = w) by (destruct w; reflexivity).
  destruct (nonempty (search_data w)) as [encoded|]; cbn.
  2:{ exists JNull, []. split; [cbn; rewrite Hw; reflexivity|constructor]. }
  destruct (decodeURIComponent encoded) as [decoded|]; cbn.
  2:{ eexists JNull, [_]. split; [reflexivity|].
      repeat constructor. cbn. intros [?|[?|[?|[?|[]]]]]; discriminate. }
  destruct (atob decoded) as [decodedData|]; cbn.
  2:{ eexists JNull, [_]. split; [reflexivity|].
      repeat constructor. cbn. intros [?|[?|[?|[?|[]]]]]; discriminate. }
  destruct (JSON_parse decodedData) as [v|]; cbn.
  - exists v, []. split; [cbn; rewrite Hw; reflexivity|constructor].
  - eexists JNull, [_]. split; [reflexivity|].
    repeat constructor. cbn. intros [?|[?|[?|[?|[]]]]]; discriminate.
Qed.

(** X24. A link without an [id] parameter, or with an empty one:
    whatever its [data] parameter, the page shows the error of the
    missing identifier, reads no store, writes none and counts no
    scan. *)
Theorem constructor_without_identifier (w : World) :
  nonempty (search_id w) = None ->
  exists this w',
    constructor w = (Return this, w')
    /\ page w' = PageError "Invalid QR code link. Missing identifier."
    /\ remote w' = remote w
    /\ localStorage w' = localStorage w
    /\ untracked w w'.
Proof.
  intros Hid. destruct (getFallbackDataFromURL_console w) as (v & c & Hf & Hc).
  unfold constructor, getQRIdFromURL, init, showError. js_light. cbn.
  rewrite Hf. cbn. rewrite Hid. cbn.
  eexists _, _. split; [reflexivity|]. cbn. repeat split.
  exists c. split; [reflexivity|exact Hc].
Qed.

Lemma lookup_backend (id : string) (w : World) (d : QR.data) :
  manager_loaded w = true ->
  firebase_defined w && window_database w = true ->
  remote_fault w OpGet = false ->
  id <> EmptyString ->
  remote w !! id = Some d ->
  lookup id w
  = (Return (Some d),
     with_console ((LOG, "QR data loaded from Firebase") :: console w) w).
Proof.
  intros Hm Hh Hf Hid Hd.
  unfold lookup, source_firebase, FirebaseManager_ref, FirebaseManager.getQRCode,
    FirebaseManager.backend_handle, FirebaseManager.database_once.
  js_light. cbn. rewrite Hm. cbn.
  destruct (String.eqb_spec id EmptyString) as [|_]; [contradiction|]. cbn.
  rewrite Hh. cbn. rewrite Hf, Hd. reflexivity.
Qed.

(** X25. When the backend holds the identifier and answers, the
    sources of [init] yield the backend's record and the browser's
    storage is not touched: nothing is read from it, nothing migrated;
    the console gains the one message of the first source. *)
Theorem lookup_prefers_backend (id : string) (w : World) (d : QR.data) :
  manager_loaded w = true ->
  firebase_defined w && window_database w = true ->
  remote_fault w OpGet = false ->
  id <> EmptyString ->
  remote w !! id = Some d ->
  result (lookup id) w = Return (Some d)
  /\ localStorage (exec (lookup id) w) = localStorage w
  /\ remote (exec (lookup id) w) = remote w
  /\ console (exec (lookup id) w)
     = (LOG, "QR data loaded from Firebase") :: console w.
Proof.
  intros Hm Hh Hf Hid Hd. unfold result, exec.
  rewrite (lookup_backend id w d Hm Hh Hf Hid Hd). cbn. auto.
Qed.

(** A scan of a record that the backend holds and lets count. *)
Lemma constructor_counts (id : string) (w : World) (d : QR.data) :
  manager_loaded w = true ->
  firebase_defined w && window_database w = true ->
  remote_fault w OpGet = false ->
  remote_fault w OpTransaction = false ->
  search_id w = Some id ->
  id <> EmptyString ->
  remote w !! id = Some d ->
  exists c,
    exec constructor w
    = with_page (classify (QR.originalText d))
        (with_console c
           (with_remote (<[id := FirebaseManager.scanned (server_time w) d]> (remote w))
              w)).
Proof.
  intros Hm Hh Hg Ht Hs Hid Hd.
  destruct (getFallbackDataFromURL_console w) as (v & c & Hf & _).
  assert (Hne : nonempty (Some id) = Some id) by (destruct id; [contradiction|reflexivity]).
  unfold exec, constructor, getQRIdFromURL. js_light. cbn - [init].
  rewrite Hf, Hs. cbn - [init].
  unfold init. cbn [qrId]. rewrite Hne. js_light.
  rewrite (lookup_backend id _ d); try assumption.
  cbn - [redirectToOriginal SecurityUtils.truncateText FirebaseManager.scanned].
  unfold track, FirebaseManager_ref, FirebaseManager.incrementScanCount,
    FirebaseManager.backend_handle, FirebaseManager.database_transaction.
  js_light. cbn - [redirectToOriginal SecurityUtils.truncateText FirebaseManager.scanned].
  rewrite Hm. cbn - [redirectToOriginal SecurityUtils.truncateText FirebaseManager.scanned].
  rewrite Hh. cbn - [redirectToOriginal SecurityUtils.truncateText FirebaseManager.scanned].
  rewrite Ht, Hd.
  cbn - [redirectToOriginal SecurityUtils.truncateText FirebaseManager.scanned].
  unfold redirectToOriginal, classify, showTextContent. js_light.
  destruct (isValidURL (SecurityUtils.sanitizeText (QR.originalText d)));
    cbn - [SecurityUtils.truncateText SecurityUtils.sanitizeText FirebaseManager.scanned];
    eexists; reflexivity.
Qed.

(** X26. Two successive scans of a code the backend holds and lets
    count, its count at least two steps below [2^53] in magnitude: both
    show the same page, the one the redirection makes of the content;
    the count rises by one each time, by two in all; the content and
    every other child of the backend stay as they were. *)
Theorem second_scan_counts_again (id : string) (w : World) (d : QR.data) :
  manager_loaded w = true ->
  firebase_defined w && window_database w = true ->
  remote_fault w OpGet = false ->
  remote_fault w OpTransaction = false ->
  search_id w = Some id ->
  id <> EmptyString ->
  remote w !! id = Some d ->
  Z.abs (QR.scanCount d) + 1 < 2 ^ 53 ->
  let w1 := exec constructor w in
  let w2 := exec constructor w1 in
  page w1 = page (exec (redirectToOriginal (QR.originalText d)) w)
  /\ page w2 = page w1
  /\ QR.scanCount <$> remote w1 !! id = Some (QR.scanCount d + 1)
  /\ QR.scanCount <$> remote w2 !! id = Some (QR.scanCount d + 2)
  /\ QR.originalText <$> remote w2 !! id = Some (QR.originalText d)
  /\ forall other, other <> id -> remote w2 !! other = remote w !! other.
Proof.
  intros Hm Hh Hg Ht Hs Hid Hd Hx w1 w2.
  destruct (constructor_counts id w d Hm Hh Hg Ht Hs Hid Hd) as (c1 & H1).
  assert (Hpage : page (exec (redirectToOriginal (QR.originalText d)) w)
                  = classify (QR.originalText d))
    by apply redirectToOriginal_page.
  assert (Hd1 : remote w1 !! id = Some (FirebaseManager.scanned (server_time w) d)).
  { subst w1. rewrite H1. cbn. apply lookup_insert_eq. }
  assert (Hsame : manager_loaded w1 = manager_loaded w
                  /\ firebase_defined w1 && window_database w1
                     = firebase_defined w && window_database w
                  /\ remote_fault w1 = remote_fault w
                  /\ search_id w1 = search_id w
                  /\ server_time w1 = server_time w).
  { subst w1. rewrite H1. cbn. auto. }
  destruct Hsame as (Hm1 & Hh1 & Hf1 & Hs1 & Hst1).
  destruct (constructor_counts id w1 (FirebaseManager.scanned (server_time w) d))
    as (c2 & H2); try congruence.
  subst w2. rewrite H2, Hst1. subst w1. rewrite H1, Hpage.
  cbn - [FirebaseManager.scanned].
  split; [reflexivity|]. split; [reflexivity|].
  rewrite !lookup_insert_eq.
  rewrite (scanned_count _ d) by lia.
  rewrite scanned_count by (cbn; lia). cbn.
  split; [reflexivity|]. split; [f_equal; lia|]. split; [reflexivity|].
  intros other Hne. rewrite !lookup_insert_ne by congruence. reflexivity.
Qed.
End ResolutionFacts.

Lemma constructor_without_identifier_witness :
  exists this w',
    QRRedirectManager.constructor (H := Example.platform) Example.rejecting
    = (Return this, w')
    /\ page w' = PageError "Invalid QR code link. Missing identifier.".
Proof.
  destruct (constructor_without_identifier (H := Example.platform) Example.rejecting
              eq_refl)
    as (this & w' & Hc & Hp & _).
  exists this, w'. split; [exact Hc|exact Hp].
Defined.

Lemma lookup_prefers_backend_witness :
  result (QRRedirectManager.lookup "abc") Example.hostile
  = Return (Some (Example.record "abc" "javascript:alert(1)" 100)).
Proof.
  apply (lookup_prefers_backend "abc" Example.hostile
           (Example.record "abc" "javascript:alert(1)" 100));
    (reflexivity || discriminate).
Defined.

Lemma second_scan_counts_again_witness :
  QR.scanCount
  <$> remote (exec (QRRedirectManager.constructor (H := Example.platform))
                (exec (QRRedirectManager.constructor (H := Example.platform))
                   Example.hostile)) !! "abc"
  = Some 2.
Proof.
  apply (second_scan_counts_again (H := Example.platform) "abc" Example.hostile
           (Example.record "abc" "javascript:alert(1)" 100));
    (reflexivity || discriminate).
Defined.

(** *** The connection monitor *)

Section ConnectionFacts.
Import Connection.

Lemma last_cons_default {A} (l : list A) (x d1 d2 : A) :
  List.last (x :: l) d1 = List.last (x :: l) d2.
Proof.
  revert x. induction l as [|y l IH]; intros x; [reflexivity|].
  change (List.last (y :: l) d1 = List.last (y :: l) d2). apply IH.
Qed.

Lemma monitor_frame values :
  forall w,
    result (monitor values) w = Return tt
    /\ firebase_defined (exec (monitor values) w) = firebase_defined w
    /\ window_database (exec (monitor values) w) = window_database w
    /\ firebaseInitialized (exec (monitor values) w) = firebaseInitialized w
    /\ databaseAvailable (exec (monitor values) w) = List.last values (databaseAvailable w)
    /\ remote (exec (monitor values) w) = remote w
    /\ remote_fault (exec (monitor values) w) = remote_fault w
    /\ server_time (exec (monitor values) w) = server_time w
    /\ clock (exec (monitor values) w) = clock w
    /\ random36 (exec (monitor values) w) = random36 w
    /\ localStorage (exec (monitor values) w) = localStorage w.
Proof.
  induction values as [|connected rest IH]; intros w.
  - cbn. repeat split.
  - assert (Hstep : exists w1,
              on_connected connected w = (Return tt, w1)
              /\ firebase_defined w1 = firebase_defined w
              /\ window_database w1 = window_database w
              /\ firebaseInitialized w1 = firebaseInitialized w
              /\ databaseAvailable w1 = connected
              /\ remote w1 = remote w
              /\ remote_fault w1 = remote_fault w
              /\ server_time w1 = server_time w
              /\ clock w1 = clock w
              /\ random36 w1 = random36 w
              /\ localStorage w1 = localStorage w).
    { unfold on_connected. js_light. cbn.
      destruct connected, (databaseAvailable w); cbn;
        eexists; split; try reflexivity; cbn; repeat split. }
    destruct Hstep as (w1 & Hrun & H1 & H2 & H3 & H4 & H5 & H6 & H7 & H8 & H9 & H10).
    specialize (IH w1).
    cbn [monitor]. unfold result, exec in *. unfold bind. rewrite Hrun.
    destruct (monitor rest w1) as [r w2]. cbn [fst snd] in *.
    destruct IH as (I0 & I1 & I2 & I3 & I4 & I5 & I6 & I7 & I8 & I9 & I10).
    repeat split; try congruence.
    rewrite I4, H4. destruct rest as [|b rest]; [reflexivity|].
    change (List.last (connected :: b :: rest) (databaseAvailable w))
      with (List.last (b :: rest) (databaseAvailable w)).
    apply last_cons_default.
Qed.

(** X27. Once the script has initialised the backend, the connection
    monitor does not steer the manager: after any succession of
    connection events that ends with a disconnection,
    [FirebaseStatus.getStatus] reads [disconnected] and [isAvailable]
    is false, yet [createQRCode] still writes the record to the
    backend and nothing to the browser's storage. *)
Theorem disconnection_keeps_backend_tier (values : list bool)
    (originalText name : string) (logoPath : option string) (w : World) :
  firebase_defined w = true ->
  remote_fault w OpSet = false ->
  let w1 := exec (initialize (fun _ => false) ;; monitor (values ++ [false])) w in
  result FirebaseStatus.getStatus w1 = Return "disconnected"
  /\ result FirebaseStatus.isAvailable w1 = Return false
  /\ exists id w2,
       FirebaseManager.createQRCode originalText name logoPath w1 = (Return id, w2)
       /\ remote w2 !! id
          = Some (QR.mk id name originalText logoPath 0 (server_time w) None)
       /\ localStorage w2 = localStorage w.
Proof.
  intros Hf Hset w1.
  set (w0 := exec (initialize (fun _ => false)) w).
  assert (H0 : initialize (fun _ => false) w = (Return tt, w0)
               /\ firebase_defined w0 = true /\ window_database w0 = true
               /\ firebaseInitialized w0 = true
               /\ remote w0 = remote w /\ remote_fault w0 = remote_fault w
               /\ server_time w0 = server_time w /\ localStorage w0 = localStorage w).
  { subst w0. unfold exec, initialize, firebase_ref, sdk. js_light. cbn.
    rewrite Hf. cbn. repeat split. exact Hf. }
  destruct H0 as (Hinit & F1 & F2 & F3 & F4 & F5 & F6 & F7).
  destruct (monitor_frame (values ++ [false]) w0)
    as (M0 & M1 & M2 & M3 & M4 & M5 & M6 & M7 & M8 & M9 & M10).
  assert (Hw1 : w1 = exec (monitor (values ++ [false])) w0).
  { subst w1. unfold exec, bind. rewrite Hinit. reflexivity. }
  clearbody w1. subst w1.
  set (w1 := exec (monitor (values ++ [false])) w0) in *.
  rewrite last_last in M4.
  unfold FirebaseStatus.getStatus, FirebaseStatus.isAvailable. js_light. cbn.
  rewrite M3, M4, F3. cbn. split; [reflexivity|]. split; [reflexivity|].
  unfold FirebaseManager.createQRCode, FirebaseManager.generateUniqueId, Date_now,
    FirebaseManager.backend_handle, FirebaseManager.database_set.
  js_light. cbn - [JSString.substr Base36.toString String.append].
  rewrite M1, M2, F1, F2. cbn - [JSString.substr Base36.toString String.append].
  rewrite M6, F5, Hset. cbn - [JSString.substr Base36.toString String.append].
  eexists _, _. split; [reflexivity|].
  cbn - [JSString.substr Base36.toString String.append].
  rewrite lookup_insert_eq, M7, F6, M10, F7. split; reflexivity.
Qed.
End ConnectionFacts.

Lemma disconnection_keeps_backend_tier_witness :
  result FirebaseStatus.getStatus
    (exec (Connection.initialize (fun _ => false) ;;
           Connection.monitor ([true] ++ [false])) Example.stranger)
  = Return "disconnected".
Proof.
  apply (disconnection_keeps_backend_tier [true]
           "https://example.com" "Demo" None Example.stranger);
    reflexivity.
Defined.

(** *** QRGenerator *)

Section GeneratorFacts.
Context `{Platform}.
Import QRGenerator.

(** X28. [generateQRCode] when the limiter holds ten requests of the
    last minute: it stops with the rate-limit alert; the limiter, the
    stores and the current code are as they were.  The alert offers
    what [getRemainingRequests] counts at its own reading of the
    clock: ten less the requests still within the minute then, so 0
    codes exactly when ten are, and more when some have left it since
    the request was refused. *)
Theorem generateQRCode_over_limit (confirmCreate : bool) (g : t) (rl : RateLimiter.t) :
  rateLimiter g = Some rl ->
  RateLimiter.configured rl ->
  (10 <= length (retained (clock (world g))
                   (RateLimiter.userRequests rl RateLimiter.anonymous)))%nat ->
  let still :=
    length (retained (later g) (RateLimiter.userRequests rl RateLimiter.anonymous)) in
  exists g',
    generateQRCode confirmCreate g = (RateLimited, g')
    /\ dialogs g' = RateLimitAlert (Z.max 0 (10 - Z.of_nat still)) :: dialogs g
    /\ (dialogs g' = RateLimitAlert 0 :: dialogs g <-> (10 <= still)%nat)
    /\ rateLimiter g' = Some rl
    /\ currentQRId g' = currentQRId g
    /\ remote (world g') = remote (world g)
    /\ localStorage (world g') = localStorage (world g).
Proof.
  intros Hrl Hc Hfull still.
  assert (Hrem : RateLimiter.getRemainingRequests (later g)
                   RateLimiter.anonymous rl = Z.max 0 (10 - Z.of_nat still)).
  { unfold RateLimiter.getRemainingRequests.
    rewrite (recentRequests_retained _ _ _ Hc).
    destruct Hc as [-> _]. reflexivity. }
  unfold generateQRCode, rate_limit_exceeded. rewrite Hrl.
  rewrite (canMakeRequest_refused _ _ _ Hc Hfull).
  cbn. rewrite Hrl, Hrem.
  eexists. split; [reflexivity|]. cbn. repeat split; try exact Hrl.
  - intros Heq. injection Heq as Heq. lia.
  - intros Hstill. do 2 f_equal. lia.
Qed.

Lemma retained_idem now l : retained now (retained now l) = retained now l.
Proof. apply retained_later. lia. Qed.

(** X29. [generateQRCode] with an input that the validation refuses,
    when the limiter allows the request: it stops with an alert of the
    validation's message and changes nothing in the world, but the
    request stays recorded by the limiter, which allows one request
    fewer. *)
Theorem generateQRCode_rejected_input_spends_quota (confirmCreate : bool) (g : t)
    (rl : RateLimiter.t) (message : string) :
  rateLimiter g = Some rl ->
  RateLimiter.configured rl ->
  (length (retained (clock (world g))
             (RateLimiter.userRequests rl RateLimiter.anonymous)) < 10)%nat ->
  validate g (StringOps.trim (qrTextArea g)) (StringOps.trim (qrNameInput g))
  = Throw message ->
  exists g' rl',
    generateQRCode confirmCreate g = (Rejected, g')
    /\ dialogs g' = Alert message :: dialogs g
    /\ world g' = world g
    /\ currentQRId g' = currentQRId g
    /\ rateLimiter g' = Some rl'
    /\ RateLimiter.getRemainingRequests (clock (world g)) RateLimiter.anonymous rl'
       = RateLimiter.getRemainingRequests (clock (world g)) RateLimiter.anonymous rl - 1.
Proof.
  intros Hrl Hc Hfree Hv.
  destruct (canMakeRequest_allowed _ _ _ Hc Hfree) as (rl' & Hcall & Hreq & _ & Hc').
  unfold generateQRCode, rate_limit_exceeded. rewrite Hrl, Hcall.
  unfold validate in *. cbn [securityUtils with_rateLimiter]. rewrite Hv.
  eexists _, rl'. split; [reflexivity|]. cbn. repeat split.
  unfold RateLimiter.getRemainingRequests.
  rewrite !recentRequests_retained by assumption.
  rewrite Hreq, retained_app, retained_idem, length_app.
  destruct Hc as [-> _]. destruct Hc' as [-> _].
  assert (Hnow : retained (clock (world g)) [clock (world g)] = [clock (world g)]).
  { unfold retained. cbn. destruct (Z.ltb_spec (clock (world g) - clock (world g)) 60000);
      [reflexivity|lia]. }
  rewrite Hnow. cbn [length]. lia.
Qed.

Lemma checkForDuplicate_backend originalText name w :
  firebase_defined w && window_database w = true ->
  exists r c,
    FirebaseManager.checkForDuplicate originalText name w
    = (Return r, with_console (c ++ console w) w).
Proof.
  intros Hh.
  assert (Hw : with_console (console w) w = w) by (destruct w; reflexivity).
  unfold FirebaseManager.checkForDuplicate, FirebaseManager.backend_handle,
    FirebaseManager.database_recent.
  js_light. cbn. rewrite Hh. cbn.
  destruct (remote_fault w OpQuery); cbn.
  - eexists _, [_]. reflexivity.
  - eexists _, []. cbn. rewrite Hw. reflexivity.
Qed.

Lemma createQRCode_backend originalText name logoPath w id w' :
  firebase_defined w && window_database w = true ->
  FirebaseManager.createQRCode originalText name logoPath w = (Return id, w') ->
  remote w' !! id = Some (QR.mk id name originalText logoPath 0 (server_time w) None)
  /\ localStorage w' = localStorage w.
Proof.
  intros Hh.
  unfold FirebaseManager.createQRCode, FirebaseManager.generateUniqueId, Date_now,
    FirebaseManager.backend_handle, FirebaseManager.database_set.
  js_light. cbn - [JSString.substr Base36.toString String.append].
  rewrite Hh. cbn - [JSString.substr Base36.toString String.append].
  destruct (remote_fault w OpSet); cbn - [JSString.substr Base36.toString String.append];
    [discriminate|].
  intros Heq. injection Heq as <- <-.
  cbn - [JSString.substr Base36.toString String.append].
  split; [apply lookup_insert_eq|reflexivity].
Qed.

Lemma create_backend text name g id g' :
  firebase_defined (world g) && window_database (world g) = true ->
  create text name g = (Created id, g') ->
  remote (world g') !! id
  = Some (QR.mk id name text (Some (selectedLogo g)) 0 (server_time (world g)) None)
  /\ localStorage (world g') = localStorage (world g)
  /\ currentQRId g' = Some id.
Proof.
  intros Hh. unfold create, run, QRRedirectManager.FirebaseManager_ref, failed.
  unfold bind at 1.
  destruct (manager_loaded (world g)); [|discriminate].
  destruct (FirebaseManager.createQRCode text name (Some (selectedLogo g)) (world g))
    as [[qrId|e] w1] eqn:Hcreate; [|discriminate].
  intros Heq. injection Heq as <- <-. cbn.
  destruct (createQRCode_backend _ _ _ _ _ _ Hh Hcreate) as [Hr Hl]. auto.
Qed.

Lemma rate_limit_allows g g0 :
  rate_limit_exceeded g = (false, g0) ->
  world g0 = world g
  /\ securityUtils g0 = securityUtils g
  /\ selectedLogo g0 = selectedLogo g.
Proof.
  unfold rate_limit_exceeded. destruct (rateLimiter g) as [rl|].
  - destruct (RateLimiter.canMakeRequest _ _ rl) as [[|] rl'];
      intros Heq; [|discriminate]. injection Heq as <-. auto.
  - intros Heq. injection Heq as <-. auto.
Qed.

Lemma validateQRInput_true text name :
  SecurityChecks.validateQRInput text name <> Return false.
Proof.
  unfold SecurityChecks.validateQRInput.
  repeat match goal with |- context [if ?b then _ else _] => destruct b end;
    discriminate.
Qed.

(** X30. With the backend's handle, whenever [generateQRCode] ends
    with a code created, the backend holds under the new identifier
    the record of the trimmed content and label with the selected
    logo, count 0 and the server's time; the content has 1 to 4000
    characters and the label 1 to 100; the identifier is the page's
    current code and the browser's storage is as it was. *)
Theorem generateQRCode_creates_valid_record (confirmCreate : bool) (g g' : t)
    (qrId : string) :
  firebase_defined (world g) && window_database (world g) = true ->
  generateQRCode confirmCreate g = (Created qrId, g') ->
  let text := StringOps.trim (qrTextArea g) in
  let name := StringOps.trim (qrNameInput g) in
  remote (world g') !! qrId
  = Some (QR.mk qrId name text (Some (selectedLogo g)) 0 (server_time (world g)) None)
  /\ (1 <= String.length text <= 4000)%nat
  /\ (1 <= String.length name <= 100)%nat
  /\ currentQRId g' = Some qrId
  /\ localStorage (world g') = localStorage (world g).
Proof.
  intros Hh Hgen text name. revert Hgen.
  unfold generateQRCode. fold text name.
  destruct (rate_limit_exceeded g) as [[|] g0] eqn:Hrate; [discriminate|].
  destruct (rate_limit_allows g g0 Hrate) as (Hw0 & Hs0 & Hl0).
  unfold validate. rewrite Hs0.
  destruct (securityUtils g); [|discriminate].
  destruct (SecurityChecks.validateQRInput text name) as [[|]|e] eqn:Hv;
    [|destruct (validateQRInput_true _ _ Hv)|discriminate].
  destruct (validateQRInput_limits text name Hv) as (H1 & H2 & _).
  unfold run, QRRedirectManager.FirebaseManager_ref. unfold bind at 1.
  rewrite Hw0.
  destruct (manager_loaded (world g)); [|discriminate].
  destruct (checkForDuplicate_backend text name (world g) Hh) as (r & c & Hdup).
  rewrite Hdup.
  assert (Hcreate : forall g1,
            world g1 = with_console (c ++ console (world g)) (world g) ->
            selectedLogo g1 = selectedLogo g ->
            create text name g1 = (Created qrId, g') ->
            remote (world g') !! qrId
            = Some (QR.mk qrId name text (Some (selectedLogo g)) 0
                      (server_time (world g)) None)
            /\ (1 <= String.length text <= 4000)%nat
            /\ (1 <= String.length name <= 100)%nat
            /\ currentQRId g' = Some qrId
            /\ localStorage (world g') = localStorage (world g)).
  { intros g1 Hw1 Hlogo Hc.
    destruct (create_backend text name g1 qrId g') as (Hr & Hl & Hid);
      [rewrite Hw1; exact Hh|exact Hc|].
    rewrite Hw1, Hlogo in Hr. rewrite Hw1 in Hl. cbn in Hr, Hl. auto. }
  destruct r as [existing|].
  - destruct confirmCreate; [discriminate|]. apply Hcreate; [reflexivity|exact Hl0].
  - apply Hcreate; [reflexivity|exact Hl0].
Qed.
End GeneratorFacts.

(** The second reading one millisecond after the first: the alert
    offers 0 codes.  A minute after: it offers 10. *)
Lemma generateQRCode_over_limit_witness :
  (exists g',
      QRGenerator.generateQRCode (H := Example.platform) false
        (Sample.page Example.stranger Sample.busy " https://example.com " "Demo")
      = (QRGenerator.RateLimited, g')
      /\ QRGenerator.dialogs g' = [QRGenerator.RateLimitAlert 0])
  /\ (exists g',
        QRGenerator.generateQRCode (H := Example.platform) false
          (Sample.page_after 60000 Example.stranger Sample.busy
             " https://example.com " "Demo")
        = (QRGenerator.RateLimited, g')
        /\ QRGenerator.dialogs g' = [QRGenerator.RateLimitAlert 10]).
Proof.
  split.
  - destruct (generateQRCode_over_limit (H := Example.platform) false
                (Sample.page Example.stranger Sample.busy " https://example.com " "Demo")
                Sample.busy)
      as (g' & Hrun & Hd & _).
    + reflexivity.
    + split; reflexivity.
    + vm_compute. lia.
    + exists g'. split; [exact Hrun|]. rewrite Hd. vm_compute. reflexivity.
  - destruct (generateQRCode_over_limit (H := Example.platform) false
                (Sample.page_after 60000 Example.stranger Sample.busy
                   " https://example.com " "Demo")
                Sample.busy)
      as (g' & Hrun & Hd & _).
    + reflexivity.
    + split; reflexivity.
    + vm_compute. lia.
    + exists g'. split; [exact Hrun|]. rewrite Hd. vm_compute. reflexivity.
Defined.

Lemma generateQRCode_rejected_input_spends_quota_witness :
  fst (QRGenerator.generateQRCode (H := Example.platform) false
         (Sample.page Example.stranger RateLimiter.new "javascript:alert(1)" "Demo"))
  = QRGenerator.Rejected.
Proof.
  destruct (generateQRCode_rejected_input_spends_quota (H := Example.platform) false
              (Sample.page Example.stranger RateLimiter.new "javascript:alert(1)" "Demo")
              RateLimiter.new "Invalid content detected in text")
    as (g' & rl' & Hrun & _).
  - reflexivity.
  - split; reflexivity.
  - vm_compute. lia.
  - vm_compute. reflexivity.
  - rewrite Hrun. reflexivity.
Defined.

Lemma generateQRCode_creates_valid_record_witness :
  (1 <= String.length (StringOps.trim " https://example.com ") <= 4000)%nat.
Proof.
  destruct (QRGenerator.generateQRCode (H := Example.platform) false
              (Sample.page Example.stranger RateLimiter.new " https://example.com " "Demo"))
    as [outcome g'] eqn:Hrun.
  assert (Hout : outcome = QRGenerator.Created "loyw3v28_i").
  { apply (f_equal fst) in Hrun. vm_compute in Hrun. symmetry. exact Hrun. }
  subst outcome.
  apply (generateQRCode_creates_valid_record (H := Example.platform) false
           (Sample.page Example.stranger RateLimiter.new " https://example.com " "Demo")
           g' "loyw3v28_i" eq_refl Hrun).
Defined.

